(** * Climate-data-analysis-service: the summer-days notebook and the
      multimodel comparison notebook, embedded and verified.

    The notebooks are straight-line Python over numpy, pandas and xarray.
    Each cell that computes something is translated below into a Rocq
    function with the name the notebook gives the variable it defines;
    the calls into numpy, pandas and xarray are modelled by what the
    libraries document for the arguments the notebooks pass.  Python
    exceptions are values of [exn]; a computation that can raise returns a
    [result].

    Floating-point values are IEEE 754 numbers, represented by [spec_float]
    and operated on by the reference implementation of the Standard Library
    ([SFsub], [SFcompare], ...).  The arrays are taken to hold float64, the
    dtype of a Python float and of the coordinates; the dtype of the
    temperature comes from the file that is read.  The order of the values,
    on which the search for the grid cell and the count rest, is the same at
    every precision.

    Part I holds the model, Part II the facts about it. *)

(** * Part I: the model *)

From Stdlib Require Import ZArith Bool Lia String Ascii DecimalString.
From Stdlib Require Import Floats.SpecFloat.
From Stdlib Require Import Sorted Permutation List.
Import ListNotations.

(** ** Python exceptions and the error monad *)

Inductive exn : Type :=
| ValueError
| IndexError
| KeyError.

Inductive result (A : Type) : Type :=
| Ok (a : A)
| Raise (e : exn).

Arguments Ok {A} a.
Arguments Raise {A} e.

Definition bind {A B : Type} (r : result A) (k : A -> result B) : result B :=
  match r with
  | Ok a => k a
  | Raise e => Raise e
  end.

Notation "x <- c1 ;; c2" := (bind c1 (fun x => c2))
  (at level 61, c1 at next level, right associativity).

(** ** binary64 *)

Module F64.

Definition prec : Z := 53.
Definition emax : Z := 1024.

Definition float : Type := spec_float.

Definition nan : float := S754_nan.
Definition infinity : float := S754_infinity false.

Definition of_Z (z : Z) : float := binary_normalize prec emax z 0 false.

Definition sub : float -> float -> float := SFsub prec emax.
Definition div : float -> float -> float := SFdiv prec emax.
Definition abs : float -> float := SFabs.

Definition eqb : float -> float -> bool := SFeqb.
Definition ltb : float -> float -> bool := SFltb.
Definition leb : float -> float -> bool := SFleb.

Definition isnan (x : float) : bool :=
  match x with S754_nan => true | _ => false end.


(** The literal [m]e-[k], for instance [dec 27315 2] for [273.15]:
    the correctly rounded quotient of two exactly represented integers. *)
Definition dec (m : Z) (k : nat) : float := div (of_Z m) (of_Z (10 ^ Z.of_nat k)).

End F64.

Abbreviation float := F64.float.

(** ** numpy and xarray operations used by the notebooks *)

Module Np.

(** [array - scalar] *)
Definition sub_scalar (a : list float) (s : float) : list float :=
  map (fun x => F64.sub x s) a.

(** [np.abs] *)
Definition abs (a : list float) : list float := map F64.abs a.

(** One element of [np.maximum]: [(in1 >= in2 || isnan(in1)) ? in1 : in2]. *)
Definition maximum1 (in1 in2 : float) : float :=
  if F64.leb in2 in1 || F64.isnan in1 then in1 else in2.

(** One element of [np.fmin]: [(in1 <= in2 || isnan(in2)) ? in1 : in2]. *)
Definition fmin1 (in1 in2 : float) : float :=
  if F64.leb in1 in2 || F64.isnan in2 then in1 else in2.

(** [np.maximum] of two labelled one-dimensional arrays whose dimensions
    differ: xarray broadcasts by dimension name, the dimension of the
    first argument comes first. *)
Definition maximum (a b : list float) : list (list float) :=
  map (fun x => map (fun y => maximum1 x y) b) a.

(** [np.min] of a labelled array is xarray's [min], which skips NaN for
    a floating-point array ([nanmin], a reduction with [fmin]); it raises
    [ValueError] on an array without elements. *)
Definition min (c : list (list float)) : result float :=
  match concat c with
  | [] => Raise ValueError
  | x :: xs => Ok (fold_left fmin1 xs x)
  end.

(** [c == m] *)
Definition eq_scalar (c : list (list float)) (m : float) : list (list bool) :=
  map (map (fun x => F64.eqb x m)) c.

Fixpoint nonzero_row (i j : nat) (row : list bool) : list (nat * nat) :=
  match row with
  | [] => []
  | b :: row' => (if b then [(i, j)] else []) ++ nonzero_row i (S j) row'
  end.

Fixpoint nonzero_from (i : nat) (m : list (list bool)) : list (nat * nat) :=
  match m with
  | [] => []
  | row :: m' => nonzero_row i 0 row ++ nonzero_from (S i) m'
  end.

(** [np.where(mask)] with one argument: the indices of the true entries
    in row-major order, one index array per dimension. *)
Definition where_ (mask : list (list bool)) : list nat * list nat :=
  let ps := nonzero_from 0 mask in (map fst ps, map snd ps).

(** The mask entry at [(i, j)], [false] outside the array. *)
Definition entry (mask : list (list bool)) (i j : nat) : bool :=
  nth j (nth i mask []) false.

(** The entry of a two-dimensional array, NaN outside of it. *)
Definition cell (c : list (list float)) (i j : nat) : float :=
  nth j (nth i c []) F64.nan.

End Np.

(** ** Notebook: summer days (src/unnamed/part_000).
       Section 4, nearest model grid cell (lines 300 to 306) *)

(** [([xloc], [yloc]) = ...]: each of the two sequences must hold exactly
    one element, otherwise the unpacking raises [ValueError]. *)
Definition unpack_singletons (w : list nat * list nat) : result (nat * nat) :=
  match w with
  | ([xloc], [yloc]) => Ok (xloc, yloc)
  | _ => Raise ValueError
  end.

Definition abslat (lat : list float) (latitude : float) : list float :=
  Np.abs (Np.sub_scalar lat latitude).

Definition abslon (lon : list float) (longitude : float) : list float :=
  Np.abs (Np.sub_scalar lon longitude).

Definition c (lat lon : list float) (latitude longitude : float) : list (list float) :=
  Np.maximum (abslon lon longitude) (abslat lat latitude).

(** The cell returns [(xloc, yloc)]: [xloc] indexes [lon], [yloc] indexes [lat]. *)
Definition nearest_grid_cell (lat lon : list float) (latitude longitude : float)
  : result (nat * nat) :=
  let c := c lat lon latitude longitude in
  m <- Np.min c ;;
  unpack_singletons (Np.where_ (Np.eq_scalar c m)).

(** The distance of the claim, at the pair (lon index [i], lat index [j]). *)
Definition chebyshev (lat lon : list float) (latitude longitude : float) (i j : nat) : float :=
  Np.maximum1 (F64.abs (F64.sub (nth j lat F64.nan) latitude))
              (F64.abs (F64.sub (nth i lon F64.nan) longitude)).

Definition grid_lat : list float := [F64.dec 520 1; F64.dec 535 1; F64.dec 550 1].
Definition grid_lon : list float := [F64.dec 95 1; F64.dec 100 1; F64.dec 105 1].

Definition query_lat : float := F64.dec 5355 2.
Definition query_lon : float := F64.dec 100 1.

(** A grid on which two cells are equally near: latitudes 52 and 54,
    one longitude 10, and the point (53, 10). *)
Definition tie_lat : list float := [F64.of_Z 52; F64.of_Z 54].
Definition tie_lon : list float := [F64.of_Z 10].

(** A grid of 2.5 degrees in latitude and 1.25 degrees in longitude, and the
    point (53.5, 9.5).  All of the numbers are binary64 values. *)
Definition coarse_lat : list float := [F64.of_Z 50; F64.dec 525 1; F64.of_Z 55].
Definition coarse_lon : list float := [F64.dec 875 2; F64.of_Z 10; F64.dec 1125 2].
Definition coarse_latitude : float := F64.dec 535 1.
Definition coarse_longitude : float := F64.dec 95 1.

(** ** Timestamps

    A [datetime64[ns]] value is the number of nanoseconds since
    1970-01-01T00:00:00. *)

Module Time.

Local Open Scope Z_scope.

Definition datetime64 : Type := Z.

(** Days from 1970-01-01 to the day [y]-[m]-[d] of the proleptic
    Gregorian calendar. *)
Definition days_from_civil (y m d : Z) : Z :=
  let y' := if m <=? 2 then y - 1 else y in
  let era := y' / 400 in
  let yoe := y' - era * 400 in
  let doy := (153 * (if 2 <? m then m - 3 else m + 9) + 2) / 5 + d - 1 in
  let doe := yoe * 365 + yoe / 4 - yoe / 100 + doy in
  era * 146097 + doe - 719468.

Definition is_leap (y : Z) : bool :=
  (y mod 4 =? 0) && (negb (y mod 100 =? 0) || (y mod 400 =? 0)).

Definition days_in_month (y m : Z) : Z :=
  if m =? 2 then (if is_leap y then 29 else 28)
  else if (m =? 4) || (m =? 6) || (m =? 9) || (m =? 11) then 30 else 31.

Definition ns_per_second : Z := 1000000000.
Definition ns_per_day : Z := 86400 * ns_per_second.

(** The timestamp [y]-[mo]-[d]T[h]:[mi]:[s].[ns]. *)
Definition civil (y mo d h mi s ns : Z) : datetime64 :=
  days_from_civil y mo d * ns_per_day + ((h * 60 + mi) * 60 + s) * ns_per_second + ns.

Definition digit (ch : ascii) : option Z :=
  let n := Z.of_N (N_of_ascii ch) in
  if (48 <=? n) && (n <=? 57) then Some (n - 48) else None.

(** Reads exactly [n] decimal digits. *)
Fixpoint digits (n : nat) (acc : Z) (s : string) : result (Z * string) :=
  match n with
  | O => Ok (acc, s)
  | S n' =>
      match s with
      | String ch s' =>
          match digit ch with
          | Some v => digits n' (10 * acc + v) s'
          | None => Raise ValueError
          end
      | EmptyString => Raise ValueError
      end
  end.

Definition expect (ch : ascii) (s : string) : result string :=
  match s with
  | String ch' s' => if Ascii.eqb ch ch' then Ok s' else Raise ValueError
  | EmptyString => Raise ValueError
  end.

(** The timestamp that pandas reads from a label of the layout
    [YYYY-MM-DDThh:mm:ss.fffffffff], the layout of [time_start] and
    [time_end]; the label is given to the nanosecond, so it denotes one
    instant.  Any other text is rejected here.  The bound of 64 bits on the
    count of nanoseconds (years 1678 to 2261) is not modelled; the years of
    the notebook lie within it. *)
Definition parse (label : string) : result datetime64 :=
  p <- digits 4 0 label ;; let (y, s) := p in
  s <- expect "-" s ;;
  p <- digits 2 0 s ;; let (mo, s) := p in
  s <- expect "-" s ;;
  p <- digits 2 0 s ;; let (d, s) := p in
  s <- expect "T" s ;;
  p <- digits 2 0 s ;; let (h, s) := p in
  s <- expect ":" s ;;
  p <- digits 2 0 s ;; let (mi, s) := p in
  s <- expect ":" s ;;
  p <- digits 2 0 s ;; let (sec, s) := p in
  s <- expect "." s ;;
  p <- digits 9 0 s ;; let (ns, s) := p in
  match s with
  | EmptyString =>
      if (1 <=? mo) && (mo <=? 12) && (1 <=? d) && (d <=? days_in_month y mo)
         && (h <? 24) && (mi <? 60) && (sec <? 60)
      then Ok (civil y mo d h mi sec ns)
      else Raise ValueError
  | _ => Raise ValueError
  end.

(** [searchsorted] on an increasing index: the position of the first
    element that is not below [v] ([side='left']), or not below or equal to
    it ([side='right']). *)
Fixpoint searchsorted_left (a : list datetime64) (v : datetime64) : nat :=
  match a with
  | [] => O
  | t :: a' => if t <? v then S (searchsorted_left a' v) else O
  end.

Fixpoint searchsorted_right (a : list datetime64) (v : datetime64) : nat :=
  match a with
  | [] => O
  | t :: a' => if t <=? v then S (searchsorted_right a' v) else O
  end.

(** An index read from a CF time coordinate increases. *)
Definition increasing (a : list datetime64) : Prop := Sorted Z.le a.

(** [index.is_monotonic_increasing]: no element is below the one before
    it. *)
Fixpoint is_monotonic_increasing (a : list datetime64) : bool :=
  match a with
  | [] => true
  | t :: a' =>
      match a' with
      | [] => true
      | t' :: _ => (t <=? t') && is_monotonic_increasing a'
      end
  end.

(** [index.slice_indexer(start, stop)] for two labels given as text, as
    xarray calls it for a label slice, with xarray's check of the result.
    On an index that increases the slice runs between the positions of the
    two searches.  On any other index pandas (2.0 and later) raises
    [KeyError] unless both labels occur in the index and then selects the
    elements between them by value; xarray raises [KeyError] unless that
    selection is the whole index.  (Before 2.0 pandas warned where it now
    asks for the labels to occur.) *)
Definition slice_indexer (index : list datetime64) (t0 t1 : datetime64)
  : result (nat * nat) :=
  if is_monotonic_increasing index
  then Ok (searchsorted_left index t0, searchsorted_right index t1)
  else
    let in_index := existsb (Z.eqb t0) index && existsb (Z.eqb t1) index in
    let mask := map (fun t => (t0 <=? t) && (t <=? t1)) index in
    if in_index && forallb (fun selected => selected) mask
    then Ok (O, length index)
    else Raise KeyError.

End Time.

(** Python [a[start:stop]] for positions within the list. *)
Definition slice {A : Type} (start stop : nat) (a : list A) : list A :=
  firstn (stop - start) (skipn start a).

(** Python [str] of an integer. *)
Definition str (n : Z) : string := NilZero.string_of_int (Z.to_int n).

(** Python [range(a, b)]. *)
Definition range (a b : Z) : list Z :=
  map (fun k => (a + Z.of_nat k)%Z) (seq 0 (Z.to_nat (b - a))).

(** ** Notebook: summer days.  Section 1, the selection widgets
       (lines 68 to 89) *)

Definition experiments : list (string * list Z) :=
  [("historical"%string, range 1850 2015); ("ssp126"%string, range 2015 2101);
   ("ssp245"%string, range 2015 2101); ("ssp370"%string, range 2015 2101);
   ("ssp585"%string, range 2015 2101)].

(** [year_box.value] is an option of the range of the selected experiment. *)
Definition year_box_value (year : Z) : Prop :=
  exists experiment, In experiment experiments /\ In year (snd experiment).

(** ** Notebook: summer days.  Section 3, load the model data
       (lines 255 to 266) *)

(** A labelled array with the dimensions (time, lat, lon), as
    [ds_tasmax["tasmax"]]: [values] holds one lat-by-lon field per time. *)
Record DataArray : Type := mkDataArray {
  time : list Time.datetime64;
  lat : list float;
  lon : list float;
  values : list (list (list float))
}.

Definition time_start (year : Z) : string :=
  (str year ++ "-01-01T12:00:00.000000000")%string.

Definition time_end (year : Z) : string :=
  (str year ++ "-12-31T12:00:00.000000000")%string.

(** [da.loc[start:stop, :, :]]: a label slice on the time index includes
    both bounds; on an increasing index pandas turns it into the positions
    [searchsorted(start, 'left') : searchsorted(stop, 'right')], and on an
    index that does not increase the slice raises [KeyError] unless it is
    the whole index. *)
Definition loc_time (da : DataArray) (start stop : string) : result DataArray :=
  t0 <- Time.parse start ;;
  t1 <- Time.parse stop ;;
  positions <- Time.slice_indexer (time da) t0 t1 ;;
  let (i0, i1) := positions in
  Ok (mkDataArray (slice i0 i1 (time da)) (lat da) (lon da) (slice i0 i1 (values da))).

Definition tasmax_year_xr (tasmax_xr : DataArray) (year : Z) : result DataArray :=
  loc_time tasmax_xr (time_start year) (time_end year).

(** The samples of a series: its (timestamp, field) pairs. *)
Definition samples (da : DataArray) : list (Time.datetime64 * list (list float)) :=
  combine (time da) (values da).

(** The shape of the values agrees with the coordinates, and the time
    index increases. *)
Definition well_formed (da : DataArray) : Prop :=
  length (values da) = length (time da) /\
  Forall (fun field => length field = length (lat da) /\
                       Forall (fun row => length row = length (lon da)) field)
         (values da) /\
  Time.increasing (time da).

(** The year of the claim, [Y-01-01T00:00:00, Y-12-31T23:59:59], and the
    bounds of the notebook, [Y-01-01T12:00:00, Y-12-31T12:00:00]. *)
Definition in_calendar_year (year : Z) (t : Time.datetime64) : Prop :=
  (Time.civil year 1 1 0 0 0 0 <= t <= Time.civil year 12 31 23 59 59 0)%Z.

Definition in_noon_year (year : Z) (t : Time.datetime64) : Prop :=
  (Time.civil year 1 1 12 0 0 0 <= t <= Time.civil year 12 31 12 0 0 0)%Z.

Definition in_noon_yearb (year : Z) (t : Time.datetime64) : bool :=
  ((Time.civil year 1 1 12 0 0 0 <=? t) && (t <=? Time.civil year 12 31 12 0 0 0))%Z.

(** A daily series stamped at noon, [n] days from the day number [day0];
    the field at day [k] holds the single value [v0 + k]. *)
Definition daily_noon (day0 : Z) (n : nat) : list Time.datetime64 :=
  map (fun k => ((day0 + Z.of_nat k) * Time.ns_per_day + 12 * 3600 * Time.ns_per_second)%Z)
      (seq 0 n).

Definition daily_fields (v0 : Z) (n : nat) : list (list (list float)) :=
  map (fun k => [[F64.of_Z (v0 + Z.of_nat k)]]) (seq 0 n).

(** The series from 2014-12-01 to 2016-01-31: 31 + 365 + 31 days. *)
Definition series_2014_2016 : DataArray :=
  mkDataArray (daily_noon (Time.days_from_civil 2014 12 1) 427)
              [F64.dec 535 1] [F64.dec 100 1] (daily_fields 0 427).

Definition series_2015 : DataArray :=
  mkDataArray (daily_noon (Time.days_from_civil 2015 1 1) 365)
              [F64.dec 535 1] [F64.dec 100 1] (daily_fields 31 365).

(** A series whose only sample is stamped 2015-01-01T00:00:00. *)
Definition midnight_series : DataArray :=
  mkDataArray [Time.civil 2015 1 1 0 0 0 0] [F64.dec 535 1] [F64.dec 100 1]
              [[[F64.of_Z 300]]].

(** A series that ends in 2014. *)
Definition series_dec_2014 : DataArray :=
  mkDataArray (daily_noon (Time.days_from_civil 2014 12 1) 31)
              [F64.dec 535 1] [F64.dec 100 1] (daily_fields 0 31).

(** The check that the two labels of a year parse to noon of its first and
    of its last day. *)
Definition bounds_ok (year : Z) : bool :=
  match Time.parse (time_start year), Time.parse (time_end year) with
  | Ok t0, Ok t1 =>
      ((t0 =? Time.civil year 1 1 12 0 0 0) && (t1 =? Time.civil year 12 31 12 0 0 0)
       && (t0 <=? t1))%Z
  | _, _ => false
  end.

(** ** Notebook: summer days.  Section 5, the series at the grid cell
       (line 383) and the count of summer days (line 411) *)

(** [da[:, yloc, xloc]]: positional indexing checks each index against the
    shape and raises [IndexError] outside of it. *)
Definition isel (da : DataArray) (yloc xloc : nat) : result (list float) :=
  if (yloc <? length (lat da)) && (xloc <? length (lon da))
  then Ok (map (fun field => nth xloc (nth yloc field []) F64.nan) (values da))
  else Raise IndexError.

(** [tasmax_year_xr[:, yloc, xloc] - 273.15], Kelvin to degrees Celsius. *)
Definition tasmax_year_place_xr (tasmax_year_xr : DataArray) (yloc xloc : nat)
  : result (list float) :=
  kelvin <- isel tasmax_year_xr yloc xloc ;;
  Ok (Np.sub_scalar kelvin (F64.dec 27315 2)).

(** [a > s] *)
Definition gt_scalar (a : list float) (s : float) : list bool :=
  map (fun v => F64.ltb s v) a.

(** [a[mask]], the entries of [a] at which the mask is true. *)
Definition getitem_mask (a : list float) (mask : list bool) : list float :=
  map fst (filter snd (combine a mask)).

(** [x[x > threshold].size] *)
Definition summer_days (threshold : float) (x : list float) : nat :=
  length (getitem_mask x (gt_scalar x threshold)).

Definition no_summer_days_model (tasmax_year_place_xr : list float) : nat :=
  summer_days (F64.of_Z 25) tasmax_year_place_xr.



(** Sections 3 to 5 in sequence. *)
Definition notebook (tasmax_xr : DataArray) (year : Z) (latitude longitude : float)
  : result nat :=
  year_xr <- tasmax_year_xr tasmax_xr year ;;
  loc <- nearest_grid_cell (lat year_xr) (lon year_xr) latitude longitude ;;
  let (xloc, yloc) := loc in
  place_xr <- tasmax_year_place_xr year_xr yloc xloc ;;
  Ok (no_summer_days_model place_xr).

(** Decision procedures for [well_formed] and [in_calendar_year]. *)
Fixpoint increasingb (a : list Time.datetime64) : bool :=
  match a with
  | t :: a' =>
      match a' with
      | t' :: _ => (t <=? t')%Z && increasingb a'
      | [] => true
      end
  | [] => true
  end.

Definition well_formedb (da : DataArray) : bool :=
  (length (values da) =? length (time da))
  && forallb (fun field => (length field =? length (lat da))
                           && forallb (fun row => length row =? length (lon da)) field)
             (values da)
  && increasingb (time da).

Definition in_calendar_yearb (year : Z) (t : Time.datetime64) : bool :=
  ((Time.civil year 1 1 0 0 0 0 <=? t) && (t <=? Time.civil year 12 31 23 59 59 0))%Z.

(** 365 daily values in degrees Celsius: 30 on every 36th day from day 5
    on, which makes ten days, and 20 on the other days. *)
Definition year_of_values : list float :=
  map (fun k => if (k mod 36 =? 5) then F64.of_Z 30 else F64.of_Z 20) (seq 0 365).

(** ** Python lists, strings and dictionaries *)

Module Py.

(** [a[i]] for [i >= 0] *)
Definition getitem {A : Type} (a : list A) (i : nat) : result A :=
  match nth_error a i with
  | Some x => Ok x
  | None => Raise IndexError
  end.

(** [a[-1]] *)
Fixpoint last_item {A : Type} (a : list A) : result A :=
  match a with
  | [] => Raise IndexError
  | [x] => Ok x
  | _ :: a' => last_item a'
  end.

(** A list comprehension whose expression can raise. *)
Fixpoint comprehension {A B : Type} (f : A -> result B) (a : list A) : result (list B) :=
  match a with
  | [] => Ok []
  | x :: a' => y <- f x ;; ys <- comprehension f a' ;; Ok (y :: ys)
  end.

(** A [for] loop over [xs] that threads the state [st] and stops at the
    first exception. *)
Fixpoint for_each {S A : Type} (body : S -> A -> result S) (st : S) (xs : list A)
  : result S :=
  match xs with
  | [] => Ok st
  | x :: xs' => st' <- body st x ;; for_each body st' xs'
  end.

(** [sub in s] for strings *)
Fixpoint contains (sub s : string) : bool :=
  String.prefix sub s ||
  match s with
  | EmptyString => false
  | String _ s' => contains sub s'
  end.

(** [s.split(sep)] for a separator of one character *)
Fixpoint split (sep : ascii) (s : string) : list string :=
  match s with
  | EmptyString => [EmptyString]
  | String ch s' =>
      if Ascii.eqb ch sep then EmptyString :: split sep s'
      else match split sep s' with
           | field :: fields => String ch field :: fields
           | [] => [String ch EmptyString]
           end
  end.

(** [list.sort()] on strings, which Python compares by code point. *)
Fixpoint insert (x : string) (a : list string) : list string :=
  match a with
  | [] => [x]
  | y :: a' => if String.leb x y then x :: a else y :: insert x a'
  end.

Fixpoint sort (a : list string) : list string :=
  match a with
  | [] => []
  | x :: a' => insert x (sort a')
  end.

(** A dictionary with string keys: the items in insertion order. *)
Definition dict (V : Type) : Type := list (string * V).

(** [key in d] *)
Definition dict_in {V : Type} (key : string) (d : dict V) : bool :=
  existsb (fun item => String.eqb (fst item) key) d.

(** [d[key]] *)
Fixpoint dict_get {V : Type} (d : dict V) (key : string) : result V :=
  match d with
  | [] => Raise KeyError
  | (k, v) :: d' => if String.eqb k key then Ok v else dict_get d' key
  end.

(** [d[key] = v]: a key already present keeps its place. *)
Fixpoint dict_set {V : Type} (d : dict V) (key : string) (v : V) : dict V :=
  match d with
  | [] => [(key, v)]
  | (k, v') :: d' =>
      if String.eqb k key then (k, v) :: d' else (k, v') :: dict_set d' key v
  end.

(** [list(d)], the keys in insertion order *)
Definition keys {V : Type} (d : dict V) : list string := map fst d.

(** [dict.fromkeys(a)] *)
Definition fromkeys (a : list string) : dict unit :=
  fold_left (fun d key => dict_set d key tt) a [].

End Py.

(** ** Notebook: multimodel comparison
       (src/notebooks/demo/use-case_multimodel_comparison_xarray_cdo_cmip6.ipynb).
       The historical and scenario match (lines 94 to 159) *)

Definition subs : string := "_r1i1".

(** [[model for model in files if subs in model]] on the sorted listing *)
Definition r1_files (files : list string) : list string :=
  filter (Py.contains subs) (Py.sort files).

(** [[filename.split('_')[2] for filename in r1_files]] *)
Definition models (r1_files : list string) : result (list string) :=
  Py.comprehension (fun filename => Py.getitem (Py.split "_" filename) 2) r1_files.

Definition unique_models (models : list string) : list string :=
  Py.keys (Py.fromkeys models).

(** The body of the loop over [unique_models]. *)
Definition latest_version (r1_files : list string)
           (modelversions_latest : Py.dict string) (model : string)
  : result (Py.dict string) :=
  let model_files := filter (Py.contains model) r1_files in
  versions <- Py.comprehension
                (fun filename => Py.getitem (Py.split "_" filename) 7) model_files ;;
  latest <- Py.last_item (Py.sort versions) ;;
  Ok (Py.dict_set modelversions_latest model latest).

(** One half of the cell: from a directory listing to the dictionary from
    model name to highest version. *)
Definition modelversions_latest (files : list string) : result (Py.dict string) :=
  let r1_files := r1_files files in
  models <- models r1_files ;;
  Py.for_each (latest_version r1_files) [] (unique_models models).

(** [for key in modelversions_latest_hist:
       if key in modelversions_latest_ssp245: model_list.append(key)] *)
Definition model_list_loop (modelversions_latest_hist modelversions_latest_ssp245
                            : Py.dict string) : list string :=
  fold_left (fun model_list key =>
               if Py.dict_in key modelversions_latest_ssp245
               then model_list ++ [key] else model_list)
            (Py.keys modelversions_latest_hist) [].

Definition model_list (files_hist files_ssp245 : list string) : result (list string) :=
  modelversions_latest_hist <- modelversions_latest files_hist ;;
  modelversions_latest_ssp245 <- modelversions_latest files_ssp245 ;;
  Ok (model_list_loop modelversions_latest_hist modelversions_latest_ssp245).

(** The model names of a listing: the third field of every file name that
    holds [subs], in the order of the sorted listing. *)
Definition model_names (files : list string) : list string :=
  map (fun filename => nth 2 (Py.split "_" filename) EmptyString) (r1_files files).

(** The position of the first occurrence of [name]. *)
Fixpoint first_index (name : string) (a : list string) : nat :=
  match a with
  | [] => 0
  | x :: a' => if String.eqb x name then 0 else S (first_index name a')
  end.

(** Every file name that passes the filter has the eight fields the cell
    reads. *)
Definition listing_ok (files : list string) : Prop :=
  forall filename, In filename files -> Py.contains subs filename = true ->
                   8 <= length (Py.split "_" filename).

Definition listing_okb (files : list string) : bool :=
  forallb (fun filename => negb (Py.contains subs filename)
                           || (8 <=? length (Py.split "_" filename))) files.

Definition example_files_hist : list string :=
  ["tas_Amon_MPI-ESM1-2-LR_historical_r1i1p1f1_gn_185001-201412_v20190710.nc";
   "tas_Amon_CanESM5_historical_r1i1p1f1_gn_185001-201412_v20190429.nc";
   "tas_Amon_CanESM5_historical_r2i1p1f1_gn_185001-201412_v20190429.nc";
   "tas_Amon_IPSL-CM6A-LR_historical_r1i1p1f1_gr_185001-201412_v20180803.nc";
   "tas_Amon_CanESM5_historical_r1i1p1f1_gn_185001-201412_v20190306.nc";
   "tas_Amon_BCC-ESM1_historical_r1i1p1f1_gn_185001-201412_v20181214.nc";
   "tas_Amon_GISS-E2-1-G_historical_r2i1p1f1_gn_185001-201412_v20190903.nc"]%string.

Definition example_files_ssp245 : list string :=
  ["tas_Amon_MPI-ESM1-2-LR_ssp245_r1i1p1f1_gn_201501-210012_v20190710.nc";
   "tas_Amon_IPSL-CM6A-LR_ssp245_r1i1p1f1_gr_201501-210012_v20190119.nc";
   "tas_Amon_CanESM5_ssp245_r1i1p1f1_gn_201501-210012_v20190429.nc";
   "tas_Amon_MIROC6_ssp245_r1i1p1f1_gn_201501-210012_v20190627.nc";
   "tas_Amon_GISS-E2-1-G_ssp245_r2i1p1f1_gn_201501-210012_v20190903.nc"]%string.

(** The keys after [d[key] = v], and a list without its repeated entries:
    what [list(dict.fromkeys(a))] leaves of [a]. *)
Definition add_key (ks : list string) (key : string) : list string :=
  if existsb (fun k => String.eqb k key) ks then ks else ks ++ [key].

Definition dedup (a : list string) : list string := fold_left add_key a [].

(** [x] stands before [y] in [a], by first occurrence. *)
Definition before (a : list string) (x y : string) : Prop :=
  first_index x a < first_index y a.

(** ** Notebook: multimodel comparison.  The concatenated time series
       (lines 239 to 253) *)

(** A labelled one-dimensional array over time, as [model_timeseries]:
    [.values], [['time'].values] and [.attrs]. *)
Record TimeSeries : Type := mkTimeSeries {
  ts_values : list float;
  ts_time : list Time.datetime64;
  attrs : Py.dict string
}.

(** [xr.DataArray(data=data, coords=[coord], dims='time')] raises
    [ValueError] when the coordinate and the data differ in length. *)
Definition new_DataArray (data : list float) (coord : list Time.datetime64)
  : result TimeSeries :=
  if length data =? length coord then Ok (mkTimeSeries data coord [])
  else Raise ValueError.

(** The three lists the cell works on. *)
Record Store : Type := mkStore {
  ds_hist : list TimeSeries;
  ds_ssp245 : list TimeSeries;
  ds_merged_ssp245 : list TimeSeries
}.

(** The body of the loop, at the index [i].  The two attributes compared
    with [is] are the very element of [model_list] that both loading loops
    stored, so the identity test is the equality of the names. *)
Definition merge_body (st : Store) (i : nat) : result Store :=
  hist <- Py.getitem (ds_hist st) i ;;
  last_value <- Py.last_item (ts_values hist) ;;
  ssp245 <- Py.getitem (ds_ssp245 st) i ;;
  let tas_array := [last_value] ++ ts_values ssp245 in
  last_time <- Py.last_item (ts_time hist) ;;
  let time_array := [last_time] ++ ts_time ssp245 in
  timeseries <- new_DataArray tas_array time_array ;;
  model_hist <- Py.dict_get (attrs hist) "model" ;;
  model_ssp245 <- Py.dict_get (attrs ssp245) "model" ;;
  let timeseries :=
    if String.eqb model_hist model_ssp245
    then mkTimeSeries (ts_values timeseries) (ts_time timeseries)
                      (Py.dict_set (attrs timeseries) "model" model_hist)
    else timeseries in
  Ok (mkStore (ds_hist st) (ds_ssp245 st) (ds_merged_ssp245 st ++ [timeseries])).



(** A series as the loading cells leave it: as many timestamps as values,
    and the attribute [model]. *)
Definition loaded (ts : TimeSeries) : Prop :=
  length (ts_values ts) = length (ts_time ts) /\
  Py.dict_in "model" (attrs ts) = true.



(** ** Further properties of the summer-days notebook: definitions *)

(** The pair [(i, j)] lies in the grid, its distance is a number, and no
    pair of the grid has a strictly smaller distance. *)
Definition is_minimizer (lat lon : list float) (latitude longitude : float)
           (i j : nat) : Prop :=
  i < length lon /\ j < length lat /\
  F64.isnan (chebyshev lat lon latitude longitude i j) = false /\
  forall i' j', i' < length lon -> j' < length lat ->
    F64.ltb (chebyshev lat lon latitude longitude i' j')
            (chebyshev lat lon latitude longitude i j) = false.

(** One day at 300 K on the grid of [tie_lat] and [tie_lon]. *)
Definition tie_series : DataArray :=
  mkDataArray [Time.civil 2015 7 1 12 0 0 0] tie_lat tie_lon
              [[[F64.of_Z 300]; [F64.of_Z 300]]].

(** ** Notebook: summer days.  Section 4, the model grid cell on the map
       (lines 335 to 339) *)

Module F64Arith.

Definition add : float -> float -> float := SFadd F64.prec F64.emax.

End F64Arith.

Module PyIndex.

(** [a[i]] for an integer [i] of either sign: a negative [i] counts from
    the end, and [IndexError] is raised outside of [-len(a), len(a)). *)
Definition getitem_int {A : Type} (a : list A) (i : Z) : result A :=
  let n := Z.of_nat (length a) in
  if (0 <=? i)%Z then Py.getitem a (Z.to_nat i)
  else if (- n <=? i)%Z then Py.getitem a (Z.to_nat (i + n))
  else Raise IndexError.

End PyIndex.

(** The four assignments of the bounds of the rectangle, in their order;
    the result is [[[rect_lat1_model, rect_lon1_model],
    [rect_lat2_model, rect_lon2_model]]]. *)
Definition rect_model (lat lon : list float) (xloc yloc : nat)
  : result ((float * float) * (float * float)) :=
  a <- PyIndex.getitem_int lat (Z.of_nat yloc - 1) ;;
  b <- PyIndex.getitem_int lat (Z.of_nat yloc) ;;
  let rect_lat1_model := F64.div (F64Arith.add a b) (F64.of_Z 2) in
  a <- PyIndex.getitem_int lon (Z.of_nat xloc - 1) ;;
  b <- PyIndex.getitem_int lon (Z.of_nat xloc) ;;
  let rect_lon1_model := F64.div (F64Arith.add a b) (F64.of_Z 2) in
  a <- PyIndex.getitem_int lat (Z.of_nat yloc + 1) ;;
  b <- PyIndex.getitem_int lat (Z.of_nat yloc) ;;
  let rect_lat2_model := F64.div (F64Arith.add a b) (F64.of_Z 2) in
  a <- PyIndex.getitem_int lon (Z.of_nat xloc + 1) ;;
  b <- PyIndex.getitem_int lon (Z.of_nat xloc) ;;
  let rect_lon2_model := F64.div (F64Arith.add a b) (F64.of_Z 2) in
  Ok ((rect_lat1_model, rect_lon1_model), (rect_lat2_model, rect_lon2_model)).

(** The element before the position [i], which for [i = 0] is the last
    element of the list. *)
Definition previous (a : list float) (i : nat) : float :=
  match i with
  | O => last a F64.nan
  | S i' => nth i' a F64.nan
  end.

Definition midpoint (a b : float) : float :=
  F64.div (F64Arith.add a b) (F64.of_Z 2).

(** ** Notebook: summer days.  Section 2.3, the file that holds the year
       (lines 213 to 239) *)

Module PyInt.

(** The white space that [int] skips at both ends of a text, a character
    being a code point below 256: the characters 9 to 13 and 32, and the two
    white-space characters from 128 on, 133 and 160, which [int] turns into
    spaces before it reads the text.  The separators 28 to 31 are not
    skipped: a text that holds one is rejected. *)
Definition is_space (ch : ascii) : bool :=
  let n := N_of_ascii ch in
  (((9 <=? n) && (n <=? 13)) || (n =? 32) || (n =? 133) || (n =? 160))%N.

Fixpoint lstrip (s : list ascii) : list ascii :=
  match s with
  | ch :: s' => if is_space ch then lstrip s' else s
  | [] => []
  end.

Definition strip (s : list ascii) : list ascii := rev (lstrip (rev (lstrip s))).

(** Decimal digits with single underscores between them. *)
Fixpoint body (need_digit : bool) (acc : Z) (s : list ascii) : result Z :=
  match s with
  | [] => if need_digit then Raise ValueError else Ok acc
  | ch :: s' =>
      match Time.digit ch with
      | Some v => body false (10 * acc + v) s'
      | None =>
          if Ascii.eqb ch "_" && negb need_digit then body true acc s'
          else Raise ValueError
      end
  end.

(** [int(s)] for a text [s]: white space, an optional sign, digits;
    anything else raises [ValueError]. *)
Definition int (s : string) : result Z :=
  match strip (list_ascii_of_string s) with
  | ch :: s' =>
      if Ascii.eqb ch "-" then v <- body true 0 s' ;; Ok (- v)%Z
      else if Ascii.eqb ch "+" then body true 0 s'
      else body true 0 (ch :: s')
  | [] => Raise ValueError
  end.

End PyInt.

(** A row of [cat.df]: of its columns the cells read [path] and
    [time_range]. *)
Record CatalogRow : Type := mkCatalogRow {
  path : string;
  time_range : string
}.

(** A row of [query_result_df] once the two year columns are added and
    [time_range] is dropped. *)
Record QueryRow : Type := mkQueryRow {
  q_path : string;
  start_year : Z;
  end_year : Z
}.

(** [time_range.str[0:4].astype(int)] and [time_range.str[9:13].astype(int)]:
    each column is converted as a whole, the start years first. *)
Definition query_result_df (df : list CatalogRow) : result (list QueryRow) :=
  starts <- Py.comprehension
              (fun row => PyInt.int (substring 0 4 (time_range row))) df ;;
  ends <- Py.comprehension
            (fun row => PyInt.int (substring 9 4 (time_range row))) df ;;
  Ok (map (fun r => mkQueryRow (path (fst (fst r))) (snd (fst r)) (snd r))
          (combine (combine df starts) ends)).

(** The boolean mask of the selection. *)
Definition holds_year (year : Z) (row : QueryRow) : bool :=
  ((start_year row <=? year) && (year <=? end_year row))%Z.

Definition selected_file (query_result_df : list QueryRow) (year : Z) : list QueryRow :=
  filter (holds_year year) query_result_df.

(** [selected_file["path"].values[0]] *)
Definition selected_path (df : list CatalogRow) (year : Z) : result string :=
  rows <- query_result_df df ;;
  Py.getitem (map q_path (selected_file rows year)) 0.

(** The time range of a file of daily data from January 1st of [y1] to
    December 31st of [y2], as the file names and the catalogue write it. *)
Definition daily_time_range (y1 y2 : Z) : string :=
  (str y1 ++ "0101-" ++ str y2 ++ "1231")%string.

Definition four_digit_ok (y : Z) : bool :=
  (String.length (str y) =? 4) &&
  match PyInt.int (str y) with
  | Ok v => (v =? y)%Z
  | Raise _ => false
  end.

Definition example_catalog : list CatalogRow :=
  [mkCatalogRow "/pool/tasmax_day_2015.nc" (daily_time_range 2015 2034);
   mkCatalogRow "/pool/tasmax_day_2035.nc" (daily_time_range 2035 2054);
   mkCatalogRow "/pool/tasmax_day_2055.nc" (daily_time_range 2055 2074)].

(** ** Further properties of the multimodel notebook: definitions *)

(** The eighth field of a file name, its version. *)
Definition version_of (filename : string) : string :=
  nth 7 (Py.split "_" filename) EmptyString.

(** Two models of which the name of the first is a part of the name of the
    second. *)
Definition example_files_cesm : list string :=
  ["tas_Amon_CESM2_historical_r1i1p1f1_gn_185001-201412_v20190308.nc";
   "tas_Amon_CESM2-WACCM_historical_r1i1p1f1_gn_185001-201412_v20190415.nc"]%string.

(** What the loop over [unique_models] stores for [model]: the version of
    one of the files whose name holds the model name, and the greatest of
    them in the order of strings. *)
Definition is_latest (r1_files : list string) (model version : string) : Prop :=
  (exists filename, In filename r1_files /\ Py.contains model filename = true /\
                    version_of filename = version) /\
  forall filename, In filename r1_files -> Py.contains model filename = true ->
                   String.leb (version_of filename) version = true.

(** A list comprehension with a condition that may raise. *)
Fixpoint comprehension_if {A : Type} (cond : A -> result bool) (a : list A)
  : result (list A) :=
  match a with
  | [] => Ok []
  | x :: a' =>
      keep <- cond x ;;
      rest <- comprehension_if cond a' ;;
      Ok (if keep then x :: rest else rest)
  end.

(** The head of the body of each loading loop (lines 183 to 185 and 217 to
    219): [model_files], [latest_model_files] and the pattern [ifile] handed
    to cdo.  The dictionary is read once for every file of the model and once
    for the pattern. *)
Definition latest_model_files (r1_files : list string)
           (modelversions_latest : Py.dict string) (model : string)
  : result (list string) :=
  let model_files := filter (Py.contains model) r1_files in
  comprehension_if
    (fun f => version <- Py.dict_get modelversions_latest model ;;
              Ok (Py.contains version f))
    model_files.

Definition ifile (datdir : string) (modelversions_latest : Py.dict string)
           (model : string) : result string :=
  version <- Py.dict_get modelversions_latest model ;;
  Ok (datdir ++ "*" ++ model ++ "*" ++ version ++ "*")%string.

(** Lines 76 and 77. *)
Definition datdir_hist : string :=
  "/work/bk1088/cmip6_selection/CMIP6_GSAT/CMIP6/historical/all/".
Definition datdir_ssp245 : string :=
  "/work/bk1088/cmip6_selection/CMIP6_GSAT/CMIP6/ssp245/all/".

(** The head of a loading loop goes through for [model]: the dictionary
    holds a version, the files of that version are found and there is at
    least one, and the pattern is built from the directory, the model and the
    version. *)
Definition finds_files (datdir : string) (files : list string)
           (modelversions_latest : Py.dict string) (model : string) : Prop :=
  exists version,
    Py.dict_get modelversions_latest model = Ok version /\
    latest_model_files (r1_files files) modelversions_latest model =
      Ok (filter (Py.contains version)
                 (filter (Py.contains model) (r1_files files))) /\
    filter (Py.contains version)
           (filter (Py.contains model) (r1_files files)) <> [] /\
    ifile datdir modelversions_latest model =
      Ok (datdir ++ "*" ++ model ++ "*" ++ version ++ "*")%string.

(** ** Notebook: multimodel comparison.  The loading loops
       (lines 175 to 230) *)

Module TimeText.

Local Open Scope Z_scope.

(** The day [z] days after 1970-01-01 as (year, month, day). *)
Definition civil_from_days (z : Z) : Z * Z * Z :=
  let z := z + 719468 in
  let era := z / 146097 in
  let doe := z - era * 146097 in
  let yoe := (doe - doe / 1460 + doe / 36524 - doe / 146096) / 365 in
  let doy := doe - (365 * yoe + yoe / 4 - yoe / 100) in
  let mp := (5 * doy + 2) / 153 in
  let d := doy - (153 * mp + 2) / 5 + 1 in
  let m := if mp <? 10 then mp + 3 else mp - 9 in
  ((if m <=? 2 then yoe + era * 400 + 1 else yoe + era * 400), m, d).

Definition year_of (t : Time.datetime64) : Z :=
  fst (fst (civil_from_days (t / Time.ns_per_day))).

(** [str(n).zfill(width)] for [n >= 0] *)
Definition zfill (width : nat) (n : Z) : string :=
  let s := str n in
  (String.concat "" (repeat "0" (width - String.length s)) ++ s)%string.

(** [str] of a [datetime64[ns]] value: [YYYY-MM-DDThh:mm:ss.fffffffff].
    The values of 64 bits lie in the years 1678 to 2262, which have four
    digits. *)
Definition to_string (t : Time.datetime64) : string :=
  let '(y, m, d) := civil_from_days (t / Time.ns_per_day) in
  let r := t mod Time.ns_per_day in
  let s := r / Time.ns_per_second in
  (zfill 4 y ++ "-" ++ zfill 2 m ++ "-" ++ zfill 2 d ++ "T" ++
   zfill 2 (s / 3600) ++ ":" ++ zfill 2 (s / 60 mod 60) ++ ":" ++
   zfill 2 (s mod 60) ++ "." ++ zfill 9 (r mod Time.ns_per_second))%string.

(** The day that pandas reads from a label of the layout [YYYY-MM-DD], the
    layout of the labels of the two loops.  Any other text is rejected
    here. *)
Definition parse_date (label : string) : result (Z * Z * Z) :=
  p <- Time.digits 4 0 label ;; let (y, s) := p in
  s <- Time.expect "-" s ;;
  p <- Time.digits 2 0 s ;; let (mo, s) := p in
  s <- Time.expect "-" s ;;
  p <- Time.digits 2 0 s ;; let (d, s) := p in
  match s with
  | EmptyString =>
      if (1 <=? mo) && (mo <=? 12) && (1 <=? d) && (d <=? Time.days_in_month y mo)
      then Ok (y, mo, d)
      else Raise ValueError
  | _ => Raise ValueError
  end.

(** The timestamps that 64 bits hold: the counts of nanoseconds above
    [-2^63] and below [2^63], from 1677-09-21 to 2262-04-11. *)
Definition in_bounds (t : Time.datetime64) : bool :=
  (-9223372036854775808 <? t) && (t <? 9223372036854775808).

(** [pd.date_range(start, periods=periods, freq='A-JUL')]: the ends of
    July, at midnight, from the first one that is not before [start].  When
    [start] or one of the stamps is not a timestamp of 64 bits pandas raises
    [OutOfBoundsDatetime], which is a [ValueError]. *)
Definition date_range_A_JUL (start : string) (periods : nat)
  : result (list Time.datetime64) :=
  p <- parse_date start ;;
  let '(y, m, d) := p in
  if negb (in_bounds (Time.civil y m d 0 0 0 0)) then Raise ValueError
  else
    let first := if m <=? 7 then y else y + 1 in
    let index := map (fun k => Time.civil (first + Z.of_nat k) 7 31 0 0 0 0)
                     (seq 0 periods) in
    if forallb in_bounds index then Ok index else Raise ValueError.

End TimeText.

(** [model_timeseries]: the series with its values, time axis and
    attributes, and the names of its coordinates other than [time].  The
    file that cdo writes is taken to hold one value per time step, so that
    [time] is the only dimension that [squeeze] can leave. *)
Record ModelTimeseries : Type := mkModelTimeseries {
  series : TimeSeries;
  coords : list string
}.

(** [model_timeseries.attrs['model'] = model] *)
Definition set_model (model : string) (ts : TimeSeries) : TimeSeries :=
  mkTimeSeries (ts_values ts) (ts_time ts) (Py.dict_set (attrs ts) "model" model).

(** [model_timeseries['time'][0].values] after [squeeze]: a series of one
    step has lost its time dimension, and one of no step has no first
    element. *)
Definition first_time (ts : TimeSeries) : result Time.datetime64 :=
  match ts_time ts with
  | t :: _ :: _ => Ok t
  | _ => Raise IndexError
  end.

(** [model_timeseries.coords['time'] = index]: the index must be as long as
    the time dimension, which a series of one step has lost. *)
Definition set_time (index : list Time.datetime64) (ts : TimeSeries)
  : result TimeSeries :=
  if (length index =? length (ts_time ts)) && negb (length (ts_time ts) =? 1)
  then Ok (mkTimeSeries (ts_values ts) index (attrs ts))
  else Raise ValueError.

(** [ts.loc[start:stop]] with two labels of day resolution: the slice runs
    from the first instant of the day [start] to the last instant of the day
    [stop]. *)
Definition loc_days (ts : TimeSeries) (start stop : string) : result TimeSeries :=
  p0 <- TimeText.parse_date start ;;
  p1 <- TimeText.parse_date stop ;;
  let '(y0, m0, d0) := p0 in
  let '(y1, m1, d1) := p1 in
  positions <- Time.slice_indexer (ts_time ts)
                 (Time.civil y0 m0 d0 0 0 0 0)
                 (Time.civil y1 m1 d1 23 59 59 999999999) ;;
  let (i0, i1) := positions in
  Ok (mkTimeSeries (slice i0 i1 (ts_values ts)) (slice i0 i1 (ts_time ts)) (attrs ts)).

(** [if 'height' in model_timeseries.coords: del model_timeseries['height']] *)
Definition del_height (coords : list string) : list string :=
  if existsb (String.eqb "height") coords
  then filter (fun name => negb (String.eqb "height" name)) coords
  else coords.

(** The body of the historical loop from [squeeze] on (lines 187 to 201);
    [raw] is [xr.open_dataset(...)['tas']]. *)
Definition load_hist (model : string) (raw : ModelTimeseries)
  : result ModelTimeseries :=
  let model_timeseries := set_model model (series raw) in
  first <- first_time model_timeseries ;;
  let firstyear := substring 0 4 (TimeText.to_string first) in
  let time_length := length (ts_values model_timeseries) in
  index <- TimeText.date_range_A_JUL (firstyear ++ "-01-01") time_length ;;
  model_timeseries <- set_time index model_timeseries ;;
  model_timeseries <- loc_days model_timeseries "1850-01-01" "2014-12-31" ;;
  Ok (mkModelTimeseries model_timeseries (del_height (coords raw))).

(** The body of the scenario loop from [squeeze] on (lines 221 to 230). *)
Definition load_ssp245 (model : string) (raw : ModelTimeseries)
  : result ModelTimeseries :=
  let model_timeseries := set_model model (series raw) in
  index <- TimeText.date_range_A_JUL "2015-01-01" 85 ;;
  model_timeseries <- set_time index model_timeseries ;;
  Ok (mkModelTimeseries model_timeseries (del_height (coords raw))).

(** The ends of July of the years [first] to [last]. *)
Definition july_ends (first last : Z) : list Time.datetime64 :=
  map (fun y => Time.civil y 7 31 0 0 0 0) (range first (last + 1)).

(** The first timestamp of a series lies in the calendar year [year]. *)
Definition starts_in_year (year : Z) (ts : TimeSeries) : Prop :=
  exists t rest, ts_time ts = t :: rest /\
    (Time.civil year 1 1 0 0 0 0 <= t < Time.civil (year + 1) 1 1 0 0 0 0)%Z.

(** Yearly values from 1849 on with a time axis of mid-year stamps, and a
    scenario series of 85 values. *)
Definition raw_hist (n : nat) : ModelTimeseries :=
  mkModelTimeseries
    (mkTimeSeries (map (fun k => F64.of_Z (Z.of_nat k)) (seq 0 n))
                  (map (fun k => Time.civil (1849 + Z.of_nat k) 7 2 12 0 0 0) (seq 0 n))
                  [])
    ["height"; "lat"; "lon"]%string.

Definition raw_ssp245 : ModelTimeseries :=
  mkModelTimeseries
    (mkTimeSeries (map (fun k => F64.of_Z (Z.of_nat k)) (seq 0 85))
                  (map (fun k => Time.civil (2015 + Z.of_nat k) 7 2 12 0 0 0) (seq 0 85))
                  [])
    ["lat"; "lon"]%string.

(** The check behind [firstyear]: the text of a year of four digits reads
    back as the first of January of that year. *)
Definition first_year_ok (y : Z) : bool :=
  String.eqb (TimeText.zfill 4 y) (str y) && (String.length (str y) =? 4) &&
  match TimeText.parse_date (str y ++ "-01-01") with
  | Ok (y', m, d) => ((y' =? y) && (m =? 1) && (d =? 1))%Z
  | Raise _ => false
  end.

(** One model after both loading loops: a historical file of 170 yearly
    steps from 1849 on and a scenario file of 85 steps. *)
Definition loaded_or_empty (r : result ModelTimeseries) : ModelTimeseries :=
  match r with
  | Ok model_timeseries => model_timeseries
  | Raise _ => mkModelTimeseries (mkTimeSeries [] [] []) []
  end.

Definition example_loaded_hist : ModelTimeseries :=
  loaded_or_empty (load_hist "CanESM5" (raw_hist 170)).

Definition example_loaded_ssp245 : ModelTimeseries :=
  loaded_or_empty (load_ssp245 "CanESM5" raw_ssp245).

Definition example_store : Store :=
  mkStore [series example_loaded_hist] [series example_loaded_ssp245] [].

(** A file of three yearly steps from 2020 on in the place of the historical
    file. *)
Definition raw_hist_late : ModelTimeseries :=
  mkModelTimeseries
    (mkTimeSeries (map (fun k => F64.of_Z (Z.of_nat k)) (seq 0 3))
                  (map (fun k => Time.civil (2020 + Z.of_nat k) 7 2 12 0 0 0) (seq 0 3))
                  [])
    ["lat"; "lon"]%string.

Definition example_loaded_late : ModelTimeseries :=
  loaded_or_empty (load_hist "CanESM5" raw_hist_late).

Definition example_store_late : Store :=
  mkStore [series example_loaded_late] [series example_loaded_ssp245] [].

(** A series whose time index does not increase: a sample of 2016 stands
    before a sample of 2014.  No sample lies in 2015. *)
Definition unsorted_series : DataArray :=
  mkDataArray [Time.civil 2016 7 1 12 0 0 0; Time.civil 2014 7 1 12 0 0 0]
              [F64.dec 535 1] [F64.dec 100 1]
              [[[F64.of_Z 300]]; [[F64.of_Z 290]]].

(** A file of three monthly steps in the year 2261 in the place of the
    historical file: the third end of July from 2261 on is no timestamp of
    64 bits. *)
Definition raw_hist_2261 : ModelTimeseries :=
  mkModelTimeseries
    (mkTimeSeries [F64.of_Z 0; F64.of_Z 1; F64.of_Z 2]
                  [Time.civil 2261 1 16 12 0 0 0; Time.civil 2261 2 15 0 0 0 0;
                   Time.civil 2261 3 16 12 0 0 0]
                  [])
    ["lat"; "lon"]%string.

(** A catalogue of one file whose start year is written as the character
    with the code [n] followed by [990]; the end year is [2034]. *)
Definition padded_catalog (n : nat) : list CatalogRow :=
  [mkCatalogRow "/pool/tasmax_day.nc"
                (String (ascii_of_nat n) "9900101-20341231")].

(** The characters that [int] takes before digits: white space, a sign, a
    digit. *)
Definition before_digits : list nat :=
  [9; 10; 11; 12; 13; 32; 133; 160; 43; 45;
   48; 49; 50; 51; 52; 53; 54; 55; 56; 57].

Definition padded_catalog_ok (n : nat) : bool :=
  match selected_path (padded_catalog n) 2015 with
  | Raise ValueError => negb (existsb (Nat.eqb n) before_digits)
  | _ => existsb (Nat.eqb n) before_digits
  end.

(** * Part II: facts and theorems *)

Lemma bind_Ok_inv {A B : Type} (r : result A) (k : A -> result B) (b : B) :
  bind r k = Ok b -> exists a, r = Ok a /\ k a = Ok b.
Proof.
  destruct r as [a|e]; simpl; intros H; [exists a; auto | discriminate].
Qed.

(** ** The order of binary64 values *)

Module F64Facts.

Import F64.

Ltac cmp_cases :=
  repeat match goal with
  | H : context [Z.compare ?a ?b] |- _ =>
      destruct (Z.compare_spec a b); try discriminate H
  | H : context [Pos.compare_cont Eq ?a ?b] |- _ =>
      change (Pos.compare_cont Eq a b) with (Pos.compare a b) in H;
      destruct (Pos.compare_spec a b); simpl in H; try discriminate H
  | |- context [Z.compare ?a ?b] => destruct (Z.compare_spec a b)
  | |- context [Pos.compare_cont Eq ?a ?b] =>
      change (Pos.compare_cont Eq a b) with (Pos.compare a b);
      destruct (Pos.compare_spec a b); simpl
  end.

Ltac order_crush :=
  unfold ltb, leb, eqb, SFltb, SFleb, SFeqb, SFcompare in *;
  repeat match goal with
  | s : bool |- _ => destruct s
  end;
  simpl in *; try discriminate; try reflexivity;
  cmp_cases; subst; simpl in *;
  try discriminate; try reflexivity; try lia.

Lemma ltb_irrefl (a : float) : ltb a a = false.
Proof. destruct a; order_crush. Qed.

Lemma leb_refl (a : float) : isnan a = false -> leb a a = true.
Proof. destruct a; order_crush. Qed.

Lemma eqb_leb (a b : float) : eqb a b = true -> leb a b = true.
Proof. destruct a, b; order_crush. Qed.

Lemma eqb_sym (a b : float) : eqb a b = eqb b a.
Proof. destruct a, b; order_crush. Qed.

Lemma eqb_not_nan_l (a b : float) : eqb a b = true -> isnan a = false.
Proof. destruct a, b; simpl; intros H; try reflexivity; discriminate H. Qed.

Lemma eqb_not_nan_r (a b : float) : eqb a b = true -> isnan b = false.
Proof. destruct a, b; simpl; intros H; try reflexivity; discriminate H. Qed.

Lemma ltb_not_nan_l (a b : float) : ltb a b = true -> isnan a = false.
Proof. destruct a, b; simpl; intros H; try reflexivity; discriminate H. Qed.

Lemma ltb_not_nan_r (a b : float) : ltb a b = true -> isnan b = false.
Proof. destruct a, b; simpl; intros H; try reflexivity; discriminate H. Qed.

Lemma leb_not_nan_l (a b : float) : leb a b = true -> isnan a = false.
Proof. destruct a, b; simpl; intros H; try reflexivity; discriminate H. Qed.

Lemma leb_not_nan_r (a b : float) : leb a b = true -> isnan b = false.
Proof. destruct a, b; simpl; intros H; try reflexivity; discriminate H. Qed.

Lemma ltb_leb (a b : float) : ltb a b = true -> leb a b = true.
Proof. destruct a, b; order_crush. Qed.

Lemma leb_ltb_false (a b : float) : leb a b = true -> ltb b a = false.
Proof. destruct a, b; intros H; order_crush. Qed.

Lemma ltb_eqb_false (a b : float) : ltb a b = true -> eqb a b = false.
Proof. destruct a, b; intros H; order_crush. Qed.

Lemma leb_total (a b : float) :
  isnan a = false -> isnan b = false -> leb a b = false -> ltb b a = true.
Proof. destruct a, b; intros Ha Hb H; order_crush. Qed.

Lemma leb_trans (a b c : float) :
  leb a b = true -> leb b c = true -> leb a c = true.
Proof. destruct a, b, c; intros H1 H2; order_crush. Qed.

Lemma ltb_leb_trans (a b c : float) :
  ltb a b = true -> leb b c = true -> ltb a c = true.
Proof. destruct a, b, c; intros H1 H2; order_crush. Qed.

Lemma leb_ltb_trans (a b c : float) :
  leb a b = true -> ltb b c = true -> ltb a c = true.
Proof. destruct a, b, c; intros H1 H2; order_crush. Qed.

Lemma leb_antisym (a b : float) :
  leb a b = true -> leb b a = true -> eqb a b = true.
Proof. destruct a, b; intros H1 H2; order_crush. Qed.

Lemma abs_isnan (a : float) : isnan (abs a) = isnan a.
Proof. destruct a; reflexivity. Qed.

End F64Facts.

(** ** Facts about the numpy operations *)

Module NpFacts.

Import F64 F64Facts.

Lemma fmin1_cases (x y : float) : Np.fmin1 x y = x \/ Np.fmin1 x y = y.
Proof. unfold Np.fmin1; destruct (leb x y || isnan y); auto. Qed.

Lemma fmin1_nan (x y : float) :
  isnan (Np.fmin1 x y) = true -> isnan x = true /\ isnan y = true.
Proof.
  unfold Np.fmin1.
  destruct (leb x y) eqn:Hle; simpl.
  - intros Hx. apply leb_not_nan_l in Hle. congruence.
  - destruct (isnan y) eqn:Hy; auto. intros Hy'. congruence.
Qed.

Lemma fmin1_le_l (x y : float) :
  isnan (Np.fmin1 x y) = false -> isnan x = true \/ leb (Np.fmin1 x y) x = true.
Proof.
  unfold Np.fmin1.
  destruct (leb x y || isnan y) eqn:Hc; intros Hn.
  - right. now apply leb_refl.
  - apply orb_false_iff in Hc. destruct Hc as [Hle Hy].
    destruct (isnan x) eqn:Hx; auto.
    right. apply ltb_leb. now apply leb_total.
Qed.

Lemma fmin1_le_r (x y : float) :
  isnan (Np.fmin1 x y) = false -> isnan y = true \/ leb (Np.fmin1 x y) y = true.
Proof.
  unfold Np.fmin1.
  destruct (leb x y) eqn:Hle; simpl; auto.
  destruct (isnan y) eqn:Hy; auto.
  intros _. right. now apply leb_refl.
Qed.

(** The reduction returns one of the elements; it is NaN only when all
    elements are, and otherwise is below every element that is not NaN. *)
Lemma fold_fmin1_spec (xs : list float) : forall x,
  let m := fold_left Np.fmin1 xs x in
  In m (x :: xs) /\
  (isnan m = true -> forall e, In e (x :: xs) -> isnan e = true) /\
  (isnan m = false -> forall e, In e (x :: xs) -> isnan e = true \/ leb m e = true).
Proof.
  induction xs as [|y ys IH]; intros x; simpl.
  - split; [auto|]. split.
    + intros Hm e [<-|[]]. exact Hm.
    + intros Hm e [<-|[]]. right. now apply leb_refl.
  - specialize (IH (Np.fmin1 x y)). simpl in IH.
    destruct IH as (Hin & Hnan & Hmin).
    set (m := fold_left Np.fmin1 ys (Np.fmin1 x y)) in *.
    split; [|split].
    + destruct Hin as [Hin|Hin]; [|auto].
      destruct (fmin1_cases x y) as [E|E]; rewrite E in Hin; auto.
    + intros Hm e He.
      assert (Hf : isnan (Np.fmin1 x y) = true) by (apply Hnan; auto).
      destruct (fmin1_nan _ _ Hf) as [Hx Hy].
      destruct He as [<-|[<-|He]]; auto.
    + intros Hm e He.
      assert (Hf : isnan (Np.fmin1 x y) = true \/ leb m (Np.fmin1 x y) = true)
        by (apply Hmin; auto).
      destruct He as [<-|[<-|He]]; [| |apply Hmin; auto].
      * destruct Hf as [Hf|Hf]; [left; apply (fmin1_nan _ _ Hf)|].
        destruct (fmin1_le_l x y (leb_not_nan_r _ _ Hf)) as [?|Hl]; auto.
        right. eapply leb_trans; eauto.
      * destruct Hf as [Hf|Hf]; [left; apply (fmin1_nan _ _ Hf)|].
        destruct (fmin1_le_r x y (leb_not_nan_r _ _ Hf)) as [?|Hl]; auto.
        right. eapply leb_trans; eauto.
Qed.

Lemma min_spec (c : list (list float)) (m : float) :
  Np.min c = Ok m ->
  In m (concat c) /\
  (isnan m = true -> forall e, In e (concat c) -> isnan e = true) /\
  (isnan m = false -> forall e, In e (concat c) -> isnan e = true \/ leb m e = true).
Proof.
  unfold Np.min. destruct (concat c) as [|x xs]; [discriminate|].
  intros H; injection H as <-. apply fold_fmin1_spec.
Qed.

Lemma min_Ok (c : list (list float)) :
  concat c <> [] -> exists m, Np.min c = Ok m.
Proof.
  unfold Np.min. destruct (concat c) as [|x xs]; [congruence|]. eauto.
Qed.

(** Nothing is strictly below the minimum. *)
Lemma min_lower_bound (c : list (list float)) (m e : float) :
  Np.min c = Ok m -> In e (concat c) -> ltb e m = false.
Proof.
  intros Hm He. destruct (min_spec _ _ Hm) as (_ & _ & Hmin).
  destruct (isnan m) eqn:Hn.
  - destruct (ltb e m) eqn:Hlt; auto.
    apply ltb_not_nan_r in Hlt. congruence.
  - destruct (Hmin eq_refl e He) as [Hen|Hle].
    + destruct (ltb e m) eqn:Hlt; auto.
      apply ltb_not_nan_l in Hlt. congruence.
    + now apply leb_ltb_false.
Qed.

Lemma nonzero_row_In (row : list bool) : forall i k p,
  In p (Np.nonzero_row i k row) <->
  fst p = i /\ k <= snd p /\ nth_error row (snd p - k) = Some true.
Proof.
  induction row as [|b row IH]; intros i k [i' j]; simpl.
  - split; [intros []|]. intros (_ & _ & H). now destruct (j - k).
  - rewrite in_app_iff, IH. simpl. split.
    + intros [H|(-> & Hk & Hn)].
      * destruct b; [|destruct H].
        destruct H as [H|[]]. injection H as <- <-.
        rewrite Nat.sub_diag. auto.
      * split; [auto|]. split; [lia|].
        replace (j - k) with (S (j - S k)) by lia. exact Hn.
    + intros (-> & Hk & Hn).
      destruct (Nat.eq_dec j k) as [->|Hne].
      * rewrite Nat.sub_diag in Hn. simpl in Hn. injection Hn as ->.
        left. now left.
      * right. split; [auto|]. split; [lia|].
        replace (j - k) with (S (j - S k)) in Hn by lia. exact Hn.
Qed.

Lemma nonzero_from_In (m : list (list bool)) : forall k p,
  In p (Np.nonzero_from k m) <->
  k <= fst p /\
  exists row, nth_error m (fst p - k) = Some row /\ nth_error row (snd p) = Some true.
Proof.
  induction m as [|row m IH]; intros k [i j]; simpl.
  - split; [intros []|]. intros (_ & row & H & _). now destruct (i - k).
  - rewrite in_app_iff, IH, nonzero_row_In. simpl. split.
    + intros [(-> & _ & Hn)|(Hk & row' & Hr & Hn)].
      * split; [lia|]. exists row. rewrite Nat.sub_diag, Nat.sub_0_r in *. auto.
      * split; [lia|]. exists row'.
        replace (i - k) with (S (i - S k)) by lia. auto.
    + intros (Hk & row' & Hr & Hn).
      destruct (Nat.eq_dec i k) as [->|Hne].
      * rewrite Nat.sub_diag in Hr. simpl in Hr. injection Hr as ->.
        left. rewrite Nat.sub_0_r. auto with arith.
      * right. split; [lia|]. exists row'.
        replace (i - k) with (S (i - S k)) in Hr by lia. auto.
Qed.

Lemma where_In (mask : list (list bool)) (i j : nat) :
  In (i, j) (Np.nonzero_from 0 mask) <-> Np.entry mask i j = true.
Proof.
  rewrite nonzero_from_In. simpl. rewrite Nat.sub_0_r. unfold Np.entry. split.
  - intros (_ & row & Hr & Hn).
    rewrite (nth_error_nth _ _ _ Hr). now rewrite (nth_error_nth _ _ _ Hn).
  - intros H. split; [lia|].
    destruct (nth_error mask i) as [row|] eqn:Hr.
    + exists row. split; [auto|].
      rewrite (nth_error_nth _ _ _ Hr) in H.
      destruct (nth_error row j) as [b|] eqn:Hn.
      * rewrite (nth_error_nth _ _ _ Hn) in H. now subst.
      * apply nth_error_None in Hn. rewrite (nth_overflow row false Hn) in H.
        discriminate.
    + apply nth_error_None in Hr. rewrite (nth_overflow mask [] Hr) in H.
      now destruct j.
Qed.

Lemma nonzero_row_NoDup (row : list bool) : forall i k,
  NoDup (Np.nonzero_row i k row).
Proof.
  induction row as [|b row IH]; intros i k; simpl; [constructor|].
  apply NoDup_app; [destruct b; repeat constructor; intros [] | apply IH |].
  intros p Hp Hq. apply nonzero_row_In in Hq.
  destruct b; [|destruct Hp]. destruct Hp as [<-|[]]. simpl in Hq. lia.
Qed.

Lemma nonzero_from_NoDup (m : list (list bool)) : forall k,
  NoDup (Np.nonzero_from k m).
Proof.
  induction m as [|row m IH]; intros k; simpl; [constructor|].
  apply NoDup_app; [apply nonzero_row_NoDup | apply IH |].
  intros p Hp Hq. apply nonzero_row_In in Hp. apply nonzero_from_In in Hq. lia.
Qed.

Lemma NoDup_only {A : Type} (l : list A) (a : A) :
  NoDup l -> (forall p, In p l <-> p = a) -> l = [a].
Proof.
  intros Hnd Hin. destruct l as [|b l].
  - exfalso. now apply (Hin a).
  - assert (b = a) as -> by (apply Hin; now left).
    f_equal. destruct l as [|q l]; [reflexivity|].
    inversion Hnd as [|? ? Hni _]; subst.
    exfalso. apply Hni.
    assert (q = a) as -> by (apply Hin; right; now left). now left.
Qed.

Lemma entry_eq_scalar (c : list (list float)) (m : float) (i j : nat) :
  Np.entry (Np.eq_scalar c m) i j = eqb (Np.cell c i j) m.
Proof.
  unfold Np.entry, Np.eq_scalar, Np.cell.
  change (@nil bool) with (map (fun x => eqb x m) []).
  rewrite map_nth.
  change false with ((fun x => eqb x m) nan) at 1.
  now rewrite map_nth.
Qed.

Lemma cell_In (c : list (list float)) (i j : nat) :
  i < length c -> j < length (nth i c []) -> In (Np.cell c i j) (concat c).
Proof.
  intros Hi Hj. apply in_concat. exists (nth i c []).
  split; apply nth_In; assumption.
Qed.

Lemma In_cell (c : list (list float)) (e : float) :
  In e (concat c) ->
  exists i j, i < length c /\ j < length (nth i c []) /\ e = Np.cell c i j.
Proof.
  intros H. apply in_concat in H. destruct H as (row & Hrow & He).
  destruct (In_nth _ _ [] Hrow) as (i & Hi & Ei).
  destruct (In_nth _ _ nan He) as (j & Hj & Ej).
  exists i, j. unfold Np.cell. rewrite Ei. auto.
Qed.

Lemma unpack_where (mask : list (list bool)) (x y : nat) :
  Np.nonzero_from 0 mask = [(x, y)] <->
  (let (xs, ys) := Np.where_ mask in xs = [x] /\ ys = [y]).
Proof.
  unfold Np.where_. split.
  - intros ->. simpl. auto.
  - destruct (Np.nonzero_from 0 mask) as [|[a b] [|q l]]; simpl;
      intros [H1 H2]; try discriminate.
    now injection H1 as ->; injection H2 as ->.
Qed.

End NpFacts.

Module ResolverFacts.

Import F64 F64Facts NpFacts.

Lemma unpack_singletons_Ok (w : list nat * list nat) (x y : nat) :
  unpack_singletons w = Ok (x, y) <-> (let (xs, ys) := w in xs = [x] /\ ys = [y]).
Proof.
  destruct w as [xs ys]. unfold unpack_singletons.
  destruct xs as [|a [|? ?]]; try (split; [discriminate|intros [? ?]; discriminate]).
  destruct ys as [|b [|? ?]]; try (split; [discriminate|intros [? ?]; discriminate]).
  split; [intros H; injection H as -> ->; auto|].
  intros [H1 H2]. injection H1 as ->. injection H2 as ->. reflexivity.
Qed.

Lemma maximum1_abs_comm (a b : float) :
  Np.maximum1 (abs a) (abs b) = Np.maximum1 (abs b) (abs a).
Proof.
  unfold Np.maximum1. destruct a, b; simpl; try reflexivity;
    unfold leb, SFleb, SFcompare; cmp_cases; subst; simpl; try reflexivity; lia.
Qed.

Lemma nth_map_in {A B : Type} (f : A -> B) (l : list A) (d : A) (d' : B) (n : nat) :
  n < length l -> nth n (map f l) d' = f (nth n l d).
Proof.
  intros H. rewrite (nth_indep _ d' (f d)) by now rewrite length_map.
  apply map_nth.
Qed.

Lemma abslon_nth (lon : list float) (longitude : float) (i : nat) :
  i < length lon ->
  nth i (abslon lon longitude) nan = abs (sub (nth i lon nan) longitude).
Proof.
  intros H. unfold abslon, Np.abs, Np.sub_scalar.
  rewrite (nth_map_in _ _ nan) by now rewrite length_map.
  now rewrite (nth_map_in _ _ nan).
Qed.

Lemma abslat_nth (lat : list float) (latitude : float) (j : nat) :
  j < length lat ->
  nth j (abslat lat latitude) nan = abs (sub (nth j lat nan) latitude).
Proof. apply abslon_nth. Qed.

Lemma abslon_length (lon : list float) (longitude : float) :
  length (abslon lon longitude) = length lon.
Proof. unfold abslon, Np.abs, Np.sub_scalar. now rewrite !length_map. Qed.

Lemma abslat_length (lat : list float) (latitude : float) :
  length (abslat lat latitude) = length lat.
Proof. apply abslon_length. Qed.

Lemma c_length (lat lon : list float) (latitude longitude : float) :
  length (c lat lon latitude longitude) = length lon.
Proof. unfold c, Np.maximum. now rewrite length_map, abslon_length. Qed.

Lemma c_row (lat lon : list float) (latitude longitude : float) (i : nat) :
  i < length lon ->
  nth i (c lat lon latitude longitude) [] =
  map (fun y => Np.maximum1 (nth i (abslon lon longitude) nan) y)
      (abslat lat latitude).
Proof.
  intros Hi. unfold c, Np.maximum.
  now rewrite (nth_map_in _ _ nan) by now rewrite abslon_length.
Qed.

Lemma c_row_length (lat lon : list float) (latitude longitude : float) (i : nat) :
  i < length lon ->
  length (nth i (c lat lon latitude longitude) []) = length lat.
Proof.
  intros Hi. rewrite c_row by assumption.
  rewrite length_map. apply abslat_length.
Qed.

(** Every entry of [c], in range or not, is the distance of the claim. *)
Lemma cell_c (lat lon : list float) (latitude longitude : float) (i j : nat) :
  Np.cell (c lat lon latitude longitude) i j = chebyshev lat lon latitude longitude i j.
Proof.
  unfold chebyshev. rewrite maximum1_abs_comm. unfold Np.cell.
  destruct (Nat.lt_ge_cases i (length lon)) as [Hi|Hi].
  - rewrite c_row, abslon_nth by assumption.
    destruct (Nat.lt_ge_cases j (length lat)) as [Hj|Hj].
    + rewrite (nth_map_in _ _ nan) by now rewrite abslat_length.
      now rewrite abslat_nth.
    + rewrite nth_overflow
        by now rewrite length_map, abslat_length.
      rewrite (nth_overflow lat) by assumption.
      unfold Np.maximum1.
      now destruct (abs (sub (nth i lon nan) longitude)).
  - rewrite (nth_overflow (c lat lon latitude longitude))
      by now rewrite c_length.
    rewrite (nth_overflow lon) by assumption.
    unfold Np.maximum1. change (isnan (abs (sub nan longitude))) with true.
    rewrite orb_true_r. now destruct j.
Qed.

Lemma chebyshev_out_of_range (lat lon : list float) (latitude longitude : float)
      (i j : nat) :
  length lon <= i \/ length lat <= j ->
  chebyshev lat lon latitude longitude i j = nan.
Proof.
  unfold chebyshev. intros [H|H]; rewrite (nth_overflow _ _ H).
  - unfold Np.maximum1.
    now destruct (abs (sub (nth j lat nan) latitude)).
  - unfold Np.maximum1. change (isnan (abs (sub nan latitude))) with true.
    now rewrite orb_true_r.
Qed.

(** What the cell computes, in terms of the distance: it returns a pair
    exactly when the equality test against the minimum holds at that pair
    and nowhere else. *)
Lemma nearest_grid_cell_Ok (lat lon : list float) (latitude longitude : float)
      (x y : nat) :
  nearest_grid_cell lat lon latitude longitude = Ok (x, y) <->
  exists m, Np.min (c lat lon latitude longitude) = Ok m /\
    forall i j, eqb (chebyshev lat lon latitude longitude i j) m = true
                <-> (i, j) = (x, y).
Proof.
  unfold nearest_grid_cell. cbv zeta. split.
  - intros H. apply bind_Ok_inv in H. destruct H as (m & Hm & Hu).
    exists m. split; [exact Hm|].
    apply unpack_singletons_Ok, unpack_where in Hu.
    intros i j. rewrite <- cell_c, <- entry_eq_scalar, <- where_In, Hu.
    simpl. split; [intros [H|[]]; now symmetry | intros ->; now left].
  - intros (m & Hm & Hu). rewrite Hm. cbn [bind].
    apply unpack_singletons_Ok, unpack_where, NoDup_only.
    + apply nonzero_from_NoDup.
    + intros [i j]. now rewrite where_In, entry_eq_scalar, cell_c.
Qed.

End ResolverFacts.

(** ** The nearest grid cell: claims *)

Section Resolver.

Import F64 F64Facts NpFacts ResolverFacts.

Variables lat lon : list float.
Variables latitude longitude : float.

Local Abbreviation dist := (chebyshev lat lon latitude longitude).

Lemma nearest_grid_cell_sound (x y : nat) :
  nearest_grid_cell lat lon latitude longitude = Ok (x, y) ->
  x < length lon /\ y < length lat /\
  forall i j, i < length lon -> j < length lat -> ltb (dist i j) (dist x y) = false.
Proof.
  intros H. apply nearest_grid_cell_Ok in H. destruct H as (m & Hm & Hu).
  assert (Hxy : eqb (dist x y) m = true) by now apply Hu.
  assert (Hx : x < length lon).
  { destruct (Nat.lt_ge_cases x (length lon)) as [?|Hge]; [assumption|].
    rewrite chebyshev_out_of_range in Hxy by auto. discriminate. }
  assert (Hy : y < length lat).
  { destruct (Nat.lt_ge_cases y (length lat)) as [?|Hge]; [assumption|].
    rewrite chebyshev_out_of_range in Hxy by auto. discriminate. }
  repeat split; try assumption.
  intros i j Hi Hj.
  assert (Hlow : ltb (dist i j) m = false).
  { apply (min_lower_bound _ _ _ Hm). rewrite <- cell_c.
    apply cell_In; [now rewrite c_length | now rewrite c_row_length]. }
  destruct (ltb (dist i j) (dist x y)) eqn:Hlt; [|reflexivity].
  rewrite (ltb_leb_trans _ _ _ Hlt (eqb_leb _ _ Hxy)) in Hlow. discriminate.
Qed.

Lemma nearest_grid_cell_complete (x y : nat) :
  x < length lon -> y < length lat ->
  isnan (dist x y) = false ->
  (forall i j, i < length lon -> j < length lat -> (i, j) <> (x, y) ->
     ltb (dist x y) (dist i j) = true \/ isnan (dist i j) = true) ->
  nearest_grid_cell lat lon latitude longitude = Ok (x, y).
Proof.
  intros Hx Hy Hn Hstrict.
  assert (Hin : In (dist x y) (concat (c lat lon latitude longitude))).
  { rewrite <- cell_c.
    apply cell_In; [now rewrite c_length | now rewrite c_row_length]. }
  destruct (min_Ok (c lat lon latitude longitude)) as [m Hm].
  { intros E. rewrite E in Hin. destruct Hin. }
  apply nearest_grid_cell_Ok. exists m. split; [exact Hm|].
  destruct (min_spec _ _ Hm) as (Hmin & Hnan & Hle).
  assert (Hmn : isnan m = false).
  { destruct (isnan m) eqn:E; [|reflexivity].
    rewrite (Hnan eq_refl _ Hin) in Hn. discriminate. }
  assert (Hmle : leb m (dist x y) = true).
  { destruct (Hle Hmn _ Hin) as [E|E]; [congruence|exact E]. }
  assert (Em : m = dist x y).
  { apply In_cell in Hmin. destruct Hmin as (i & j & Hi & Hj & Ei).
    rewrite c_length in Hi. rewrite c_row_length in Hj by assumption.
    rewrite cell_c in Ei.
    destruct (Nat.eq_dec i x) as [->|Hne];
      [destruct (Nat.eq_dec j y) as [->|Hne]; [assumption|]|].
    - destruct (Hstrict x j Hi Hj) as [E|E]; [congruence| |congruence].
      rewrite <- Ei, (leb_ltb_false _ _ Hmle) in E. discriminate.
    - destruct (Hstrict i j Hi Hj) as [E|E]; [congruence| |congruence].
      rewrite <- Ei, (leb_ltb_false _ _ Hmle) in E. discriminate. }
  subst m. intros i j. split.
  - intros He.
    destruct (Nat.lt_ge_cases i (length lon)) as [Hi|Hi];
      [|rewrite chebyshev_out_of_range in He by auto; discriminate].
    destruct (Nat.lt_ge_cases j (length lat)) as [Hj|Hj];
      [|rewrite chebyshev_out_of_range in He by auto; discriminate].
    destruct (Nat.eq_dec i x) as [->|Hne];
      [destruct (Nat.eq_dec j y) as [->|Hne]; [reflexivity|]|].
    + destruct (Hstrict x j Hi Hj) as [E|E]; [congruence| |].
      * apply ltb_eqb_false in E. rewrite eqb_sym in E. congruence.
      * apply eqb_not_nan_l in He. congruence.
    + destruct (Hstrict i j Hi Hj) as [E|E]; [congruence| |].
      * apply ltb_eqb_false in E. rewrite eqb_sym in E. congruence.
      * apply eqb_not_nan_l in He. congruence.
  - intros E. injection E as -> ->.
    apply leb_antisym; now apply leb_refl.
Qed.

(** With two cells at the minimum the unpacking of [np.where] fails. *)
Lemma nearest_grid_cell_tie (i1 j1 i2 j2 : nat) (m : float) :
  Np.min (c lat lon latitude longitude) = Ok m ->
  eqb (dist i1 j1) m = true -> eqb (dist i2 j2) m = true ->
  (i1, j1) <> (i2, j2) ->
  nearest_grid_cell lat lon latitude longitude = Raise ValueError.
Proof.
  intros Hm H1 H2 Hne.
  destruct (nearest_grid_cell lat lon latitude longitude) as [[x y]|e] eqn:E.
  - apply nearest_grid_cell_Ok in E. destruct E as (m' & Hm' & Hu).
    rewrite Hm in Hm'. injection Hm' as <-.
    apply Hu in H1, H2. congruence.
  - unfold nearest_grid_cell in E. rewrite Hm in E. cbn [bind] in E.
    unfold unpack_singletons in E.
    destruct (Np.where_ _) as [[|? [|? ?]] [|? [|? ?]]]; congruence.
Qed.

Lemma nearest_grid_cell_empty :
  lat = [] \/ lon = [] ->
  nearest_grid_cell lat lon latitude longitude = Raise ValueError.
Proof.
  intros H. unfold nearest_grid_cell, Np.min.
  replace (concat (c lat lon latitude longitude)) with (@nil float); [reflexivity|].
  destruct H as [-> | ->]; [|reflexivity].
  unfold c, Np.maximum. simpl. induction (abslon lon longitude); auto.
Qed.

End Resolver.

(** C1.  When the cell returns the pair [(xloc, yloc)], the pair lies in
    the grid and no pair of the grid has a strictly smaller Chebyshev
    distance [max(|lat - latitude|, |lon - longitude|)] to the point;
    conversely a pair of the grid that is strictly nearer than every other
    one is the pair returned.  On the grid lat = [52.0, 53.5, 55.0],
    lon = [9.5, 10.0, 10.5] and the point (53.55, 10.0) the cell returns the
    pair (1, 1), the indices of (53.5, 10.0). *)
Theorem nearest_grid_cell_minimizes :
  (forall lat lon latitude longitude x y,
     nearest_grid_cell lat lon latitude longitude = Ok (x, y) ->
     x < length lon /\ y < length lat /\
     forall i j, i < length lon -> j < length lat ->
       F64.ltb (chebyshev lat lon latitude longitude i j)
               (chebyshev lat lon latitude longitude x y) = false) /\
  (forall lat lon latitude longitude x y,
     x < length lon -> y < length lat ->
     F64.isnan (chebyshev lat lon latitude longitude x y) = false ->
     (forall i j, i < length lon -> j < length lat -> (i, j) <> (x, y) ->
        F64.ltb (chebyshev lat lon latitude longitude x y)
                (chebyshev lat lon latitude longitude i j) = true) ->
     nearest_grid_cell lat lon latitude longitude = Ok (x, y)) /\
  (nearest_grid_cell grid_lat grid_lon query_lat query_lon = Ok (1, 1) /\
   nth 1 grid_lat F64.nan = F64.dec 535 1 /\
   nth 1 grid_lon F64.nan = F64.dec 100 1).
Proof.
  split; [|split].
  - intros. now apply nearest_grid_cell_sound.
  - intros lat lon latitude longitude x y Hx Hy Hn Hstrict.
    apply nearest_grid_cell_complete; try assumption.
    intros i j Hi Hj Hne. left. now apply Hstrict.
  - repeat split; vm_compute; reflexivity.
Qed.

Lemma nearest_grid_cell_minimizes_witness :
  (nearest_grid_cell grid_lat grid_lon query_lat query_lon = Ok (1, 1) /\
   (1 < length grid_lon /\ 1 < length grid_lat /\
    forall i j, i < length grid_lon -> j < length grid_lat ->
      F64.ltb (chebyshev grid_lat grid_lon query_lat query_lon i j)
              (chebyshev grid_lat grid_lon query_lat query_lon 1 1) = false)) /\
  ((forall i j, i < length grid_lon -> j < length grid_lat -> (i, j) <> (1, 1) ->
      F64.ltb (chebyshev grid_lat grid_lon query_lat query_lon 1 1)
              (chebyshev grid_lat grid_lon query_lat query_lon i j) = true) /\
   nearest_grid_cell grid_lat grid_lon query_lat query_lon = Ok (1, 1)).
Proof.
  split.
  - split; [vm_compute; reflexivity|].
    apply (proj1 nearest_grid_cell_minimizes grid_lat grid_lon query_lat query_lon 1 1).
    vm_compute. reflexivity.
  - assert (Hstrict : forall i j,
      i < length grid_lon -> j < length grid_lat -> (i, j) <> (1, 1) ->
      F64.ltb (chebyshev grid_lat grid_lon query_lat query_lon 1 1)
              (chebyshev grid_lat grid_lon query_lat query_lon i j) = true).
    { intros i j Hi Hj Hne. simpl in Hi, Hj.
      destruct i as [|[|[|i]]]; try lia;
        destruct j as [|[|[|j]]]; try lia;
        try (vm_compute; reflexivity).
      congruence. }
    split; [exact Hstrict|].
    apply (proj1 (proj2 nearest_grid_cell_minimizes)
                 grid_lat grid_lon query_lat query_lon 1 1).
    + simpl. lia.
    + simpl. lia.
    + vm_compute. reflexivity.
    + exact Hstrict.
Defined.

(** C5.  On the grid lat = [52, 54], lon = [10] and the point (53, 10) the
    pairs (0, 0) and (0, 1) both attain the minimal distance 1, (0, 0) being
    the first in the row-major order of [np.where]; the cell does not
    return it but raises [ValueError]. *)
Theorem nearest_grid_cell_tie_not_first :
  chebyshev tie_lat tie_lon (F64.of_Z 53) (F64.of_Z 10) 0 0 = F64.of_Z 1 /\
  chebyshev tie_lat tie_lon (F64.of_Z 53) (F64.of_Z 10) 0 1 = F64.of_Z 1 /\
  Np.nonzero_from 0
    (Np.eq_scalar (c tie_lat tie_lon (F64.of_Z 53) (F64.of_Z 10)) (F64.of_Z 1))
    = [(0, 0); (0, 1)] /\
  nearest_grid_cell tie_lat tie_lon (F64.of_Z 53) (F64.of_Z 10) = Raise ValueError.
Proof. repeat split; vm_compute; reflexivity. Qed.

(** C6.  A grid without latitudes or without longitudes makes the cell
    raise [ValueError].  So does a grid with nine cells: on the latitudes
    50, 52.5, 55 and the longitudes 8.75, 10, 11.25 the point (53.5, 9.5) is
    1 degree from the latitude 52.5, and 0.75 and 0.5 degrees from the
    longitudes 8.75 and 10, so that the cells (0, 1) and (1, 1) are both at
    the minimal distance 1. *)
Theorem nearest_grid_cell_nonempty_raises :
  (forall lon latitude longitude,
     nearest_grid_cell [] lon latitude longitude = Raise ValueError) /\
  (forall lat latitude longitude,
     nearest_grid_cell lat [] latitude longitude = Raise ValueError) /\
  abslat coarse_lat coarse_latitude = [F64.dec 35 1; F64.of_Z 1; F64.dec 15 1] /\
  abslon coarse_lon coarse_longitude = [F64.dec 75 2; F64.dec 5 1; F64.dec 175 2] /\
  Np.min (c coarse_lat coarse_lon coarse_latitude coarse_longitude)
    = Ok (F64.of_Z 1) /\
  Np.where_ (Np.eq_scalar (c coarse_lat coarse_lon coarse_latitude coarse_longitude)
                          (F64.of_Z 1))
    = ([0; 1], [1; 1]) /\
  nearest_grid_cell coarse_lat coarse_lon coarse_latitude coarse_longitude
    = Raise ValueError.
Proof.
  split; [|split].
  - intros. apply nearest_grid_cell_empty. now left.
  - intros. apply nearest_grid_cell_empty. now right.
  - repeat split; vm_compute; reflexivity.
Qed.

(** ** The year slice *)

Module SliceFacts.

Local Open Scope Z_scope.

Lemma In_range (a b y : Z) : In y (range a b) <-> a <= y < b.
Proof.
  unfold range. rewrite in_map_iff. split.
  - intros (k & <- & Hk). apply in_seq in Hk. lia.
  - intros H. exists (Z.to_nat (y - a)). split; [lia|]. apply in_seq. lia.
Qed.

Lemma year_box_value_iff (year : Z) : year_box_value year <-> 1850 <= year <= 2100.
Proof.
  unfold year_box_value, experiments. split.
  - intros (e & He & Hy). cbn [In] in He.
    repeat (destruct He as [<-|He]; [cbn [snd] in Hy; apply In_range in Hy; lia|]).
    destruct He.
  - intros H. destruct (Z_lt_ge_dec year 2015).
    + eexists. split; [left; reflexivity|]. cbn [snd]. apply In_range. lia.
    + eexists. split; [right; left; reflexivity|]. cbn [snd]. apply In_range. lia.
Qed.

Lemma bounds_ok_all : forallb bounds_ok (range 1850 2101) = true.
Proof. vm_compute. reflexivity. Qed.

(** For every year of the year box the two labels denote noon of the first
    and noon of the last day of the year. *)
Lemma parse_bounds (year : Z) :
  year_box_value year ->
  Time.parse (time_start year) = Ok (Time.civil year 1 1 12 0 0 0) /\
  Time.parse (time_end year) = Ok (Time.civil year 12 31 12 0 0 0) /\
  Time.civil year 1 1 12 0 0 0 <= Time.civil year 12 31 12 0 0 0.
Proof.
  intros H. apply year_box_value_iff in H.
  assert (Hb : bounds_ok year = true).
  { apply (proj1 (forallb_forall _ _) bounds_ok_all). apply In_range. lia. }
  unfold bounds_ok in Hb.
  destruct (Time.parse (time_start year)) as [t0|]; [|discriminate].
  destruct (Time.parse (time_end year)) as [t1|]; [|discriminate].
  apply andb_true_iff in Hb. destruct Hb as [Hb H3].
  apply andb_true_iff in Hb. destruct Hb as [H1 H2].
  apply Z.eqb_eq in H1, H2. apply Z.leb_le in H3. subst. auto.
Qed.

Lemma noon_year_in_calendar_year (year t : Z) :
  in_noon_year year t -> in_calendar_year year t.
Proof. unfold in_noon_year, in_calendar_year, Time.civil, Time.ns_per_day, Time.ns_per_second. lia. Qed.

Lemma in_noon_yearb_spec (year t : Z) :
  in_noon_yearb year t = true <-> in_noon_year year t.
Proof. unfold in_noon_yearb, in_noon_year. rewrite andb_true_iff, !Z.leb_le. tauto. Qed.

Section Keyed.

Variable A : Type.
Variables t0 t1 : Z.

Let inb (s : Z * A) : bool := (t0 <=? fst s) && (fst s <=? t1).

Lemma filter_above (l : list (Z * A)) :
  Forall (fun s => t1 < fst s) l -> filter inb l = [].
Proof.
  induction 1 as [|[t v] l Ht _ IH]; [reflexivity|].
  simpl in *. unfold inb at 1. simpl.
  replace (t <=? t1) with false by (symmetry; apply Z.leb_gt; lia).
  now rewrite andb_false_r.
Qed.

Lemma firstn_right_filter (l : list (Z * A)) :
  StronglySorted Z.le (map fst l) ->
  Forall (fun s => t0 <= fst s) l ->
  firstn (Time.searchsorted_right (map fst l) t1) l = filter inb l.
Proof.
  induction l as [|[t v] l IH]; intros Hs Hge; [reflexivity|].
  simpl in *. inversion Hs as [|? ? Hs' Hall]; subst.
  inversion Hge as [|? ? Ht Hge']; subst. simpl in Ht.
  unfold inb at 1. simpl.
  destruct (Z.leb_spec t t1) as [Hle|Hgt].
  - replace (t0 <=? t) with true by (symmetry; apply Z.leb_le; lia).
    simpl. f_equal. apply IH; assumption.
  - rewrite andb_false_r. simpl. symmetry. apply filter_above.
    rewrite Forall_map in Hall. revert Hall. apply Forall_impl. intros; lia.
Qed.

Lemma slice_filter (l : list (Z * A)) :
  StronglySorted Z.le (map fst l) -> t0 <= t1 ->
  slice (Time.searchsorted_left (map fst l) t0)
        (Time.searchsorted_right (map fst l) t1) l = filter inb l.
Proof.
  intros Hs H01. induction l as [|[t v] l IH]; [reflexivity|].
  simpl in *. inversion Hs as [|? ? Hs' Hall]; subst.
  destruct (Z.ltb_spec t t0) as [Hlt|Hge].
  - replace (t <=? t1) with true by (symmetry; apply Z.leb_le; lia).
    unfold inb at 1. simpl.
    replace (t0 <=? t) with false by (symmetry; apply Z.leb_gt; lia).
    simpl. rewrite <- IH by assumption. reflexivity.
  - unfold slice. rewrite Nat.sub_0_r. cbn [skipn].
    apply (firstn_right_filter ((t, v) :: l)); [exact Hs|].
    constructor; [exact Hge|].
    rewrite Forall_map in Hall. revert Hall. apply Forall_impl.
    simpl. intros; lia.
Qed.

End Keyed.

End SliceFacts.

Module YearFacts.

Import SliceFacts.

Local Open Scope Z_scope.

Lemma slice_combine {A B : Type} (i j : nat) (l : list A) (l' : list B) :
  combine (slice i j l) (slice i j l') = slice i j (combine l l').
Proof.
  unfold slice. rewrite <- combine_firstn. f_equal.
  revert l l'. induction i as [|i IH]; intros l l'; [reflexivity|].
  destruct l as [|a l]; [reflexivity|].
  destruct l' as [|b l']; [now destruct (skipn (S i) (a :: l))|].
  apply IH.
Qed.

Lemma map_fst_combine {A B : Type} (l : list A) (l' : list B) :
  length l = length l' -> map fst (combine l l') = l.
Proof.
  revert l'. induction l as [|a l IH]; intros [|b l'] H; try discriminate;
    [reflexivity|].
  simpl. f_equal. apply IH. now injection H.
Qed.

Lemma increasing_strongly (a : list Z) : Time.increasing a -> StronglySorted Z.le a.
Proof.
  apply Sorted_StronglySorted. intros x y z. apply Z.le_trans.
Qed.

Lemma is_monotonic_increasing_spec (a : list Z) :
  Time.is_monotonic_increasing a = true <-> Time.increasing a.
Proof.
  unfold Time.increasing. induction a as [|t a IH]; [split; auto|].
  destruct a as [|t' a]; [split; auto|].
  change (Time.is_monotonic_increasing (t :: t' :: a))
    with ((t <=? t') && Time.is_monotonic_increasing (t' :: a)).
  rewrite andb_true_iff, IH, Z.leb_le. split.
  - intros [Hle Hs]. constructor; [exact Hs|now constructor].
  - intros Hs. inversion Hs as [|? ? Hs' Hhd]; subst.
    inversion Hhd; subst. now split.
Qed.

(** On an increasing index the label slice is the positional slice between
    the two searches. *)
Lemma slice_indexer_increasing (a : list Z) (t0 t1 : Z) :
  Time.increasing a ->
  Time.slice_indexer a t0 t1 =
    Ok (Time.searchsorted_left a t0, Time.searchsorted_right a t1).
Proof.
  intros H. unfold Time.slice_indexer.
  now rewrite (proj2 (is_monotonic_increasing_spec a) H).
Qed.

(** The slice of a well-formed series for a year of the year box: the
    samples between noon of January 1st and noon of December 31st. *)
Lemma tasmax_year_xr_filter (da : DataArray) (year : Z) :
  well_formed da -> year_box_value year ->
  exists da', tasmax_year_xr da year = Ok da' /\
    lat da' = lat da /\ lon da' = lon da /\
    samples da' = filter (fun s => in_noon_yearb year (fst s)) (samples da).
Proof.
  intros (Hlen & _ & Hinc) Hy.
  destruct (parse_bounds year Hy) as (E0 & E1 & H01).
  unfold tasmax_year_xr, loc_time. rewrite E0, E1. cbn [bind].
  rewrite (slice_indexer_increasing _ _ _ Hinc). cbn [bind].
  eexists. split; [reflexivity|]. cbn [lat lon]. repeat split.
  unfold samples. cbn [time values]. rewrite slice_combine.
  rewrite <- (map_fst_combine (time da) (values da)) at 1 2 by now symmetry.
  apply slice_filter; [|exact H01].
  rewrite map_fst_combine by now symmetry.
  now apply increasing_strongly.
Qed.

(** Without a sample between the two bounds both searches stop at the same
    position, whatever the order of the index. *)
Lemma searchsorted_no_sample (a : list Z) (t0 t1 : Z) :
  t0 <= t1 -> (forall t, In t a -> ~ (t0 <= t <= t1)) ->
  Time.searchsorted_right a t1 = Time.searchsorted_left a t0.
Proof.
  intros H01. induction a as [|t a IH]; intros Hno; [reflexivity|].
  simpl. assert (Ht : ~ (t0 <= t <= t1)) by (apply Hno; now left).
  destruct (Z.leb_spec t t1), (Z.ltb_spec t t0); try lia.
  f_equal. apply IH. intros t' Ht'. apply Hno. now right.
Qed.

Lemma slice_empty {A : Type} (i : nat) (l : list A) : slice i i l = [].
Proof. unfold slice. now rewrite Nat.sub_diag. Qed.

Lemma tasmax_year_xr_empty (da : DataArray) (year : Z) :
  Time.increasing (time da) -> year_box_value year ->
  (forall t, In t (time da) -> ~ in_noon_year year t) ->
  tasmax_year_xr da year = Ok (mkDataArray [] (lat da) (lon da) []).
Proof.
  intros Hinc Hy Hno.
  destruct (parse_bounds year Hy) as (E0 & E1 & H01).
  unfold tasmax_year_xr, loc_time. rewrite E0, E1. cbn [bind].
  rewrite (slice_indexer_increasing _ _ _ Hinc). cbn [bind].
  rewrite (searchsorted_no_sample _ _ _ H01 Hno).
  now rewrite !slice_empty.
Qed.

End YearFacts.

Module CheckFacts.

Local Open Scope Z_scope.

Lemma increasingb_spec (a : list Z) : increasingb a = true -> Time.increasing a.
Proof.
  unfold Time.increasing. induction a as [|t a IH]; intros H; [constructor|].
  destruct a as [|t' a]; [repeat constructor|].
  cbn [increasingb] in H. apply andb_true_iff in H. destruct H as [Hle H].
  constructor; [now apply IH|]. constructor. now apply Z.leb_le.
Qed.

Lemma well_formedb_spec (da : DataArray) : well_formedb da = true -> well_formed da.
Proof.
  unfold well_formedb, well_formed. intros H.
  apply andb_true_iff in H. destruct H as [H Hinc].
  apply andb_true_iff in H. destruct H as [Hlen Hshape].
  split; [now apply Nat.eqb_eq|]. split; [|now apply increasingb_spec].
  apply Forall_forall. intros field Hf.
  apply (proj1 (forallb_forall _ _) Hshape) in Hf.
  apply andb_true_iff in Hf. destruct Hf as [H1 H2].
  split; [now apply Nat.eqb_eq|].
  apply Forall_forall. intros row Hr.
  apply (proj1 (forallb_forall _ _) H2) in Hr. now apply Nat.eqb_eq.
Qed.

Lemma in_calendar_yearb_spec (year t : Z) :
  in_calendar_yearb year t = true <-> in_calendar_year year t.
Proof.
  unfold in_calendar_yearb, in_calendar_year.
  rewrite andb_true_iff, !Z.leb_le. tauto.
Qed.

Lemma no_sample_check (year : Z) (a : list Z) :
  forallb (fun t => negb (in_calendar_yearb year t)) a = true ->
  forall t, In t a -> ~ in_calendar_year year t.
Proof.
  intros H t Ht Hin. apply (proj1 (forallb_forall _ _) H) in Ht.
  apply in_calendar_yearb_spec in Hin. rewrite Hin in Ht. discriminate.
Qed.

End CheckFacts.

(** ** The year slice: claims *)

(** C2, the claim as stated fails: the only sample of [midnight_series] is
    stamped 2015-01-01T00:00:00, which lies in the calendar year 2015, and
    the slice for 2015 does not hold it. *)
Lemma tasmax_year_xr_misses_midnight :
  ~ (forall s, In s (samples midnight_series) ->
               in_calendar_year 2015 (fst s) ->
               exists da', tasmax_year_xr midnight_series 2015 = Ok da' /\
                           In s (samples da')).
Proof.
  intros H.
  destruct (H (Time.civil 2015 1 1 0 0 0 0, [[F64.of_Z 300]])) as (da' & E & Hin).
  - left. reflexivity.
  - apply CheckFacts.in_calendar_yearb_spec. vm_compute. reflexivity.
  - vm_compute in E. injection E as <-. exact Hin.
Qed.

(** C2, amended.  For a series whose shape is consistent and whose time
    index increases, and for a year of the year box (1850 to 2100), the slice
    succeeds and holds exactly the samples stamped from noon of January 1st
    to noon of December 31st of the year, in their order; all of them lie in
    the calendar year.  For the daily series from 2014-12-01 to 2016-01-31,
    stamped at noon, and the year 2015 the result is the part from
    2015-01-01 to 2015-12-31. *)
Theorem tasmax_year_xr_noon_to_noon :
  (forall da year,
     well_formed da -> year_box_value year ->
     exists da', tasmax_year_xr da year = Ok da' /\
       samples da' = filter (fun s => in_noon_yearb year (fst s)) (samples da) /\
       (forall s, In s (samples da') <->
                  In s (samples da) /\ in_noon_year year (fst s)) /\
       (forall s, In s (samples da') -> in_calendar_year year (fst s))) /\
  (tasmax_year_xr series_2014_2016 2015 = Ok series_2015 /\
   hd_error (time series_2014_2016) = Some (Time.civil 2014 12 1 12 0 0 0) /\
   last (time series_2014_2016) 0%Z = Time.civil 2016 1 31 12 0 0 0 /\
   hd_error (time series_2015) = Some (Time.civil 2015 1 1 12 0 0 0) /\
   last (time series_2015) 0%Z = Time.civil 2015 12 31 12 0 0 0 /\
   length (time series_2015) = 365).
Proof.
  split.
  - intros da year Hwf Hy.
    destruct (YearFacts.tasmax_year_xr_filter da year Hwf Hy) as (da' & E & _ & _ & Hs).
    exists da'. split; [exact E|]. split; [exact Hs|].
    assert (Hiff : forall s, In s (samples da') <->
                             In s (samples da) /\ in_noon_year year (fst s)).
    { intros s. rewrite Hs, filter_In, SliceFacts.in_noon_yearb_spec. tauto. }
    split; [exact Hiff|].
    intros s Hin. apply SliceFacts.noon_year_in_calendar_year. now apply Hiff.
  - repeat split; vm_compute; reflexivity.
Qed.

Lemma tasmax_year_xr_noon_to_noon_witness :
  well_formed series_2014_2016 /\ year_box_value 2015 /\
  exists da', tasmax_year_xr series_2014_2016 2015 = Ok da' /\
    samples da' = filter (fun s => in_noon_yearb 2015 (fst s)) (samples series_2014_2016) /\
    (forall s, In s (samples da') <->
               In s (samples series_2014_2016) /\ in_noon_year 2015 (fst s)) /\
    (forall s, In s (samples da') -> in_calendar_year 2015 (fst s)).
Proof.
  assert (Hwf : well_formed series_2014_2016)
    by (apply CheckFacts.well_formedb_spec; vm_compute; reflexivity).
  assert (Hy : year_box_value 2015)
    by (apply SliceFacts.year_box_value_iff; lia).
  split; [exact Hwf|]. split; [exact Hy|].
  exact (proj1 tasmax_year_xr_noon_to_noon series_2014_2016 2015%Z Hwf Hy).
Defined.

(** ** The count of summer days *)

Module CountFacts.

Import F64 F64Facts.

Lemma getitem_mask_filter (x : list float) (threshold : float) :
  getitem_mask x (gt_scalar x threshold) = filter (fun v => ltb threshold v) x.
Proof.
  unfold getitem_mask, gt_scalar.
  induction x as [|v x IH]; [reflexivity|].
  simpl. destruct (ltb threshold v); simpl; now rewrite IH.
Qed.

Lemma summer_days_filter (threshold : float) (x : list float) :
  summer_days threshold x = length (filter (fun v => ltb threshold v) x).
Proof. unfold summer_days. now rewrite getitem_mask_filter. Qed.

Lemma gt_not_nan (threshold v : float) :
  ltb threshold v = negb (isnan v) && ltb threshold v.
Proof.
  destruct (ltb threshold v) eqn:E; [|now rewrite andb_false_r].
  now rewrite (ltb_not_nan_r _ _ E).
Qed.

Lemma length_filter_Permutation {A : Type} (f : A -> bool) (l l' : list A) :
  Permutation l l' -> length (filter f l) = length (filter f l').
Proof.
  induction 1 as [|a l l' _ IH|a b l|l l' l'' _ IH1 _ IH2]; simpl.
  - reflexivity.
  - destruct (f a); simpl; now rewrite IH.
  - destruct (f a), (f b); reflexivity.
  - now rewrite IH1.
Qed.

Lemma filter_all {A : Type} (f : A -> bool) (l : list A) :
  Forall (fun v => f v = true) l -> filter f l = l.
Proof.
  induction 1 as [|v l Hv _ IH]; [reflexivity|]. simpl. now rewrite Hv, IH.
Qed.

Lemma filter_none {A : Type} (f : A -> bool) (l : list A) :
  Forall (fun v => f v = false) l -> filter f l = [].
Proof.
  induction 1 as [|v l Hv _ IH]; [reflexivity|]. simpl. now rewrite Hv, IH.
Qed.

(** A series that splits into [hi], all above the threshold, and [lo], all
    at most the threshold, counts the length of [hi]. *)
Lemma summer_days_split (threshold : float) (x hi lo : list float) :
  Permutation x (hi ++ lo) ->
  Forall (fun v => ltb threshold v = true) hi ->
  Forall (fun v => leb v threshold = true) lo ->
  summer_days threshold x = length hi.
Proof.
  intros Hp Hhi Hlo. rewrite summer_days_filter.
  rewrite (length_filter_Permutation _ _ _ Hp), filter_app, length_app.
  rewrite (filter_all (fun v => ltb threshold v) _ Hhi), filter_none;
    [simpl; lia|].
  revert Hlo. apply Forall_impl. intros v. apply leb_ltb_false.
Qed.

Lemma length_filter_map {A B : Type} (f : A -> B) (p : B -> bool) (l : list A) :
  length (filter p (map f l)) = length (filter (fun v => p (f v)) l).
Proof.
  induction l as [|v l IH]; [reflexivity|].
  cbn [map filter]. destruct (p (f v)); cbn [length]; now rewrite IH.
Qed.

Lemma isel_Ok (da : DataArray) (yloc xloc : nat) :
  yloc < length (lat da) -> xloc < length (lon da) ->
  isel da yloc xloc =
  Ok (map (fun field => nth xloc (nth yloc field []) nan) (values da)).
Proof.
  intros Hy Hx. unfold isel.
  apply Nat.ltb_lt in Hy, Hx. now rewrite Hy, Hx.
Qed.

Lemma slice_length_eq {A B : Type} (i j : nat) (l : list A) (l' : list B) :
  length l = length l' -> length (slice i j l) = length (slice i j l').
Proof.
  intros H. unfold slice. rewrite !length_firstn, !length_skipn. lia.
Qed.

Lemma map_snd_combine {A B : Type} (l : list A) (l' : list B) :
  length l = length l' -> map snd (combine l l') = l'.
Proof.
  revert l'. induction l as [|a l IH]; intros [|b l'] H; try discriminate;
    [reflexivity|].
  simpl. f_equal. apply IH. now injection H.
Qed.

Lemma filter_filter {A : Type} (p q : A -> bool) (l : list A) :
  filter q (filter p l) = filter (fun v => p v && q v) l.
Proof.
  induction l as [|v l IH]; [reflexivity|].
  simpl. destruct (p v); simpl; [destruct (q v)|]; now rewrite IH.
Qed.

(** The notebook from the slice to the count, once the grid cell is
    found: the number of samples of the year, noon to noon, whose Kelvin
    value at the cell is above 25.0 after the subtraction of 273.15. *)
Lemma notebook_counts (da : DataArray) (year : Z) (latitude longitude : float)
      (xloc yloc : nat) :
  well_formed da -> year_box_value year ->
  nearest_grid_cell (lat da) (lon da) latitude longitude = Ok (xloc, yloc) ->
  notebook da year latitude longitude =
  Ok (length (filter
        (fun s => in_noon_yearb year (fst s) &&
                  ltb (of_Z 25)
                      (sub (nth xloc (nth yloc (snd s) []) nan) (dec 27315 2)))
        (samples da))).
Proof.
  intros Hwf Hy Hloc.
  destruct (YearFacts.tasmax_year_xr_filter da year Hwf Hy)
    as (da' & E & Hlat & Hlon & Hs).
  assert (Hlen : length (time da') = length (values da')).
  { unfold tasmax_year_xr, loc_time in E.
    apply bind_Ok_inv in E. destruct E as (t0 & _ & E).
    apply bind_Ok_inv in E. destruct E as (t1 & _ & E).
    apply bind_Ok_inv in E. destruct E as ([i0 i1] & _ & E).
    injection E as <-. cbn [time values].
    apply slice_length_eq. symmetry. apply Hwf. }
  destruct (nearest_grid_cell_sound _ _ _ _ _ _ Hloc) as (Hx & Hyl & _).
  unfold notebook. rewrite E. cbn [bind]. rewrite Hlat, Hlon, Hloc. cbn [bind].
  unfold tasmax_year_place_xr.
  rewrite isel_Ok by (rewrite ?Hlat, ?Hlon; assumption). cbn [bind].
  f_equal. unfold no_summer_days_model, Np.sub_scalar.
  rewrite summer_days_filter, !length_filter_map.
  rewrite <- (map_snd_combine (time da') (values da') Hlen) at 1.
  fold (samples da'). rewrite length_filter_map, Hs, filter_filter.
  reflexivity.
Qed.

End CountFacts.

(** C3.  The count is the number of values of the series that are not NaN
    and strictly above the threshold, for every threshold and every series;
    it is 0 on the empty series; and a series of 365 values of which ten are
    above 25.0 and the others at most 25.0 counts 10. *)
Theorem summer_days_counts_above :
  (forall threshold x,
     summer_days threshold x =
     length (filter (fun v => negb (F64.isnan v) && F64.ltb threshold v) x)) /\
  (forall threshold, summer_days threshold [] = 0) /\
  (forall x hi lo,
     Permutation x (hi ++ lo) -> length hi = 10 -> length lo = 355 ->
     Forall (fun v => F64.ltb (F64.of_Z 25) v = true) hi ->
     Forall (fun v => F64.leb v (F64.of_Z 25) = true) lo ->
     length x = 365 /\ no_summer_days_model x = 10) /\
  (length year_of_values = 365 /\ no_summer_days_model year_of_values = 10).
Proof.
  split; [|split; [|split]].
  - intros threshold x. rewrite CountFacts.summer_days_filter.
    f_equal. apply filter_ext. intros v. apply CountFacts.gt_not_nan.
  - reflexivity.
  - intros x hi lo Hp Hhi Hlo Fhi Flo. split.
    + rewrite (Permutation_length Hp), length_app. lia.
    + unfold no_summer_days_model.
      now rewrite (CountFacts.summer_days_split _ _ _ _ Hp Fhi Flo).
  - split; vm_compute; reflexivity.
Qed.

Lemma summer_days_counts_above_witness :
  let hi := repeat (F64.of_Z 30) 10 in
  let lo := repeat (F64.of_Z 20) 355 in
  Permutation (lo ++ hi) (hi ++ lo) /\ length hi = 10 /\ length lo = 355 /\
  Forall (fun v => F64.ltb (F64.of_Z 25) v = true) hi /\
  Forall (fun v => F64.leb v (F64.of_Z 25) = true) lo /\
  length (lo ++ hi) = 365 /\ no_summer_days_model (lo ++ hi) = 10.
Proof.
  intros hi lo.
  assert (Hp : Permutation (lo ++ hi) (hi ++ lo)) by apply Permutation_app_comm.
  assert (Hhi : length hi = 10) by reflexivity.
  assert (Hlo : length lo = 355) by reflexivity.
  assert (Fhi : Forall (fun v => F64.ltb (F64.of_Z 25) v = true) hi)
    by (apply Forall_forall; intros v Hv; apply repeat_spec in Hv; subst;
        vm_compute; reflexivity).
  assert (Flo : Forall (fun v => F64.leb v (F64.of_Z 25) = true) lo)
    by (apply Forall_forall; intros v Hv; apply repeat_spec in Hv; subst;
        vm_compute; reflexivity).
  repeat (split; [assumption|]).
  exact (proj1 (proj2 (proj2 summer_days_counts_above)) (lo ++ hi) hi lo Hp Hhi Hlo Fhi Flo).
Defined.

(** C4.  At a grid cell of the array the series of the cell is the Kelvin
    series with the binary64 value of 273.15 subtracted from every sample;
    the threshold of the count is the binary64 value 25.0; so the count is
    the number of Kelvin samples [v] with [v - 273.15 > 25.0], and the
    notebook, from the slice to the count, returns the number of samples of
    the year whose Kelvin value at the grid cell satisfies this.  A sample of
    298.16 K is a summer day, a sample of 298.15 K is not; of the values
    31 K, 32 K, ..., 395 K that the series from 2014-12-01 to 2016-01-31
    holds on the days of 2015, the 97 values from 299 K on are. *)
Theorem no_summer_days_model_kelvin :
  (forall da yloc xloc,
     yloc < length (lat da) -> xloc < length (lon da) ->
     let kelvin := map (fun field => nth xloc (nth yloc field []) F64.nan) (values da) in
     let celsius := map (fun v => F64.sub v (F64.dec 27315 2)) kelvin in
     isel da yloc xloc = Ok kelvin /\
     tasmax_year_place_xr da yloc xloc = Ok celsius /\
     no_summer_days_model celsius =
     length (filter (fun v => F64.ltb (F64.of_Z 25) (F64.sub v (F64.dec 27315 2)))
                    kelvin)) /\
  (forall da year latitude longitude xloc yloc,
     well_formed da -> year_box_value year ->
     nearest_grid_cell (lat da) (lon da) latitude longitude = Ok (xloc, yloc) ->
     notebook da year latitude longitude =
     Ok (length (filter
           (fun s => in_noon_yearb year (fst s) &&
                     F64.ltb (F64.of_Z 25)
                       (F64.sub (nth xloc (nth yloc (snd s) []) F64.nan)
                                (F64.dec 27315 2)))
           (samples da)))) /\
  F64.dec 27315 2 = S754_finite false 4805305618032230 (-44) /\
  F64.of_Z 25 = S754_finite false 7036874417766400 (-48) /\
  no_summer_days_model
    (Np.sub_scalar [F64.dec 29816 2; F64.dec 29815 2] (F64.dec 27315 2)) = 1 /\
  notebook series_2014_2016 2015 query_lat query_lon = Ok 97.
Proof.
  split; [|split; [|repeat split; vm_compute; reflexivity]].
  - intros da yloc xloc Hy Hx kelvin celsius.
    assert (Hk : isel da yloc xloc = Ok kelvin) by now apply CountFacts.isel_Ok.
    split; [exact Hk|]. split.
    + unfold tasmax_year_place_xr. rewrite Hk. reflexivity.
    + unfold no_summer_days_model. rewrite CountFacts.summer_days_filter.
      apply CountFacts.length_filter_map.
  - intros. now apply CountFacts.notebook_counts.
Qed.

Lemma no_summer_days_model_kelvin_witness :
  (0 < length (lat midnight_series) /\ 0 < length (lon midnight_series) /\
   isel midnight_series 0 0 = Ok [F64.of_Z 300] /\
   tasmax_year_place_xr midnight_series 0 0
     = Ok [F64.sub (F64.of_Z 300) (F64.dec 27315 2)] /\
   no_summer_days_model [F64.sub (F64.of_Z 300) (F64.dec 27315 2)] =
   length (filter (fun v => F64.ltb (F64.of_Z 25) (F64.sub v (F64.dec 27315 2)))
                  [F64.of_Z 300])) /\
  (well_formed series_2014_2016 /\ year_box_value 2015 /\
   nearest_grid_cell (lat series_2014_2016) (lon series_2014_2016)
                     query_lat query_lon = Ok (0, 0) /\
   notebook series_2014_2016 2015 query_lat query_lon =
   Ok (length (filter
         (fun s => in_noon_yearb 2015 (fst s) &&
                   F64.ltb (F64.of_Z 25)
                     (F64.sub (nth 0 (nth 0 (snd s) []) F64.nan) (F64.dec 27315 2)))
         (samples series_2014_2016)))).
Proof.
  split.
  - assert (Hy : 0 < length (lat midnight_series)) by (simpl; lia).
    assert (Hx : 0 < length (lon midnight_series)) by (simpl; lia).
    split; [exact Hy|]. split; [exact Hx|].
    exact (proj1 no_summer_days_model_kelvin midnight_series 0 0 Hy Hx).
  - assert (Hwf : well_formed series_2014_2016)
      by (apply CheckFacts.well_formedb_spec; vm_compute; reflexivity).
    assert (Hy : year_box_value 2015)
      by (apply SliceFacts.year_box_value_iff; lia).
    assert (Hloc : nearest_grid_cell (lat series_2014_2016) (lon series_2014_2016)
                     query_lat query_lon = Ok (0, 0))
      by (vm_compute; reflexivity).
    split; [exact Hwf|]. split; [exact Hy|]. split; [exact Hloc|].
    exact (proj1 (proj2 no_summer_days_model_kelvin) series_2014_2016 2015%Z
             query_lat query_lon 0 0 Hwf Hy Hloc).
Defined.

(** C7, the claim as stated fails: no sample of [unsorted_series] lies in
    the calendar year 2015, and the slice for 2015 raises [KeyError], since
    the time index does not increase and the two labels do not occur in
    it. *)
Lemma tasmax_year_xr_unsorted_raises :
  (forall t, In t (time unsorted_series) -> ~ in_calendar_year 2015 t) /\
  tasmax_year_xr unsorted_series 2015 = Raise KeyError /\
  ~ (exists da', tasmax_year_xr unsorted_series 2015 = Ok da' /\ time da' = []).
Proof.
  split; [apply CheckFacts.no_sample_check; vm_compute; reflexivity|].
  assert (E : tasmax_year_xr unsorted_series 2015 = Raise KeyError)
    by (vm_compute; reflexivity).
  split; [exact E|]. intros (da' & E' & _). rewrite E in E'. discriminate E'.
Qed.

(** C7, amended.  When no sample of a series with an increasing time index
    lies in the calendar year, the slice for the year succeeds and is empty;
    the series at any grid cell of the empty slice is empty and its count is
    0, and the notebook as a whole returns 0 whenever it finds the grid
    cell. *)
Theorem year_without_samples_counts_zero :
  (forall da year,
     Time.increasing (time da) -> year_box_value year ->
     (forall t, In t (time da) -> ~ in_calendar_year year t) ->
     tasmax_year_xr da year = Ok (mkDataArray [] (lat da) (lon da) [])) /\
  (forall da year latitude longitude xloc yloc,
     Time.increasing (time da) -> year_box_value year ->
     (forall t, In t (time da) -> ~ in_calendar_year year t) ->
     nearest_grid_cell (lat da) (lon da) latitude longitude = Ok (xloc, yloc) ->
     tasmax_year_place_xr (mkDataArray [] (lat da) (lon da) []) yloc xloc = Ok [] /\
     no_summer_days_model [] = 0 /\
     notebook da year latitude longitude = Ok 0).
Proof.
  assert (Hslice : forall da year,
     Time.increasing (time da) -> year_box_value year ->
     (forall t, In t (time da) -> ~ in_calendar_year year t) ->
     tasmax_year_xr da year = Ok (mkDataArray [] (lat da) (lon da) [])).
  { intros da year Hinc Hy Hno.
    apply YearFacts.tasmax_year_xr_empty; [exact Hinc|exact Hy|].
    intros t Ht Hin. apply (Hno t Ht).
    now apply SliceFacts.noon_year_in_calendar_year. }
  split; [exact Hslice|].
  intros da year latitude longitude xloc yloc Hinc Hy Hno Hloc.
  destruct (nearest_grid_cell_sound _ _ _ _ _ _ Hloc) as (Hx & Hyl & _).
  assert (Hplace : tasmax_year_place_xr (mkDataArray [] (lat da) (lon da) []) yloc xloc
                   = Ok []).
  { unfold tasmax_year_place_xr. rewrite CountFacts.isel_Ok by assumption.
    reflexivity. }
  split; [exact Hplace|]. split; [reflexivity|].
  unfold notebook. rewrite (Hslice da year Hinc Hy Hno). cbn [bind lat lon].
  rewrite Hloc. cbn [bind]. rewrite Hplace. reflexivity.
Qed.

Lemma year_without_samples_counts_zero_witness :
  Time.increasing (time series_dec_2014) /\
  year_box_value 2015 /\
  (forall t, In t (time series_dec_2014) -> ~ in_calendar_year 2015 t) /\
  nearest_grid_cell (lat series_dec_2014) (lon series_dec_2014) query_lat query_lon
    = Ok (0, 0) /\
  tasmax_year_xr series_dec_2014 2015
    = Ok (mkDataArray [] (lat series_dec_2014) (lon series_dec_2014) []) /\
  tasmax_year_place_xr
    (mkDataArray [] (lat series_dec_2014) (lon series_dec_2014) []) 0 0 = Ok [] /\
  no_summer_days_model [] = 0 /\
  notebook series_dec_2014 2015 query_lat query_lon = Ok 0.
Proof.
  assert (Hinc : Time.increasing (time series_dec_2014))
    by (apply CheckFacts.increasingb_spec; vm_compute; reflexivity).
  assert (Hy : year_box_value 2015)
    by (apply SliceFacts.year_box_value_iff; lia).
  assert (Hno : forall t, In t (time series_dec_2014) -> ~ in_calendar_year 2015 t)
    by (apply CheckFacts.no_sample_check; vm_compute; reflexivity).
  assert (Hloc : nearest_grid_cell (lat series_dec_2014) (lon series_dec_2014)
                   query_lat query_lon = Ok (0, 0))
    by (vm_compute; reflexivity).
  split; [exact Hinc|]. split; [exact Hy|]. split; [exact Hno|].
  split; [exact Hloc|]. split.
  - exact (proj1 year_without_samples_counts_zero series_dec_2014 2015%Z
             Hinc Hy Hno).
  - exact (proj2 year_without_samples_counts_zero series_dec_2014 2015%Z
             query_lat query_lon 0 0 Hinc Hy Hno Hloc).
Defined.


(** ** Python lists, strings and dictionaries: facts *)

Module PyFacts.

Lemma getitem_Ok {A : Type} (a : list A) (i : nat) (d : A) :
  i < length a -> Py.getitem a i = Ok (nth i a d).
Proof.
  intros H. unfold Py.getitem.
  destruct (nth_error a i) as [x|] eqn:E.
  - now rewrite (nth_error_nth _ _ d E).
  - apply nth_error_None in E. lia.
Qed.

Lemma comprehension_Ok {A B : Type} (f : A -> result B) (g : A -> B) (a : list A) :
  (forall x, In x a -> f x = Ok (g x)) -> Py.comprehension f a = Ok (map g a).
Proof.
  induction a as [|x a IH]; intros H; [reflexivity|].
  simpl. rewrite (H x) by now left. cbn [bind].
  rewrite IH by (intros y Hy; apply H; now right). reflexivity.
Qed.

Lemma getitem_Ok_inv {A : Type} (a : list A) (i : nat) (x : A) :
  Py.getitem a i = Ok x -> nth_error a i = Some x.
Proof.
  unfold Py.getitem. destruct (nth_error a i); [|discriminate].
  now intros H; injection H as ->.
Qed.

Lemma comprehension_Ok_inv {A B : Type} (f : A -> result B) (a : list A) :
  forall ys, Py.comprehension f a = Ok ys ->
  forall x, In x a -> exists y, f x = Ok y /\ In y ys.
Proof.
  induction a as [|x0 a IH]; intros ys H x Hx; [destruct Hx|].
  simpl in H. apply bind_Ok_inv in H. destruct H as (y0 & E0 & H).
  apply bind_Ok_inv in H. destruct H as (ys' & E' & H). injection H as <-.
  destruct Hx as [<-|Hx].
  - exists y0. split; [exact E0|now left].
  - destruct (IH ys' E' x Hx) as (y & Ey & Hy). exists y. split; [exact Ey|now right].
Qed.

Lemma for_each_Ok_inv {S A : Type} (body : S -> A -> result S) (xs : list A) :
  forall st st', Py.for_each body st xs = Ok st' ->
  forall x, In x xs -> exists s1 s2, body s1 x = Ok s2.
Proof.
  induction xs as [|x0 xs IH]; intros st st' H x Hx; [destruct Hx|].
  simpl in H. apply bind_Ok_inv in H. destruct H as (st1 & E1 & H).
  destruct Hx as [<-|Hx]; [eauto|]. now apply (IH st1 st').
Qed.

Lemma last_item_Ok {A : Type} (a : list A) :
  a <> [] -> exists x, Py.last_item a = Ok x /\ In x a.
Proof.
  induction a as [|x a IH]; intros H; [congruence|].
  destruct a as [|y a]; [exists x; simpl; auto|].
  destruct IH as (z & Hz & Hin); [discriminate|].
  exists z. split; [exact Hz|now right].
Qed.

Lemma insert_not_nil (x : string) (a : list string) : Py.insert x a <> [].
Proof. destruct a as [|y a]; simpl; [|destruct (String.leb x y)]; discriminate. Qed.

Lemma sort_not_nil (a : list string) : a <> [] -> Py.sort a <> [].
Proof. destruct a as [|x a]; [congruence|]. intros _. apply insert_not_nil. Qed.

Lemma insert_Permutation (x : string) (a : list string) :
  Permutation (Py.insert x a) (x :: a).
Proof.
  induction a as [|y a IH]; simpl; [reflexivity|].
  destruct (String.leb x y); [reflexivity|].
  rewrite IH. apply perm_swap.
Qed.

Lemma sort_Permutation (a : list string) : Permutation (Py.sort a) a.
Proof.
  induction a as [|x a IH]; simpl; [reflexivity|].
  rewrite insert_Permutation. now constructor.
Qed.

Lemma sort_In (a : list string) (x : string) : In x (Py.sort a) <-> In x a.
Proof.
  split; apply Permutation_in;
    [apply sort_Permutation | symmetry; apply sort_Permutation].
Qed.

Lemma leb_false_leb (x y : string) : String.leb x y = false -> String.leb y x = true.
Proof. intros H. destruct (String.leb_total x y); congruence. Qed.

Lemma insert_Sorted (x : string) (a : list string) :
  Sorted (fun s t => String.leb s t = true) a ->
  Sorted (fun s t => String.leb s t = true) (Py.insert x a).
Proof.
  induction a as [|y a IH]; intros Hs; simpl; [repeat constructor|].
  destruct (String.leb x y) eqn:E; [constructor; [exact Hs|now constructor]|].
  inversion Hs as [|? ? Hs' Hhd]; subst.
  constructor; [now apply IH|].
  destruct a as [|z a]; simpl.
  - constructor. now apply leb_false_leb.
  - destruct (String.leb x z); constructor;
      [now apply leb_false_leb | now inversion Hhd].
Qed.

(** [sort] sorts. *)
Lemma sort_Sorted (a : list string) :
  Sorted (fun s t => String.leb s t = true) (Py.sort a).
Proof.
  induction a as [|x a IH]; simpl; [constructor|]. now apply insert_Sorted.
Qed.

Lemma prefix_contains (sub s : string) :
  String.prefix sub s = true -> Py.contains sub s = true.
Proof. intros H. destruct s; simpl in *; now rewrite H. Qed.

Lemma contains_tail (sub s : string) (ch : ascii) :
  Py.contains sub s = true -> Py.contains sub (String ch s) = true.
Proof. intros H. cbn [Py.contains]. rewrite H. apply orb_true_r. Qed.

Lemma split_head (sep : ascii) (s : string) :
  exists field fields,
    Py.split sep s = field :: fields /\ String.prefix field s = true.
Proof.
  induction s as [|ch s (field & fields & E & Hp)]; simpl.
  - exists EmptyString, []. auto.
  - destruct (Ascii.eqb ch sep).
    + exists EmptyString, (Py.split sep s). auto.
    + rewrite E. exists (String ch field), fields. split; [reflexivity|].
      simpl. destruct (ascii_dec ch ch); [exact Hp|congruence].
Qed.

(** Every field of a split is a part of the text. *)
Lemma split_field_contains (sep : ascii) (s : string) :
  forall field, In field (Py.split sep s) -> Py.contains field s = true.
Proof.
  induction s as [|ch s IH]; intros field Hin; simpl in Hin.
  - destruct Hin as [<-|[]]. reflexivity.
  - destruct (Ascii.eqb ch sep).
    + destruct Hin as [<-|Hin]; [reflexivity|]. apply contains_tail. now apply IH.
    + destruct (split_head sep s) as (f0 & fs & E & Hp). rewrite E in Hin, IH.
      destruct Hin as [<-|Hin].
      * apply prefix_contains. simpl.
        destruct (ascii_dec ch ch); [exact Hp|congruence].
      * apply contains_tail. apply IH. now right.
Qed.

Lemma dict_in_keys {V : Type} (key : string) (d : Py.dict V) :
  Py.dict_in key d = true <-> In key (Py.keys d).
Proof.
  unfold Py.dict_in, Py.keys. rewrite existsb_exists, in_map_iff. split.
  - intros (item & Hin & E). apply String.eqb_eq in E. eauto.
  - intros (item & E & Hin). exists item. split; [exact Hin|].
    now apply String.eqb_eq.
Qed.

Lemma existsb_eqb_In (ks : list string) (key : string) :
  existsb (fun k => String.eqb k key) ks = true <-> In key ks.
Proof.
  rewrite existsb_exists. split.
  - intros (k & Hin & E). apply String.eqb_eq in E. now subst.
  - intros H. exists key. split; [exact H|apply String.eqb_refl].
Qed.

Lemma keys_dict_set {V : Type} (d : Py.dict V) (key : string) (v : V) :
  Py.keys (Py.dict_set d key v) = add_key (Py.keys d) key.
Proof.
  unfold add_key, Py.keys. induction d as [|[k v'] d IH]; [reflexivity|].
  simpl. destruct (String.eqb k key); [reflexivity|].
  simpl. rewrite IH.
  now destruct (existsb (fun k0 => String.eqb k0 key) (map fst d)).
Qed.

Lemma keys_fromkeys (a : list string) : Py.keys (Py.fromkeys a) = dedup a.
Proof.
  unfold Py.fromkeys, dedup.
  assert (H : forall d : Py.dict unit,
             Py.keys (fold_left (fun d key => Py.dict_set d key tt) a d)
             = fold_left add_key a (Py.keys d)); [|apply (H [])].
  induction a as [|x a IH]; intros d; [reflexivity|].
  simpl. now rewrite IH, keys_dict_set.
Qed.

Lemma add_key_In (ks : list string) (key m : string) :
  In m (add_key ks key) <-> In m ks \/ m = key.
Proof.
  unfold add_key.
  destruct (existsb (fun k => String.eqb k key) ks) eqn:E.
  - apply existsb_eqb_In in E. split; [auto|]. intros [H| ->]; assumption.
  - rewrite in_app_iff. simpl. intuition.
Qed.

Lemma dedup_snoc (a : list string) (x : string) :
  dedup (a ++ [x]) = add_key (dedup a) x.
Proof. unfold dedup. now rewrite fold_left_app. Qed.

Lemma dedup_In (a : list string) (m : string) : In m (dedup a) <-> In m a.
Proof.
  induction a as [|x a IH] using rev_ind; [reflexivity|].
  rewrite dedup_snoc, add_key_In, IH, in_app_iff. simpl. intuition.
Qed.

Lemma NoDup_snoc {A : Type} (l : list A) (x : A) :
  NoDup l -> ~ In x l -> NoDup (l ++ [x]).
Proof.
  intros Hl Hx. apply NoDup_app; [exact Hl|repeat constructor; intros []|].
  intros a Ha [<-|[]]. contradiction.
Qed.

Lemma dedup_NoDup (a : list string) : NoDup (dedup a).
Proof.
  induction a as [|x a IH] using rev_ind; [constructor|].
  rewrite dedup_snoc. unfold add_key.
  destruct (existsb (fun k => String.eqb k x) (dedup a)) eqn:E; [exact IH|].
  apply NoDup_snoc; [exact IH|].
  intros H. apply existsb_eqb_In in H. congruence.
Qed.

Lemma fold_add_key_NoDup (l acc : list string) :
  NoDup (acc ++ l) -> fold_left add_key l acc = acc ++ l.
Proof.
  revert acc. induction l as [|x l IH]; intros acc H; simpl.
  - now rewrite app_nil_r.
  - assert (Hx : existsb (fun k => String.eqb k x) acc = false).
    { destruct (existsb _ acc) eqn:E; [|reflexivity].
      apply existsb_eqb_In in E. apply NoDup_remove_2 in H.
      exfalso. apply H. apply in_app_iff. now left. }
    unfold add_key at 2. rewrite Hx.
    rewrite IH; rewrite <- app_assoc; [reflexivity|exact H].
Qed.

Lemma dedup_idempotent (a : list string) : dedup (dedup a) = dedup a.
Proof. unfold dedup at 1. apply fold_add_key_NoDup. apply dedup_NoDup. Qed.

End PyFacts.

(** ** The model list *)

Module ModelFacts.

Import PyFacts.

Lemma first_index_app (a b : list string) (m : string) :
  In m a -> first_index m (a ++ b) = first_index m a.
Proof.
  induction a as [|x a IH]; intros H; [destruct H|].
  simpl. destruct (String.eqb_spec x m) as [_|Hne]; [reflexivity|].
  f_equal. apply IH. destruct H; [contradiction|assumption].
Qed.

Lemma first_index_lt (a : list string) (m : string) :
  In m a -> first_index m a < length a.
Proof.
  induction a as [|x a IH]; intros H; [destruct H|].
  simpl. destruct (String.eqb_spec x m) as [_|Hne]; [lia|].
  destruct H; [contradiction|]. apply IH in H. lia.
Qed.

Lemma first_index_snoc (a : list string) (m : string) :
  ~ In m a -> first_index m (a ++ [m]) = length a.
Proof.
  induction a as [|x a IH]; intros H; simpl.
  - now rewrite String.eqb_refl.
  - destruct (String.eqb_spec x m) as [->|_]; [exfalso; apply H; now left|].
    f_equal. apply IH. intros Hin. apply H. now right.
Qed.

Lemma StronglySorted_ext_in {A : Type} (R R' : A -> A -> Prop) (l : list A) :
  (forall a b, In a l -> In b l -> R a b -> R' a b) ->
  StronglySorted R l -> StronglySorted R' l.
Proof.
  intros H Hs. induction Hs as [|a l Hs IH Hall]; [constructor|].
  constructor.
  - apply IH. intros x y Hx Hy. apply H; now right.
  - apply Forall_forall. intros b Hb. apply H; [now left|now right|].
    now apply (proj1 (Forall_forall _ _) Hall).
Qed.

Lemma StronglySorted_snoc {A : Type} (R : A -> A -> Prop) (l : list A) (x : A) :
  StronglySorted R l -> Forall (fun a => R a x) l -> StronglySorted R (l ++ [x]).
Proof.
  intros Hs Hx. induction Hs as [|a l Hs IH Hall]; simpl.
  - repeat constructor.
  - inversion Hx as [|? ? Hax Hx']; subst.
    constructor; [now apply IH|].
    apply Forall_app. split; [exact Hall|]. now repeat constructor.
Qed.

Lemma StronglySorted_filter {A : Type} (R : A -> A -> Prop) (p : A -> bool)
      (l : list A) :
  StronglySorted R l -> StronglySorted R (filter p l).
Proof.
  intros Hs. induction Hs as [|a l Hs IH Hall]; simpl; [constructor|].
  destruct (p a); [|exact IH]. constructor; [exact IH|].
  apply Forall_forall. intros b Hb. apply filter_In in Hb.
  now apply (proj1 (Forall_forall _ _) Hall).
Qed.

(** What is left of a list without its repeats stands in the order of the
    first occurrences. *)
Lemma dedup_before (a : list string) : StronglySorted (before a) (dedup a).
Proof.
  induction a as [|x a IH] using rev_ind; [constructor|].
  assert (Hext : StronglySorted (before (a ++ [x])) (dedup a)).
  { revert IH. apply StronglySorted_ext_in. intros m1 m2 H1 H2.
    apply (proj1 (dedup_In _ _)) in H1, H2. unfold before.
    rewrite (first_index_app a [x] m1 H1), (first_index_app a [x] m2 H2).
    trivial. }
  rewrite dedup_snoc. unfold add_key.
  destruct (existsb (fun k => String.eqb k x) (dedup a)) eqn:E; [exact Hext|].
  assert (Hx : ~ In x a).
  { intros H. apply (proj2 (dedup_In _ _)), (proj2 (existsb_eqb_In _ _)) in H.
    congruence. }
  apply StronglySorted_snoc; [exact Hext|].
  apply Forall_forall. intros m Hm. apply (proj1 (dedup_In _ _)) in Hm.
  unfold before.
  rewrite (first_index_app a [x] m Hm), (first_index_snoc a x Hx).
  now apply first_index_lt.
Qed.

Lemma model_list_loop_filter (hist ssp245 : Py.dict string) :
  model_list_loop hist ssp245 =
  filter (fun key => Py.dict_in key ssp245) (Py.keys hist).
Proof.
  unfold model_list_loop.
  assert (H : forall ks acc,
    fold_left (fun model_list key =>
                 if Py.dict_in key ssp245 then model_list ++ [key] else model_list)
              ks acc
    = acc ++ filter (fun key => Py.dict_in key ssp245) ks); [|apply (H _ [])].
  induction ks as [|k ks IH]; intros acc; simpl; [now rewrite app_nil_r|].
  rewrite IH. destruct (Py.dict_in k ssp245); [|reflexivity].
  now rewrite <- app_assoc.
Qed.

Section Listing.

Variable files : list string.
Hypothesis files_ok : listing_ok files.

Lemma r1_files_fields (filename : string) :
  In filename (r1_files files) -> 8 <= length (Py.split "_" filename).
Proof.
  unfold r1_files. intros H. apply filter_In in H. destruct H as [Hin Hc].
  apply files_ok; [now apply sort_In|exact Hc].
Qed.

Lemma models_Ok : models (r1_files files) = Ok (model_names files).
Proof.
  unfold models, model_names. apply comprehension_Ok.
  intros filename H. apply getitem_Ok.
  apply r1_files_fields in H. lia.
Qed.

Lemma model_name_file (model : string) :
  In model (model_names files) ->
  exists filename, In filename (r1_files files) /\
                   Py.contains model filename = true.
Proof.
  unfold model_names. intros H. apply in_map_iff in H.
  destruct H as (filename & <- & Hin). exists filename. split; [exact Hin|].
  apply (split_field_contains "_"). apply nth_In.
  apply r1_files_fields in Hin. lia.
Qed.

Lemma latest_version_Ok (d : Py.dict string) (model : string) :
  In model (model_names files) ->
  exists latest, latest_version (r1_files files) d model
                 = Ok (Py.dict_set d model latest).
Proof.
  intros H. unfold latest_version.
  rewrite (comprehension_Ok _ (fun filename => nth 7 (Py.split "_" filename) EmptyString)).
  - cbn [bind].
    destruct (last_item_Ok (Py.sort (map (fun filename =>
                 nth 7 (Py.split "_" filename) EmptyString)
                 (filter (Py.contains model) (r1_files files)))))
      as (latest & E & _).
    + apply sort_not_nil.
      destruct (model_name_file model H) as (filename & Hin & Hc).
      assert (Hf : In filename (filter (Py.contains model) (r1_files files)))
        by (apply filter_In; auto).
      intros Hnil. apply (in_map (fun filename => nth 7 (Py.split "_" filename) EmptyString)) in Hf.
      rewrite Hnil in Hf. destruct Hf.
    + rewrite E. cbn [bind]. eauto.
  - intros filename Hin. apply filter_In in Hin. destruct Hin as [Hin _].
    apply getitem_Ok. apply r1_files_fields in Hin. lia.
Qed.

Lemma for_each_latest_version (l : list string) : forall d,
  (forall model, In model l -> In model (model_names files)) ->
  exists d', Py.for_each (latest_version (r1_files files)) d l = Ok d' /\
             Py.keys d' = fold_left add_key l (Py.keys d).
Proof.
  induction l as [|model l IH]; intros d Hl; simpl.
  - eauto.
  - destruct (latest_version_Ok d model) as (latest & E); [apply Hl; now left|].
    rewrite E. cbn [bind].
    destruct (IH (Py.dict_set d model latest)) as (d' & E' & Hk).
    { intros m Hm. apply Hl. now right. }
    exists d'. split; [exact E'|]. now rewrite Hk, keys_dict_set.
Qed.

(** The dictionary of a listing has the model names of the listing as its
    keys, each once, in the order of their first occurrence. *)
Lemma modelversions_latest_keys :
  exists d, modelversions_latest files = Ok d /\
            Py.keys d = dedup (model_names files).
Proof.
  unfold modelversions_latest. rewrite models_Ok. cbn [bind].
  destruct (for_each_latest_version (unique_models (model_names files)) [])
    as (d & E & Hk).
  - intros model H. unfold unique_models in H. rewrite keys_fromkeys in H.
    now apply dedup_In.
  - exists d. split; [exact E|]. rewrite Hk. unfold unique_models.
    rewrite keys_fromkeys. apply dedup_idempotent.
Qed.

End Listing.

(** The cell runs through only on such a listing. *)
Lemma modelversions_latest_Ok_inv (files : list string) (d : Py.dict string) :
  modelversions_latest files = Ok d -> listing_ok files.
Proof.
  unfold modelversions_latest. intros H.
  apply bind_Ok_inv in H. destruct H as (ms & Em & Hloop).
  intros filename Hin Hc.
  assert (Hr : In filename (r1_files files)).
  { unfold r1_files. apply filter_In. split; [now apply sort_In|exact Hc]. }
  destruct (comprehension_Ok_inv _ _ _ Em filename Hr) as (model & Eg & Hmodel).
  apply getitem_Ok_inv in Eg.
  assert (Hu : In model (unique_models ms)).
  { unfold unique_models. rewrite keys_fromkeys. now apply dedup_In. }
  destruct (for_each_Ok_inv _ _ _ _ Hloop model Hu) as (s1 & s2 & Ebody).
  unfold latest_version in Ebody.
  apply bind_Ok_inv in Ebody. destruct Ebody as (versions & Ev & _).
  assert (Hf : In filename (filter (Py.contains model) (r1_files files))).
  { apply filter_In. split; [exact Hr|].
    apply (split_field_contains "_"). eapply nth_error_In. exact Eg. }
  destruct (comprehension_Ok_inv _ _ _ Ev filename Hf) as (v & Egv & _).
  apply getitem_Ok_inv in Egv.
  assert (7 < length (Py.split "_" filename))
    by (apply nth_error_Some; congruence).
  lia.
Qed.

Lemma listing_okb_spec (files : list string) :
  listing_okb files = true -> listing_ok files.
Proof.
  unfold listing_okb, listing_ok. intros H filename Hin Hc.
  apply (proj1 (forallb_forall _ _) H) in Hin. rewrite Hc in Hin.
  simpl in Hin. now apply Nat.leb_le.
Qed.

(** The model names of a listing, read off the listing itself. *)
Lemma model_names_In (files : list string) (name : string) :
  In name (model_names files) <->
  exists filename,
    In filename files /\ Py.contains "_r1i1" filename = true /\
    nth 2 (Py.split "_" filename) EmptyString = name.
Proof.
  unfold model_names, r1_files. rewrite in_map_iff. split.
  - intros (filename & E & Hin). apply filter_In in Hin. destruct Hin as [Hin Hc].
    exists filename. split; [now apply PyFacts.sort_In|]. split; [exact Hc|exact E].
  - intros (filename & Hin & Hc & E). exists filename. split; [exact E|].
    apply filter_In. split; [now apply PyFacts.sort_In|exact Hc].
Qed.

End ModelFacts.

(** C10.  When every file name that holds [_r1i1] has the eight fields the
    cell reads, the cell succeeds and [model_list] holds exactly the model
    names that occur in both listings, each once, in the order of their
    first occurrence in the sorted historical listing; on other listings the
    cell raises.  A model name occurs in a listing when it is the third field
    of a file name of the listing that holds the text [_r1i1]: the files of
    other runs do not count.  In the example the model of the historical
    listing alone, BCC-ESM1, the model of the scenario listing alone, MIROC6,
    and the model that has only files of the run [r2i1] in both listings,
    GISS-E2-1-G, are left out. *)
Theorem model_list_both_listings :
  (forall files_hist files_ssp245,
     listing_ok files_hist -> listing_ok files_ssp245 ->
     exists names,
       model_list files_hist files_ssp245 = Ok names /\
       (forall name, In name names <->
                     In name (model_names files_hist) /\
                     In name (model_names files_ssp245)) /\
       NoDup names /\
       StronglySorted (before (model_names files_hist)) names /\
       (forall name, In name names <->
          (exists filename,
             In filename files_hist /\
             Py.contains "_r1i1" filename = true /\
             nth 2 (Py.split "_" filename) EmptyString = name) /\
          (exists filename,
             In filename files_ssp245 /\
             Py.contains "_r1i1" filename = true /\
             nth 2 (Py.split "_" filename) EmptyString = name)) /\
       StronglySorted
         (before (map (fun filename => nth 2 (Py.split "_" filename) EmptyString)
                      (filter (Py.contains "_r1i1") (Py.sort files_hist))))
         names) /\
  (forall files_hist files_ssp245 names,
     model_list files_hist files_ssp245 = Ok names ->
     listing_ok files_hist /\ listing_ok files_ssp245) /\
  model_list example_files_hist example_files_ssp245
    = Ok ["CanESM5"%string; "IPSL-CM6A-LR"%string; "MPI-ESM1-2-LR"%string] /\
  In "tas_Amon_GISS-E2-1-G_historical_r2i1p1f1_gn_185001-201412_v20190903.nc"%string
     example_files_hist /\
  In "tas_Amon_GISS-E2-1-G_ssp245_r2i1p1f1_gn_201501-210012_v20190903.nc"%string
     example_files_ssp245.
Proof.
  split; [|split; [|split; [vm_compute; reflexivity|split; vm_compute; tauto]]].
  - intros files_hist files_ssp245 Hh Hs.
    destruct (ModelFacts.modelversions_latest_keys files_hist Hh) as (dh & Eh & Kh).
    destruct (ModelFacts.modelversions_latest_keys files_ssp245 Hs) as (ds & Es & Ks).
    exists (model_list_loop dh ds). unfold model_list. rewrite Eh, Es. cbn [bind].
    split; [reflexivity|].
    rewrite ModelFacts.model_list_loop_filter, Kh.
    assert (Hin : forall name,
              In name (filter (fun key => Py.dict_in key ds)
                              (dedup (model_names files_hist))) <->
              In name (model_names files_hist) /\
              In name (model_names files_ssp245)).
    { intros name. rewrite filter_In, PyFacts.dict_in_keys, Ks, !PyFacts.dedup_In.
      reflexivity. }
    assert (Hsorted : StronglySorted (before (model_names files_hist))
                        (filter (fun key => Py.dict_in key ds)
                                (dedup (model_names files_hist))))
      by apply ModelFacts.StronglySorted_filter, ModelFacts.dedup_before.
    split; [exact Hin|]. split; [apply NoDup_filter, PyFacts.dedup_NoDup|].
    split; [exact Hsorted|]. split; [|exact Hsorted].
    intros name. rewrite Hin, !ModelFacts.model_names_In. reflexivity.
  - intros files_hist files_ssp245 names H. unfold model_list in H.
    apply bind_Ok_inv in H. destruct H as (dh & Eh & H).
    apply bind_Ok_inv in H. destruct H as (ds & Es & _).
    split; eapply ModelFacts.modelversions_latest_Ok_inv; eassumption.
Qed.

Lemma model_list_both_listings_witness :
  (listing_ok example_files_hist /\ listing_ok example_files_ssp245 /\
   exists names,
     model_list example_files_hist example_files_ssp245 = Ok names /\
     (forall name, In name names <->
                   In name (model_names example_files_hist) /\
                   In name (model_names example_files_ssp245)) /\
     NoDup names /\
     StronglySorted (before (model_names example_files_hist)) names /\
     (forall name, In name names <->
        (exists filename,
           In filename example_files_hist /\
           Py.contains "_r1i1" filename = true /\
           nth 2 (Py.split "_" filename) EmptyString = name) /\
        (exists filename,
           In filename example_files_ssp245 /\
           Py.contains "_r1i1" filename = true /\
           nth 2 (Py.split "_" filename) EmptyString = name)) /\
     StronglySorted
       (before (map (fun filename => nth 2 (Py.split "_" filename) EmptyString)
                    (filter (Py.contains "_r1i1") (Py.sort example_files_hist))))
       names) /\
  (model_list example_files_hist example_files_ssp245
     = Ok ["CanESM5"%string; "IPSL-CM6A-LR"%string; "MPI-ESM1-2-LR"%string] /\
   listing_ok example_files_hist /\ listing_ok example_files_ssp245).
Proof.
  assert (Hh : listing_ok example_files_hist)
    by (apply ModelFacts.listing_okb_spec; vm_compute; reflexivity).
  assert (Hs : listing_ok example_files_ssp245)
    by (apply ModelFacts.listing_okb_spec; vm_compute; reflexivity).
  assert (E : model_list example_files_hist example_files_ssp245
              = Ok ["CanESM5"%string; "IPSL-CM6A-LR"%string; "MPI-ESM1-2-LR"%string])
    by (vm_compute; reflexivity).
  split.
  - split; [exact Hh|]. split; [exact Hs|].
    exact (proj1 model_list_both_listings
                 example_files_hist example_files_ssp245 Hh Hs).
  - split; [exact E|].
    exact (proj1 (proj2 model_list_both_listings)
                 example_files_hist example_files_ssp245 _ E).
Defined.

(** ** The concatenated time series *)

Module MergeFacts.

Import PyFacts.





Section Loop.

Variables hist ssp245 : list TimeSeries.
Hypothesis aligned : length hist = length ssp245.
Hypothesis hist_loaded : Forall (fun h => loaded h /\ ts_values h <> []) hist.
Hypothesis ssp245_loaded : Forall loaded ssp245.


End Loop.


End MergeFacts.



(** * Part III: further properties of the two notebooks *)

(** ** The nearest grid cell: when the search returns *)

Module ResolverMore.

Import F64 F64Facts NpFacts ResolverFacts.

Lemma leb_not_ltb_eqb (a b : float) :
  leb a b = true -> ltb a b = false -> eqb a b = true.
Proof. destruct a, b; intros H1 H2; order_crush. Qed.

Lemma eqb_ltb_r (e a m : float) :
  eqb a m = true -> ltb e m = false -> ltb e a = false.
Proof.
  intros Ha Hm. destruct (ltb e a) eqn:E; [|reflexivity].
  rewrite (ltb_leb_trans _ _ _ E (eqb_leb _ _ Ha)) in Hm. discriminate.
Qed.

Section Grid.

Variables lat lon : list float.
Variables latitude longitude : float.

Local Abbreviation dist := (chebyshev lat lon latitude longitude).
Local Abbreviation grid_c := (c lat lon latitude longitude).

Lemma dist_In (i j : nat) :
  i < length lon -> j < length lat -> In (dist i j) (concat grid_c).
Proof.
  intros Hi Hj. rewrite <- cell_c.
  apply cell_In; [now rewrite c_length | now rewrite c_row_length].
Qed.

Lemma In_dist (e : float) :
  In e (concat grid_c) ->
  exists i j, i < length lon /\ j < length lat /\ e = dist i j.
Proof.
  intros H. apply In_cell in H. destruct H as (i & j & Hi & Hj & E).
  rewrite c_length in Hi. rewrite c_row_length in Hj by assumption.
  rewrite cell_c in E. eauto.
Qed.

(** The pairs whose distance equals the minimum are the minimizers. *)
Lemma eqb_min_is_minimizer (m : float) (i j : nat) :
  Np.min grid_c = Ok m ->
  (eqb (dist i j) m = true <-> is_minimizer lat lon latitude longitude i j).
Proof.
  intros Hm. destruct (min_spec _ _ Hm) as (Hin & Hnan & Hle). split.
  - intros He.
    assert (Hi : i < length lon).
    { destruct (Nat.lt_ge_cases i (length lon)) as [?|Hge]; [assumption|].
      rewrite chebyshev_out_of_range in He by auto. discriminate. }
    assert (Hj : j < length lat).
    { destruct (Nat.lt_ge_cases j (length lat)) as [?|Hge]; [assumption|].
      rewrite chebyshev_out_of_range in He by auto. discriminate. }
    repeat split; try assumption; [exact (eqb_not_nan_l _ _ He)|].
    intros i' j' Hi' Hj'. apply (eqb_ltb_r _ _ m He).
    apply (min_lower_bound _ _ _ Hm). now apply dist_In.
  - intros (Hi & Hj & Hn & Hlow).
    pose proof (dist_In i j Hi Hj) as Hd.
    assert (Hmn : isnan m = false).
    { destruct (isnan m) eqn:E; [|reflexivity].
      rewrite (Hnan eq_refl _ Hd) in Hn. discriminate. }
    assert (Hmle : leb m (dist i j) = true).
    { destruct (Hle Hmn _ Hd) as [E|E]; [congruence|exact E]. }
    destruct (In_dist m Hin) as (i0 & j0 & Hi0 & Hj0 & Em).
    rewrite eqb_sym. apply leb_not_ltb_eqb; [exact Hmle|].
    rewrite Em. now apply Hlow.
Qed.

Lemma minimizer_min_Ok (i j : nat) :
  is_minimizer lat lon latitude longitude i j -> exists m, Np.min grid_c = Ok m.
Proof.
  intros (Hi & Hj & _). apply min_Ok. intros E.
  pose proof (dist_In i j Hi Hj) as Hd. rewrite E in Hd. destruct Hd.
Qed.

Lemma nearest_grid_cell_iff (x y : nat) :
  nearest_grid_cell lat lon latitude longitude = Ok (x, y) <->
  is_minimizer lat lon latitude longitude x y /\
  forall i j, is_minimizer lat lon latitude longitude i j -> (i, j) = (x, y).
Proof.
  rewrite nearest_grid_cell_Ok. split.
  - intros (m & Hm & Hu). split.
    + apply (eqb_min_is_minimizer m _ _ Hm). now apply Hu.
    + intros i j Hij. apply Hu. now apply (eqb_min_is_minimizer m _ _ Hm).
  - intros (Hxy & Huniq). destruct (minimizer_min_Ok x y Hxy) as (m & Hm).
    exists m. split; [exact Hm|]. intros i j.
    rewrite (eqb_min_is_minimizer m i j Hm). split; [apply Huniq|].
    intros E. injection E as -> ->. exact Hxy.
Qed.

Lemma nearest_grid_cell_Raise (e : exn) :
  nearest_grid_cell lat lon latitude longitude = Raise e -> e = ValueError.
Proof.
  unfold nearest_grid_cell, Np.min. cbv zeta.
  destruct (concat grid_c); cbn [bind]; [congruence|].
  unfold unpack_singletons.
  destruct (Np.where_ _) as [[|? [|? ?]] [|? [|? ?]]]; congruence.
Qed.

End Grid.

Lemma chebyshev_nan_latitude (lat lon : list float) (longitude : float) (i j : nat) :
  chebyshev lat lon nan longitude i j = nan.
Proof.
  unfold chebyshev, Np.maximum1.
  replace (sub (nth j lat nan) nan) with nan by now destruct (nth j lat nan).
  change (isnan (abs nan)) with true. now rewrite orb_true_r.
Qed.

Lemma chebyshev_nan_longitude (lat lon : list float) (latitude : float) (i j : nat) :
  chebyshev lat lon latitude nan i j = nan.
Proof.
  unfold chebyshev, Np.maximum1.
  replace (sub (nth i lon nan) nan) with nan by now destruct (nth i lon nan).
  now destruct (abs (sub (nth j lat nan) latitude)).
Qed.

End ResolverMore.

(** X1.  The search for the grid cell returns the pair [(xloc, yloc)] exactly
    when this pair is a minimizer of the distance and the only one; in every
    other case, among them a point with a NaN coordinate, it raises
    [ValueError]. *)
Theorem nearest_grid_cell_unique_minimizer :
  forall lat lon latitude longitude,
    (forall x y,
       nearest_grid_cell lat lon latitude longitude = Ok (x, y) <->
       is_minimizer lat lon latitude longitude x y /\
       forall i j, is_minimizer lat lon latitude longitude i j -> (i, j) = (x, y)) /\
    (forall e, nearest_grid_cell lat lon latitude longitude = Raise e ->
               e = ValueError) /\
    nearest_grid_cell lat lon F64.nan longitude = Raise ValueError /\
    nearest_grid_cell lat lon latitude F64.nan = Raise ValueError.
Proof.
  intros lat lon latitude longitude.
  split; [intros x y; apply ResolverMore.nearest_grid_cell_iff|].
  split; [apply ResolverMore.nearest_grid_cell_Raise|].
  split.
  - destruct (nearest_grid_cell lat lon F64.nan longitude) as [[x y]|e] eqn:E.
    + apply ResolverMore.nearest_grid_cell_iff in E.
      destruct E as ((_ & _ & Hn & _) & _).
      rewrite ResolverMore.chebyshev_nan_latitude in Hn. discriminate.
    + f_equal. eapply ResolverMore.nearest_grid_cell_Raise. exact E.
  - destruct (nearest_grid_cell lat lon latitude F64.nan) as [[x y]|e] eqn:E.
    + apply ResolverMore.nearest_grid_cell_iff in E.
      destruct E as ((_ & _ & Hn & _) & _).
      rewrite ResolverMore.chebyshev_nan_longitude in Hn. discriminate.
    + f_equal. eapply ResolverMore.nearest_grid_cell_Raise. exact E.
Qed.

Lemma nearest_grid_cell_unique_minimizer_witness :
  nearest_grid_cell grid_lat grid_lon query_lat query_lon = Ok (1, 1) /\
  is_minimizer grid_lat grid_lon query_lat query_lon 1 1 /\
  (forall i j, is_minimizer grid_lat grid_lon query_lat query_lon i j ->
               (i, j) = (1, 1)) /\
  (forall e, nearest_grid_cell tie_lat tie_lon (F64.of_Z 53) (F64.of_Z 10) = Raise e ->
             e = ValueError).
Proof.
  assert (E : nearest_grid_cell grid_lat grid_lon query_lat query_lon = Ok (1, 1))
    by (vm_compute; reflexivity).
  split; [exact E|].
  pose proof (proj1 (proj1 (nearest_grid_cell_unique_minimizer
                              grid_lat grid_lon query_lat query_lon) 1 1) E) as H.
  split; [exact (proj1 H)|]. split; [exact (proj2 H)|].
  exact (proj1 (proj2 (nearest_grid_cell_unique_minimizer
                         tie_lat tie_lon (F64.of_Z 53) (F64.of_Z 10)))).
Defined.

(** ** The count of summer days: threshold, length and concatenation *)

Module CountMore.

Import F64 F64Facts.

Lemma length_filter_le {A : Type} (p : A -> bool) (l : list A) :
  length (filter p l) <= length l.
Proof.
  induction l as [|v l IH]; simpl; [lia|]. destruct (p v); simpl; lia.
Qed.

Lemma length_filter_impl {A : Type} (p q : A -> bool) (l : list A) :
  (forall v, p v = true -> q v = true) ->
  length (filter p l) <= length (filter q l).
Proof.
  intros H. induction l as [|v l IH]; simpl; [lia|].
  destruct (p v) eqn:E.
  - rewrite (H v E). simpl. lia.
  - destruct (q v); simpl; lia.
Qed.

Lemma summer_days_le_length (threshold : float) (x : list float) :
  summer_days threshold x <= length x.
Proof. rewrite CountFacts.summer_days_filter. apply length_filter_le. Qed.

Lemma summer_days_app (threshold : float) (x y : list float) :
  summer_days threshold (x ++ y) = summer_days threshold x + summer_days threshold y.
Proof.
  rewrite !CountFacts.summer_days_filter, filter_app. apply length_app.
Qed.

Lemma summer_days_antitone (t1 t2 : float) (x : list float) :
  leb t1 t2 = true -> summer_days t2 x <= summer_days t1 x.
Proof.
  intros H. rewrite !CountFacts.summer_days_filter.
  apply length_filter_impl. intros v Hv. now apply (leb_ltb_trans t1 t2 v).
Qed.

End CountMore.

(** X2.  A higher threshold never counts more days: for thresholds
    [t1 <= t2] the count above [t2] is at most the count above [t1].  The
    count is at most the length of the series, and the count of two series
    put one after the other is the sum of their counts. *)
Theorem summer_days_threshold_antitone :
  forall t1 t2 x y,
    F64.leb t1 t2 = true ->
    summer_days t2 x <= summer_days t1 x /\
    summer_days t1 x <= length x /\
    summer_days t1 (x ++ y) = summer_days t1 x + summer_days t1 y.
Proof.
  intros t1 t2 x y H. split; [|split].
  - now apply CountMore.summer_days_antitone.
  - apply CountMore.summer_days_le_length.
  - apply CountMore.summer_days_app.
Qed.

Lemma summer_days_threshold_antitone_witness :
  F64.leb (F64.of_Z 25) (F64.of_Z 30) = true /\
  summer_days (F64.of_Z 30) year_of_values <= summer_days (F64.of_Z 25) year_of_values /\
  summer_days (F64.of_Z 25) year_of_values <= length year_of_values /\
  summer_days (F64.of_Z 25) (year_of_values ++ [F64.of_Z 26]) =
  summer_days (F64.of_Z 25) year_of_values + summer_days (F64.of_Z 25) [F64.of_Z 26].
Proof.
  assert (H : F64.leb (F64.of_Z 25) (F64.of_Z 30) = true) by (vm_compute; reflexivity).
  split; [exact H|].
  exact (summer_days_threshold_antitone (F64.of_Z 25) (F64.of_Z 30)
           year_of_values [F64.of_Z 26] H).
Defined.

(** ** The notebook from the slice to the count: where it can fail *)

(** X3.  On a series with a consistent shape and an increasing time index,
    for a year of the year box, the notebook fails exactly where the search
    for the grid cell fails, and then with its [ValueError]: the slice and
    the indexing at the cell found never raise.  When the search returns,
    the notebook returns a count that is at most the number of samples of
    the slice of the year. *)
Theorem notebook_fails_only_in_search :
  forall da year latitude longitude,
    well_formed da -> year_box_value year ->
    (forall e,
       nearest_grid_cell (lat da) (lon da) latitude longitude = Raise e ->
       notebook da year latitude longitude = Raise ValueError) /\
    (forall xloc yloc,
       nearest_grid_cell (lat da) (lon da) latitude longitude = Ok (xloc, yloc) ->
       exists n year_xr,
         notebook da year latitude longitude = Ok n /\
         tasmax_year_xr da year = Ok year_xr /\
         n <= length (time year_xr) /\
         length (time year_xr) <= length (time da)).
Proof.
  intros da year latitude longitude Hwf Hy.
  destruct (YearFacts.tasmax_year_xr_filter da year Hwf Hy)
    as (da' & E & Hlat & Hlon & Hs).
  split.
  - intros e He. unfold notebook. rewrite E. cbn [bind].
    rewrite Hlat, Hlon, He. cbn [bind].
    f_equal. eapply ResolverMore.nearest_grid_cell_Raise. exact He.
  - intros xloc yloc Hloc.
    rewrite (CountFacts.notebook_counts da year latitude longitude xloc yloc Hwf Hy Hloc).
    eexists. exists da'. split; [reflexivity|]. split; [exact E|].
    assert (Hlen : length (time da') = length (values da')).
    { unfold tasmax_year_xr, loc_time in E.
      apply bind_Ok_inv in E. destruct E as (t0 & _ & E).
      apply bind_Ok_inv in E. destruct E as (t1 & _ & E).
      apply bind_Ok_inv in E. destruct E as ([i0 i1] & _ & E).
      injection E as <-. cbn [time values].
      apply CountFacts.slice_length_eq. symmetry. apply Hwf. }
    assert (Hsl : length (samples da') = length (time da')).
    { unfold samples. rewrite length_combine. lia. }
    assert (Hsd : length (samples da) = length (time da)).
    { unfold samples. rewrite length_combine.
      destruct Hwf as (Hw & _). lia. }
    split.
    + rewrite <- Hsl, Hs, <- CountFacts.filter_filter.
      apply CountMore.length_filter_le.
    + rewrite <- Hsl, Hs, <- Hsd. apply CountMore.length_filter_le.
Qed.

Lemma notebook_fails_only_in_search_witness :
  (well_formed tie_series /\ year_box_value 2015 /\
   nearest_grid_cell (lat tie_series) (lon tie_series) (F64.of_Z 53) (F64.of_Z 10)
     = Raise ValueError /\
   notebook tie_series 2015 (F64.of_Z 53) (F64.of_Z 10) = Raise ValueError) /\
  (well_formed series_2014_2016 /\
   nearest_grid_cell (lat series_2014_2016) (lon series_2014_2016)
                     query_lat query_lon = Ok (0, 0) /\
   exists n year_xr,
     notebook series_2014_2016 2015 query_lat query_lon = Ok n /\
     tasmax_year_xr series_2014_2016 2015 = Ok year_xr /\
     n <= length (time year_xr) /\
     length (time year_xr) <= length (time series_2014_2016)).
Proof.
  assert (Hy : year_box_value 2015)
    by (apply SliceFacts.year_box_value_iff; lia).
  split.
  - assert (Hwf : well_formed tie_series)
      by (apply CheckFacts.well_formedb_spec; vm_compute; reflexivity).
    assert (He : nearest_grid_cell (lat tie_series) (lon tie_series)
                   (F64.of_Z 53) (F64.of_Z 10) = Raise ValueError)
      by (vm_compute; reflexivity).
    split; [exact Hwf|]. split; [exact Hy|]. split; [exact He|].
    exact (proj1 (notebook_fails_only_in_search tie_series 2015%Z
                    (F64.of_Z 53) (F64.of_Z 10) Hwf Hy) ValueError He).
  - assert (Hwf : well_formed series_2014_2016)
      by (apply CheckFacts.well_formedb_spec; vm_compute; reflexivity).
    assert (Hloc : nearest_grid_cell (lat series_2014_2016) (lon series_2014_2016)
                     query_lat query_lon = Ok (0, 0))
      by (vm_compute; reflexivity).
    split; [exact Hwf|]. split; [exact Hloc|].
    exact (proj2 (notebook_fails_only_in_search series_2014_2016 2015%Z
                    query_lat query_lon Hwf Hy) 0 0 Hloc).
Defined.

(** ** The rectangle of the grid cell *)

Module RectFacts.

Lemma getitem_int_in {A : Type} (a : list A) (i : nat) (d : A) :
  i < length a -> PyIndex.getitem_int a (Z.of_nat i) = Ok (nth i a d).
Proof.
  intros H. unfold PyIndex.getitem_int.
  replace (0 <=? Z.of_nat i)%Z with true by (symmetry; apply Z.leb_le; lia).
  rewrite Nat2Z.id. now apply PyFacts.getitem_Ok.
Qed.

Lemma getitem_int_end {A : Type} (a : list A) :
  PyIndex.getitem_int a (Z.of_nat (length a)) = Raise IndexError.
Proof.
  unfold PyIndex.getitem_int.
  replace (0 <=? Z.of_nat (length a))%Z with true by (symmetry; apply Z.leb_le; lia).
  rewrite Nat2Z.id. unfold Py.getitem.
  now rewrite (proj2 (nth_error_None a (length a)) (Nat.le_refl _)).
Qed.

Lemma nth_last {A : Type} (a : list A) (d : A) :
  nth (length a - 1) a d = last a d.
Proof.
  induction a as [|x a IH]; [reflexivity|].
  destruct a as [|y a]; [reflexivity|].
  cbn [length Nat.sub] in *. rewrite Nat.sub_0_r in *.
  change (nth (S (length a)) (x :: y :: a) d) with (nth (length a) (y :: a) d).
  rewrite IH. reflexivity.
Qed.

Lemma getitem_int_minus_one {A : Type} (a : list A) (d : A) :
  a <> [] -> PyIndex.getitem_int a (-1) = Ok (last a d).
Proof.
  intros H. unfold PyIndex.getitem_int.
  assert (Hn : 0 < length a) by (destruct a; [congruence|simpl; lia]).
  change (0 <=? -1)%Z with false. cbv iota.
  replace (- Z.of_nat (length a) <=? -1)%Z with true
    by (symmetry; apply Z.leb_le; lia).
  replace (Z.to_nat (-1 + Z.of_nat (length a))) with (length a - 1) by lia.
  rewrite (PyFacts.getitem_Ok a (length a - 1) d) by lia.
  now rewrite nth_last.
Qed.

Lemma getitem_int_previous (a : list float) (i : nat) :
  i < length a ->
  PyIndex.getitem_int a (Z.of_nat i - 1) = Ok (previous a i).
Proof.
  intros H. destruct i as [|i].
  - apply getitem_int_minus_one. destruct a; [simpl in H; lia|discriminate].
  - replace (Z.of_nat (S i) - 1)%Z with (Z.of_nat i) by lia.
    apply getitem_int_in. lia.
Qed.

Lemma getitem_int_next (a : list float) (i : nat) :
  i < length a ->
  PyIndex.getitem_int a (Z.of_nat i + 1) =
  if S i =? length a then Raise IndexError else Ok (nth (S i) a F64.nan).
Proof.
  intros H. replace (Z.of_nat i + 1)%Z with (Z.of_nat (S i)) by lia.
  destruct (Nat.eqb_spec (S i) (length a)) as [E|E].
  - rewrite E. apply getitem_int_end.
  - apply getitem_int_in. lia.
Qed.

Lemma rect_model_cases (lat lon : list float) (xloc yloc : nat) :
  xloc < length lon -> yloc < length lat ->
  rect_model lat lon xloc yloc =
  if (S yloc =? length lat) || (S xloc =? length lon) then Raise IndexError
  else Ok ((midpoint (previous lat yloc) (nth yloc lat F64.nan),
            midpoint (previous lon xloc) (nth xloc lon F64.nan)),
           (midpoint (nth (S yloc) lat F64.nan) (nth yloc lat F64.nan),
            midpoint (nth (S xloc) lon F64.nan) (nth xloc lon F64.nan))).
Proof.
  intros Hx Hy. unfold rect_model.
  rewrite (getitem_int_previous lat yloc Hy). cbn [bind].
  rewrite (getitem_int_in lat yloc F64.nan Hy). cbn [bind].
  rewrite (getitem_int_previous lon xloc Hx). cbn [bind].
  rewrite (getitem_int_in lon xloc F64.nan Hx). cbn [bind].
  rewrite (getitem_int_next lat yloc Hy).
  destruct (S yloc =? length lat); cbn [bind orb]; [reflexivity|].
  rewrite (getitem_int_next lon xloc Hx).
  destruct (S xloc =? length lon); cbn [bind]; reflexivity.
Qed.

End RectFacts.

(** X4.  For the grid cell that the search returns, the computation of the
    rectangle raises [IndexError] exactly when the cell lies at the last
    latitude or at the last longitude of the grid.  Otherwise the bounds are
    the midpoints between the cell and its neighbours, where at the first
    latitude or longitude the neighbour before the cell is the last element
    of the axis. *)
Theorem rect_model_edges :
  forall lat lon latitude longitude xloc yloc,
    nearest_grid_cell lat lon latitude longitude = Ok (xloc, yloc) ->
    (rect_model lat lon xloc yloc = Raise IndexError <->
     S yloc = length lat \/ S xloc = length lon) /\
    (S yloc < length lat -> S xloc < length lon ->
     rect_model lat lon xloc yloc =
     Ok ((midpoint (previous lat yloc) (nth yloc lat F64.nan),
          midpoint (previous lon xloc) (nth xloc lon F64.nan)),
         (midpoint (nth (S yloc) lat F64.nan) (nth yloc lat F64.nan),
          midpoint (nth (S xloc) lon F64.nan) (nth xloc lon F64.nan)))) /\
    previous lat 0 = last lat F64.nan /\ previous lon 0 = last lon F64.nan.
Proof.
  intros lat lon latitude longitude xloc yloc Hloc.
  destruct (nearest_grid_cell_sound _ _ _ _ _ _ Hloc) as (Hx & Hy & _).
  rewrite (RectFacts.rect_model_cases lat lon xloc yloc Hx Hy).
  split; [|split; [|split; reflexivity]].
  - destruct (Nat.eqb_spec (S yloc) (length lat)) as [E1|E1];
      destruct (Nat.eqb_spec (S xloc) (length lon)) as [E2|E2]; cbn [orb];
      split; auto; try discriminate.
    intros [?|?]; contradiction.
  - intros H1 H2.
    destruct (Nat.eqb_spec (S yloc) (length lat)) as [E1|E1]; [lia|].
    destruct (Nat.eqb_spec (S xloc) (length lon)) as [E2|E2]; [lia|].
    reflexivity.
Qed.

Lemma rect_model_edges_witness :
  (nearest_grid_cell grid_lat grid_lon (F64.of_Z 55) (F64.dec 105 1) = Ok (2, 2) /\
   (rect_model grid_lat grid_lon 2 2 = Raise IndexError <->
    3 = length grid_lat \/ 3 = length grid_lon)) /\
  (nearest_grid_cell grid_lat grid_lon query_lat query_lon = Ok (1, 1) /\
   2 < length grid_lat /\ 2 < length grid_lon /\
   rect_model grid_lat grid_lon 1 1 =
   Ok ((midpoint (previous grid_lat 1) (nth 1 grid_lat F64.nan),
        midpoint (previous grid_lon 1) (nth 1 grid_lon F64.nan)),
       (midpoint (nth 2 grid_lat F64.nan) (nth 1 grid_lat F64.nan),
        midpoint (nth 2 grid_lon F64.nan) (nth 1 grid_lon F64.nan)))).
Proof.
  split.
  - assert (E : nearest_grid_cell grid_lat grid_lon (F64.of_Z 55) (F64.dec 105 1)
                = Ok (2, 2)) by (vm_compute; reflexivity).
    split; [exact E|].
    exact (proj1 (rect_model_edges grid_lat grid_lon (F64.of_Z 55) (F64.dec 105 1)
                    2 2 E)).
  - assert (E : nearest_grid_cell grid_lat grid_lon query_lat query_lon = Ok (1, 1))
      by (vm_compute; reflexivity).
    assert (H1 : 2 < length grid_lat) by (simpl; lia).
    assert (H2 : 2 < length grid_lon) by (simpl; lia).
    split; [exact E|]. split; [exact H1|]. split; [exact H2|].
    exact (proj1 (proj2 (rect_model_edges grid_lat grid_lon query_lat query_lon
                           1 1 E)) H1 H2).
Defined.

(** ** The file that holds the year *)

Module CatalogFacts.

Local Open Scope Z_scope.

Lemma comprehension_length {A B : Type} (f : A -> result B) (a : list A) :
  forall ys, Py.comprehension f a = Ok ys -> length ys = length a.
Proof.
  induction a as [|x a IH]; intros ys H; simpl in H.
  - now injection H as <-.
  - apply bind_Ok_inv in H. destruct H as (y & _ & H).
    apply bind_Ok_inv in H. destruct H as (ys' & E & H). injection H as <-.
    simpl. f_equal. now apply IH.
Qed.

Lemma combine_maps {A B C : Type} (f : A -> B) (g : A -> C) (l : list A) :
  combine (combine l (map f l)) (map g l) = map (fun x => ((x, f x), g x)) l.
Proof. induction l as [|x l IH]; simpl; [reflexivity|]. now rewrite IH. Qed.

Lemma map_path_rows (df : list CatalogRow) (starts ends : list Z) :
  length starts = length df -> length ends = length df ->
  map q_path (map (fun r => mkQueryRow (path (fst (fst r))) (snd (fst r)) (snd r))
                  (combine (combine df starts) ends))
  = map path df.
Proof.
  revert starts ends.
  induction df as [|row df IH]; intros [|s starts] [|e ends] H1 H2;
    try discriminate; [reflexivity|].
  simpl. f_equal. apply IH; simpl in *; lia.
Qed.

(** The table of the query has the paths of the catalogue, row by row. *)
Lemma query_result_df_paths (df : list CatalogRow) (rows : list QueryRow) :
  query_result_df df = Ok rows -> map q_path rows = map path df.
Proof.
  unfold query_result_df. intros H.
  apply bind_Ok_inv in H. destruct H as (starts & Es & H).
  apply bind_Ok_inv in H. destruct H as (ends & Ee & H). injection H as <-.
  apply map_path_rows; eapply comprehension_length; eassumption.
Qed.

(** The first element of a filtered list. *)
Lemma getitem_filter_first {A B : Type} (f : A -> B) (p : A -> bool) (l : list A) (v : B) :
  Py.getitem (map f (filter p l)) 0 = Ok v ->
  exists pre r post,
    l = pre ++ r :: post /\ p r = true /\ f r = v /\
    forall r', In r' pre -> p r' = false.
Proof.
  induction l as [|x l IH]; simpl; [discriminate|].
  destruct (p x) eqn:E.
  - simpl. unfold Py.getitem. simpl. intros H. injection H as <-.
    exists [], x, l. repeat split; auto. intros r' [].
  - intros H. destruct (IH H) as (pre & r & post & -> & Hp & Hf & Hpre).
    exists (x :: pre), r, post. repeat split; auto.
    intros r' [<-|Hin]; auto.
Qed.

Lemma getitem_filter_none {A B : Type} (f : A -> B) (p : A -> bool) (l : list A) :
  (forall r, In r l -> p r = false) ->
  Py.getitem (map f (filter p l)) 0 = Raise IndexError.
Proof.
  intros H. rewrite CountFacts.filter_none; [reflexivity|].
  now apply Forall_forall.
Qed.

Lemma holds_year_spec (year : Z) (row : QueryRow) :
  holds_year year row = true <-> start_year row <= year <= end_year row.
Proof. unfold holds_year. rewrite andb_true_iff, !Z.leb_le. tauto. Qed.

Lemma substring_prefix (a b : string) :
  substring 0 (String.length a) (a ++ b) = a.
Proof.
  induction a as [|ch a IH]; simpl.
  - now destruct b.
  - now rewrite IH.
Qed.

Lemma substring_skip (a b : string) (m : nat) :
  substring (String.length a) m (a ++ b) = substring 0 m b.
Proof. induction a as [|ch a IH]; simpl; [reflexivity|exact IH]. Qed.

Lemma four_digit_ok_all : forallb four_digit_ok (range 1000 10000) = true.
Proof. vm_compute. reflexivity. Qed.

Lemma four_digit (y : Z) :
  1000 <= y <= 9999 ->
  String.length (str y) = 4%nat /\ PyInt.int (str y) = Ok y.
Proof.
  intros H.
  assert (Hb : four_digit_ok y = true).
  { apply (proj1 (forallb_forall _ _) four_digit_ok_all).
    apply SliceFacts.In_range. lia. }
  unfold four_digit_ok in Hb. apply andb_true_iff in Hb. destruct Hb as [H1 H2].
  split; [now apply Nat.eqb_eq|].
  destruct (PyInt.int (str y)) as [v|]; [|discriminate].
  apply Z.eqb_eq in H2. now subst.
Qed.

(** The two year columns give back the years of a time range. *)
Lemma years_of_daily_time_range (y1 y2 : Z) :
  1000 <= y1 <= 9999 -> 1000 <= y2 <= 9999 ->
  PyInt.int (substring 0 4 (daily_time_range y1 y2)) = Ok y1 /\
  PyInt.int (substring 9 4 (daily_time_range y1 y2)) = Ok y2.
Proof.
  intros H1 H2.
  destruct (four_digit y1 H1) as (L1 & I1).
  destruct (four_digit y2 H2) as (L2 & I2).
  unfold daily_time_range. split.
  - rewrite <- L1 at 1. now rewrite substring_prefix.
  - change 9%nat with (4 + 5)%nat. rewrite <- L1 at 1.
    assert (E : forall a b m, substring (String.length a + 5) m (a ++ b)%string
                              = substring 5 m b).
    { intros a b m. induction a as [|ch a IH]; simpl; [reflexivity|exact IH]. }
    rewrite E. cbn [append substring].
    rewrite <- L2 at 1. now rewrite substring_prefix.
Qed.

End CatalogFacts.

Lemma padded_catalog_ok_all : forallb padded_catalog_ok (seq 0 256) = true.
Proof. vm_compute. reflexivity. Qed.

(** X5.  The path selected is the path of the first row of the catalogue
    whose years, start to end, hold the selected year; when the year columns
    can be read and no row holds the year, the cell raises [IndexError].
    The year columns are read by [int], which takes white space (the
    characters 9 to 13, 32, 133 and 160), a sign or a digit before the
    digits of a year and rejects every other character there, the
    separators 28 to 31 among them, with [ValueError]. *)
Theorem selected_path_first_match :
  (forall df year,
     (forall p,
        selected_path df year = Ok p ->
        exists rows pre r post,
          query_result_df df = Ok rows /\ map q_path rows = map path df /\
          rows = pre ++ r :: post /\ q_path r = p /\
          (start_year r <= year <= end_year r)%Z /\
          forall r', In r' pre -> ~ (start_year r' <= year <= end_year r')%Z) /\
     (forall rows,
        query_result_df df = Ok rows ->
        (forall r, In r rows -> ~ (start_year r <= year <= end_year r)%Z) ->
        selected_path df year = Raise IndexError)) /\
  (forall n, n < 256 ->
     (selected_path (padded_catalog n) 2015 = Raise ValueError <->
      ~ In n before_digits)).
Proof.
  split.
  - intros df year. split.
    + intros p H. unfold selected_path in H.
      apply bind_Ok_inv in H. destruct H as (rows & Er & H).
      unfold selected_file in H.
      destruct (CatalogFacts.getitem_filter_first _ _ _ _ H)
        as (pre & r & post & E & Hp & Hf & Hpre).
      exists rows, pre, r, post. split; [exact Er|].
      split; [now apply CatalogFacts.query_result_df_paths|].
      split; [exact E|]. split; [exact Hf|].
      split; [now apply CatalogFacts.holds_year_spec|].
      intros r' Hin Hc. apply CatalogFacts.holds_year_spec in Hc.
      rewrite (Hpre r' Hin) in Hc. discriminate.
    + intros rows Er Hno. unfold selected_path. rewrite Er. cbn [bind].
      apply CatalogFacts.getitem_filter_none. intros r Hin.
      destruct (holds_year year r) eqn:E; [|reflexivity].
      apply CatalogFacts.holds_year_spec in E. now apply Hno in E.
  - intros n Hn.
    assert (Hok : padded_catalog_ok n = true).
    { apply (proj1 (forallb_forall _ _) padded_catalog_ok_all).
      apply in_seq. lia. }
    unfold padded_catalog_ok in Hok.
    assert (Hin : In n before_digits <-> existsb (Nat.eqb n) before_digits = true).
    { rewrite existsb_exists. split.
      - intros H. exists n. split; [exact H|apply Nat.eqb_refl].
      - intros (m & H & E). apply Nat.eqb_eq in E. now subst m. }
    rewrite Hin.
    destruct (selected_path (padded_catalog n) 2015) as [p|[| |]];
      destruct (existsb (Nat.eqb n) before_digits);
      try discriminate Hok; split; congruence.
Qed.

Lemma selected_path_first_match_witness :
  (selected_path example_catalog 2040 = Ok "/pool/tasmax_day_2035.nc"%string /\
   exists rows pre r post,
     query_result_df example_catalog = Ok rows /\
     map q_path rows = map path example_catalog /\
     rows = pre ++ r :: post /\ q_path r = "/pool/tasmax_day_2035.nc"%string /\
     (start_year r <= 2040 <= end_year r)%Z /\
     forall r', In r' pre -> ~ (start_year r' <= 2040 <= end_year r')%Z) /\
  (query_result_df example_catalog =
     Ok [mkQueryRow "/pool/tasmax_day_2015.nc" 2015 2034;
         mkQueryRow "/pool/tasmax_day_2035.nc" 2035 2054;
         mkQueryRow "/pool/tasmax_day_2055.nc" 2055 2074] /\
   selected_path example_catalog 2014 = Raise IndexError) /\
  (28 < 256 /\
   (selected_path (padded_catalog 28) 2015 = Raise ValueError <->
    ~ In 28 before_digits)).
Proof.
  split; [|split].
  - assert (E : selected_path example_catalog 2040
                = Ok "/pool/tasmax_day_2035.nc"%string) by (vm_compute; reflexivity).
    split; [exact E|].
    exact (proj1 (proj1 selected_path_first_match example_catalog 2040%Z) _ E).
  - assert (E : query_result_df example_catalog =
                Ok [mkQueryRow "/pool/tasmax_day_2015.nc" 2015 2034;
                    mkQueryRow "/pool/tasmax_day_2035.nc" 2035 2054;
                    mkQueryRow "/pool/tasmax_day_2055.nc" 2055 2074])
      by (vm_compute; reflexivity).
    split; [exact E|].
    apply (proj2 (proj1 selected_path_first_match example_catalog 2014%Z) _ E).
    intros r Hin. simpl in Hin.
    repeat (destruct Hin as [<-|Hin]; [simpl; lia|]). destruct Hin.
  - assert (H : 28 < 256) by lia.
    split; [exact H|].
    exact (proj2 selected_path_first_match 28 H).
Defined.

(** X6.  For a catalogue whose time ranges are written as
    [YYYY0101-YYYY1231] with years of four digits, the two year columns hold
    the first and the last year of every file, and the rows keep the order
    and the paths of the catalogue. *)
Theorem query_result_df_years :
  forall files : list (string * (Z * Z)),
    (forall f, In f files ->
       (1000 <= fst (snd f) <= 9999)%Z /\ (1000 <= snd (snd f) <= 9999)%Z) ->
    query_result_df
      (map (fun f => mkCatalogRow (fst f)
                       (daily_time_range (fst (snd f)) (snd (snd f)))) files)
    = Ok (map (fun f => mkQueryRow (fst f) (fst (snd f)) (snd (snd f))) files).
Proof.
  intros files H. unfold query_result_df.
  rewrite (PyFacts.comprehension_Ok _
             (fun row : CatalogRow =>
                match PyInt.int (substring 0 4 (time_range row)) with
                | Ok v => v | Raise _ => 0%Z end)).
  2:{ intros row Hin. apply in_map_iff in Hin. destruct Hin as (f & <- & Hf).
      cbn [time_range]. destruct (H f Hf) as [H1 H2].
      now rewrite (proj1 (CatalogFacts.years_of_daily_time_range _ _ H1 H2)). }
  cbn [bind].
  rewrite (PyFacts.comprehension_Ok _
             (fun row : CatalogRow =>
                match PyInt.int (substring 9 4 (time_range row)) with
                | Ok v => v | Raise _ => 0%Z end)).
  2:{ intros row Hin. apply in_map_iff in Hin. destruct Hin as (f & <- & Hf).
      cbn [time_range]. destruct (H f Hf) as [H1 H2].
      now rewrite (proj2 (CatalogFacts.years_of_daily_time_range _ _ H1 H2)). }
  cbn [bind]. f_equal.
  rewrite CatalogFacts.combine_maps, !map_map. apply map_ext_in.
  intros f Hf. cbn [fst snd path time_range]. destruct (H f Hf) as [H1 H2].
  destruct (CatalogFacts.years_of_daily_time_range _ _ H1 H2) as [E1 E2].
  now rewrite E1, E2.
Qed.

Lemma query_result_df_years_witness :
  (forall f, In f [("a.nc"%string, (1850%Z, 1869%Z)); ("b.nc"%string, (1870%Z, 1889%Z))] ->
     (1000 <= fst (snd f) <= 9999)%Z /\ (1000 <= snd (snd f) <= 9999)%Z) /\
  query_result_df
    (map (fun f => mkCatalogRow (fst f)
                     (daily_time_range (fst (snd f)) (snd (snd f))))
         [("a.nc"%string, (1850%Z, 1869%Z)); ("b.nc"%string, (1870%Z, 1889%Z))])
  = Ok (map (fun f => mkQueryRow (fst f) (fst (snd f)) (snd (snd f)))
            [("a.nc"%string, (1850%Z, 1869%Z)); ("b.nc"%string, (1870%Z, 1889%Z))]).
Proof.
  assert (H : forall f,
    In f [("a.nc"%string, (1850%Z, 1869%Z)); ("b.nc"%string, (1870%Z, 1889%Z))] ->
    (1000 <= fst (snd f) <= 9999)%Z /\ (1000 <= snd (snd f) <= 9999)%Z).
  { intros f Hin. simpl in Hin.
    repeat (destruct Hin as [<-|Hin]; [simpl; lia|]). destruct Hin. }
  split; [exact H|].
  exact (query_result_df_years _ H).
Defined.

(** ** The dictionary of the latest versions *)

Module VersionFacts.

Import PyFacts.

Lemma ascii_compare_refl (a : ascii) : Ascii.compare a a = Eq.
Proof. unfold Ascii.compare. apply N.compare_refl. Qed.

Lemma string_leb_refl (s : string) : String.leb s s = true.
Proof. destruct (String.leb_total s s); assumption. Qed.

Lemma string_leb_trans (a : string) : forall b c,
  String.leb a b = true -> String.leb b c = true -> String.leb a c = true.
Proof.
  unfold String.leb.
  induction a as [|x a IH]; intros [|y b] [|z c]; simpl; try reflexivity;
    try discriminate.
  unfold Ascii.compare.
  destruct (N.compare_spec (N_of_ascii x) (N_of_ascii y)) as [Exy|Lxy|Gxy];
    destruct (N.compare_spec (N_of_ascii y) (N_of_ascii z)) as [Eyz|Lyz|Gyz];
    destruct (N.compare_spec (N_of_ascii x) (N_of_ascii z)) as [Exz|Lxz|Gxz];
    try reflexivity; try discriminate; try lia.
  apply IH.
Qed.

Lemma last_item_In {A : Type} (a : list A) (x : A) :
  Py.last_item a = Ok x -> In x a.
Proof.
  induction a as [|y a IH]; [discriminate|].
  destruct a as [|z a]; simpl.
  - intros H. injection H as <-. now left.
  - intros H. right. now apply IH.
Qed.

Lemma last_item_max (a : list string) (x : string) :
  StronglySorted (fun s t => String.leb s t = true) a ->
  Py.last_item a = Ok x -> forall y, In y a -> String.leb y x = true.
Proof.
  induction 1 as [|z a Hs IH Hall]; [discriminate|].
  destruct a as [|z' a].
  - simpl. intros H. injection H as <-. intros y [<-|[]]. apply string_leb_refl.
  - intros H y [<-|Hy].
    + apply (proj1 (Forall_forall _ _) Hall). now apply last_item_In.
    + now apply IH.
Qed.

(** The last element of a sorted list of versions is the greatest. *)
Lemma last_sorted_max (versions : list string) (latest : string) :
  Py.last_item (Py.sort versions) = Ok latest ->
  In latest versions /\
  forall v, In v versions -> String.leb v latest = true.
Proof.
  intros H. split.
  - apply sort_In. now apply last_item_In.
  - intros v Hv. apply (last_item_max (Py.sort versions)); [|exact H|now apply sort_In].
    apply Sorted_StronglySorted; [|apply sort_Sorted].
    intros a b c. apply string_leb_trans.
Qed.

Lemma dict_get_set {V : Type} (d : Py.dict V) (key key' : string) (v : V) :
  Py.dict_get (Py.dict_set d key v) key' =
  if String.eqb key key' then Ok v else Py.dict_get d key'.
Proof.
  induction d as [|[k v0] d IH]; simpl.
  - now destruct (String.eqb key key').
  - destruct (String.eqb_spec k key) as [->|Hne]; simpl.
    + now destruct (String.eqb key key').
    + rewrite IH. destruct (String.eqb_spec k key') as [->|Hne'].
      * destruct (String.eqb_spec key key'); [congruence|reflexivity].
      * reflexivity.
Qed.

Lemma dict_get_in_keys {V : Type} (d : Py.dict V) (key : string) :
  In key (Py.keys d) <-> exists v, Py.dict_get d key = Ok v.
Proof.
  unfold Py.keys. induction d as [|[k v0] d IH]; simpl.
  - split; [intros []|intros [v H]; discriminate].
  - destruct (String.eqb_spec k key) as [->|Hne].
    + split; eauto.
    + rewrite <- IH. split; [intros [?|?]; [contradiction|assumption]|auto].
Qed.

Section Listing.

Variable files : list string.
Hypothesis files_ok : listing_ok files.

Lemma latest_version_value (d d' : Py.dict string) (model : string) :
  latest_version (r1_files files) d model = Ok d' ->
  exists latest, d' = Py.dict_set d model latest /\
                 is_latest (r1_files files) model latest.
Proof.
  unfold latest_version.
  rewrite (comprehension_Ok _ version_of).
  2:{ intros filename Hin. apply filter_In in Hin. destruct Hin as [Hin _].
      apply getitem_Ok. apply (ModelFacts.r1_files_fields files files_ok) in Hin. lia. }
  cbn [bind]. intros H. apply bind_Ok_inv in H. destruct H as (latest & El & H).
  injection H as <-. exists latest. split; [reflexivity|].
  destruct (last_sorted_max _ _ El) as (Hin & Hmax). split.
  - apply in_map_iff in Hin. destruct Hin as (filename & E & Hf).
    apply filter_In in Hf. exists filename. tauto.
  - intros filename Hf Hc. apply Hmax. apply in_map. apply filter_In. auto.
Qed.

Lemma for_each_latest_values (l : list string) : forall d d',
  Py.for_each (latest_version (r1_files files)) d l = Ok d' ->
  forall model version,
    Py.dict_get d' model = Ok version ->
    Py.dict_get d model = Ok version \/ is_latest (r1_files files) model version.
Proof.
  induction l as [|m l IH]; intros d d' H model version Hg; simpl in H.
  - injection H as <-. now left.
  - apply bind_Ok_inv in H. destruct H as (d1 & E1 & H).
    destruct (IH d1 d' H model version Hg) as [Hd1|Hl]; [|now right].
    destruct (latest_version_value d d1 m E1) as (latest & -> & Hlatest).
    rewrite dict_get_set in Hd1.
    destruct (String.eqb_spec m model) as [->|Hne].
    + injection Hd1 as <-. now right.
    + now left.
Qed.

End Listing.

End VersionFacts.

Module LoadHeadFacts.

Import PyFacts VersionFacts.

Lemma comprehension_if_Ok {A : Type} (cond : A -> result bool) (g : A -> bool)
      (a : list A) :
  (forall x, In x a -> cond x = Ok (g x)) ->
  comprehension_if cond a = Ok (filter g a).
Proof.
  induction a as [|x a IH]; intros H; [reflexivity|].
  simpl. rewrite (H x) by now left. cbn [bind].
  rewrite IH by (intros y Hy; apply H; now right). reflexivity.
Qed.

Lemma modelversions_latest_values (files : list string) (d : Py.dict string) :
  modelversions_latest files = Ok d ->
  Py.keys d = dedup (model_names files) /\
  forall model version, Py.dict_get d model = Ok version ->
                        is_latest (r1_files files) model version.
Proof.
  intros H. pose proof (ModelFacts.modelversions_latest_Ok_inv files d H) as Hok.
  split.
  - destruct (ModelFacts.modelversions_latest_keys files Hok) as (d' & E & Hk).
    congruence.
  - intros model version Hg. unfold modelversions_latest in H.
    apply bind_Ok_inv in H. destruct H as (ms & _ & Hloop).
    destruct (for_each_latest_values files Hok _ _ _ Hloop model version Hg)
      as [Habs|Hl]; [discriminate|exact Hl].
Qed.

Lemma finds_files_key (datdir : string) (files : list string)
      (d : Py.dict string) (model : string) :
  modelversions_latest files = Ok d -> In model (Py.keys d) ->
  finds_files datdir files d model.
Proof.
  intros H Hk. pose proof (ModelFacts.modelversions_latest_Ok_inv files d H) as Hok.
  apply dict_get_in_keys in Hk. destruct Hk as (version & Eg).
  destruct (modelversions_latest_values files d H) as (_ & Hv).
  destruct (Hv model version Eg) as ((filename & Hin & Hc & Ev) & _).
  exists version. split; [exact Eg|]. split; [|split].
  - unfold latest_model_files. apply comprehension_if_Ok.
    intros f _. now rewrite Eg.
  - intros Hnil.
    assert (Hf : In filename (filter (Py.contains version)
                     (filter (Py.contains model) (r1_files files)))).
    { apply filter_In. split; [apply filter_In; now split|].
      apply (split_field_contains "_"). rewrite <- Ev. apply nth_In.
      apply (ModelFacts.r1_files_fields files Hok) in Hin. lia. }
    rewrite Hnil in Hf. exact Hf.
  - unfold ifile. now rewrite Eg.
Qed.

End LoadHeadFacts.

(** X7.  When the cell that reads a listing succeeds, its dictionary has one
    key for each model name of the listing, in the order of first
    occurrence, and the version stored for a model is the version field of
    one of the files whose name holds the model name as a part, the greatest
    of these in the order of strings.  The files looked at are those whose
    name holds the model name anywhere, so they include the files of every
    model whose name extends it. *)
Theorem modelversions_latest_greatest (files : list string) (d : Py.dict string) :
  modelversions_latest files = Ok d ->
  Py.keys d = dedup (model_names files) /\
  (forall model, In model (model_names files) ->
     exists version, Py.dict_get d model = Ok version) /\
  (forall model version, Py.dict_get d model = Ok version ->
     is_latest (r1_files files) model version).
Proof.
  intros H.
  destruct (LoadHeadFacts.modelversions_latest_values files d H) as (Hk & Hv).
  split; [exact Hk|]. split; [|exact Hv].
  intros model Hin. apply VersionFacts.dict_get_in_keys. rewrite Hk.
  now apply PyFacts.dedup_In.
Qed.

Lemma modelversions_latest_greatest_witness :
  modelversions_latest example_files_cesm =
    Ok [("CESM2-WACCM", "v20190415.nc"); ("CESM2", "v20190415.nc")]%string /\
  is_latest (r1_files example_files_cesm) "CESM2" "v20190415.nc".
Proof.
  assert (H : modelversions_latest example_files_cesm =
    Ok [("CESM2-WACCM", "v20190415.nc"); ("CESM2", "v20190415.nc")]%string)
    by (vm_compute; reflexivity).
  split; [exact H|].
  apply (proj2 (proj2 (modelversions_latest_greatest example_files_cesm _ H))).
  vm_compute. reflexivity.
Defined.

(** X8.  When the matching cell yields [model_list], both loading loops get
    through their first three lines for every model of the list: neither
    dictionary raises [KeyError], [latest_model_files] is the list of the
    files whose name holds the model name and the stored version and is never
    empty, and the pattern handed to cdo is the directory, the model and the
    version with [*] between and after them. *)
Theorem load_loops_find_files (files_hist files_ssp245 names : list string) :
  model_list files_hist files_ssp245 = Ok names ->
  exists modelversions_latest_hist modelversions_latest_ssp245,
    modelversions_latest files_hist = Ok modelversions_latest_hist /\
    modelversions_latest files_ssp245 = Ok modelversions_latest_ssp245 /\
    forall model, In model names ->
      finds_files datdir_hist files_hist modelversions_latest_hist model /\
      finds_files datdir_ssp245 files_ssp245 modelversions_latest_ssp245 model.
Proof.
  unfold model_list. intros H.
  apply bind_Ok_inv in H. destruct H as (dh & Eh & H).
  apply bind_Ok_inv in H. destruct H as (ds & Es & H).
  injection H as <-. exists dh, ds. split; [exact Eh|]. split; [exact Es|].
  intros model Hin. rewrite ModelFacts.model_list_loop_filter in Hin.
  apply filter_In in Hin. destruct Hin as [Hkh Hks].
  apply PyFacts.dict_in_keys in Hks.
  split; now apply LoadHeadFacts.finds_files_key.
Qed.

Lemma load_loops_find_files_witness :
  model_list example_files_hist example_files_ssp245 =
    Ok ["CanESM5"; "IPSL-CM6A-LR"; "MPI-ESM1-2-LR"]%string /\
  exists modelversions_latest_hist modelversions_latest_ssp245,
    modelversions_latest example_files_hist = Ok modelversions_latest_hist /\
    modelversions_latest example_files_ssp245 = Ok modelversions_latest_ssp245 /\
    forall model,
      In model ["CanESM5"; "IPSL-CM6A-LR"; "MPI-ESM1-2-LR"]%string ->
      finds_files datdir_hist example_files_hist
                  modelversions_latest_hist model /\
      finds_files datdir_ssp245 example_files_ssp245
                  modelversions_latest_ssp245 model.
Proof.
  assert (H : model_list example_files_hist example_files_ssp245 =
              Ok ["CanESM5"; "IPSL-CM6A-LR"; "MPI-ESM1-2-LR"]%string)
    by (vm_compute; reflexivity).
  split; [exact H|].
  exact (load_loops_find_files example_files_hist example_files_ssp245 _ H).
Defined.

(** ** The loading loops *)

Module LoadFacts.

Local Open Scope Z_scope.

Lemma first_year_ok_all : forallb first_year_ok (range 1678 2262) = true.
Proof. vm_compute. reflexivity. Qed.

Lemma july_before (y bound : Z) :
  Time.civil y 7 31 0 0 0 0 < Time.civil bound 1 1 0 0 0 0 <-> y < bound.
Proof.
  unfold Time.civil, Time.days_from_civil, Time.ns_per_day, Time.ns_per_second.
  cbn [Z.leb Z.ltb Z.compare Pos.compare Pos.compare_cont].
  change ((153 * (7 - 3) + 2) / 5 + 31 - 1) with 152.
  change ((153 * (1 + 9) + 2) / 5 + 1 - 1) with 306.
  Z.div_mod_to_equations. lia.
Qed.

Lemma july_within (y bound : Z) :
  Time.civil y 7 31 0 0 0 0 <= Time.civil bound 12 31 23 59 59 999999999 <->
  y <= bound.
Proof.
  unfold Time.civil, Time.days_from_civil, Time.ns_per_day, Time.ns_per_second.
  cbn [Z.leb Z.ltb Z.compare Pos.compare Pos.compare_cont].
  change ((153 * (7 - 3) + 2) / 5 + 31 - 1) with 152.
  change ((153 * (12 - 3) + 2) / 5 + 31 - 1) with 305.
  Z.div_mod_to_equations. lia.
Qed.

(** Every day of the year [y] is given the year [y]. *)
Lemma civil_from_days_year (y z : Z) :
  1678 <= y <= 2261 ->
  Time.days_from_civil y 1 1 <= z < Time.days_from_civil (y + 1) 1 1 ->
  fst (fst (TimeText.civil_from_days z)) = y.
Proof.
  unfold Time.days_from_civil, TimeText.civil_from_days.
  cbn [Z.leb Z.ltb Z.compare Pos.compare Pos.compare_cont fst].
  change ((153 * (1 + 9) + 2) / 5 + 1 - 1) with 306.
  intros Hy H.
  set (zz := z + 719468) in *.
  set (era := zz / 146097) in *.
  set (doe := zz - era * 146097) in *.
  assert (Hdoe : 0 <= doe < 146097) by (subst doe era; Z.div_mod_to_equations; lia).
  set (yoe := (doe - doe / 1460 + doe / 36524 - doe / 146096) / 365) in *.
  assert (Hyoe : 0 <= yoe < 400) by (subst yoe; Z.div_mod_to_equations; lia).
  set (doy := doe - (365 * yoe + yoe / 4 - yoe / 100)) in *.
  assert (Hdoy : 0 <= doy < 366) by (subst doy yoe; Z.div_mod_to_equations; lia).
  set (mp := (5 * doy + 2) / 153) in *.
  assert (Hmp : (mp < 10 <-> doy < 306)) by (subst mp; Z.div_mod_to_equations; lia).
  destruct (Z.ltb_spec mp 10) as [E1|E1].
  - destruct (Z.leb_spec (mp + 3) 2) as [E2|E2];
      [subst mp; Z.div_mod_to_equations; lia|].
    subst doy yoe doe era zz; Z.div_mod_to_equations; lia.
  - destruct (Z.leb_spec (mp - 9) 2) as [E2|E2];
      [|subst mp; Z.div_mod_to_equations; lia].
    subst doy yoe doe era zz; Z.div_mod_to_equations; lia.
Qed.

Lemma year_of_in_year (y : Z) (t : Time.datetime64) :
  1678 <= y <= 2261 ->
  Time.civil y 1 1 0 0 0 0 <= t < Time.civil (y + 1) 1 1 0 0 0 0 ->
  TimeText.year_of t = y.
Proof.
  intros Hy H. unfold TimeText.year_of. apply civil_from_days_year; [exact Hy|].
  unfold Time.civil in H. revert H.
  generalize (Time.days_from_civil y 1 1), (Time.days_from_civil (y + 1) 1 1).
  intros d1 d2 H. unfold Time.ns_per_day, Time.ns_per_second in *.
  split.
  - apply Z.div_le_lower_bound; lia.
  - apply Z.div_lt_upper_bound; lia.
Qed.

Lemma first_year (y : Z) :
  1678 <= y <= 2261 ->
  TimeText.zfill 4 y = str y /\ String.length (str y) = 4%nat /\
  TimeText.parse_date (str y ++ "-01-01") = Ok (y, 1, 1).
Proof.
  intros H.
  assert (Hb : first_year_ok y = true).
  { apply (proj1 (forallb_forall _ _) first_year_ok_all).
    apply SliceFacts.In_range. lia. }
  unfold first_year_ok in Hb.
  apply andb_true_iff in Hb. destruct Hb as [Hb H3].
  apply andb_true_iff in Hb. destruct Hb as [H1 H2].
  apply String.eqb_eq in H1. apply Nat.eqb_eq in H2.
  split; [exact H1|]. split; [exact H2|].
  destruct (TimeText.parse_date (str y ++ "-01-01")) as [[[y' m] d]|e];
    [|discriminate].
  apply andb_true_iff in H3. destruct H3 as [H3 Hd].
  apply andb_true_iff in H3. destruct H3 as [Hy' Hm].
  apply Z.eqb_eq in Hy', Hm, Hd. congruence.
Qed.

(** [firstyear] is the text of the calendar year of the first timestamp. *)
Lemma firstyear_text (y : Z) (t : Time.datetime64) :
  1678 <= y <= 2261 ->
  Time.civil y 1 1 0 0 0 0 <= t < Time.civil (y + 1) 1 1 0 0 0 0 ->
  substring 0 4 (TimeText.to_string t) = str y.
Proof.
  intros Hy H. pose proof (year_of_in_year y t Hy H) as Ey.
  unfold TimeText.year_of in Ey. unfold TimeText.to_string.
  destruct (TimeText.civil_from_days (t / Time.ns_per_day)) as [[y' m] d].
  simpl in Ey. subst y'.
  destruct (first_year y Hy) as (Ez & El & _). rewrite Ez.
  rewrite <- El at 1. apply CatalogFacts.substring_prefix.
Qed.

Lemma in_bounds_july (y : Z) :
  TimeText.in_bounds (Time.civil y 7 31 0 0 0 0) = true <-> 1678 <= y <= 2261.
Proof.
  unfold TimeText.in_bounds. rewrite andb_true_iff, !Z.ltb_lt.
  unfold Time.civil, Time.days_from_civil, Time.ns_per_day, Time.ns_per_second.
  cbn [Z.leb Z.ltb Z.compare Pos.compare Pos.compare_cont].
  change ((153 * (7 - 3) + 2) / 5 + 31 - 1) with 152.
  Z.div_mod_to_equations. lia.
Qed.

Lemma in_bounds_january (y : Z) :
  1678 <= y <= 2261 ->
  TimeText.in_bounds (Time.civil y 1 1 0 0 0 0) = true.
Proof.
  unfold TimeText.in_bounds. rewrite andb_true_iff, !Z.ltb_lt.
  unfold Time.civil, Time.days_from_civil, Time.ns_per_day, Time.ns_per_second.
  cbn [Z.leb Z.ltb Z.compare Pos.compare Pos.compare_cont].
  change ((153 * (1 + 9) + 2) / 5 + 1 - 1) with 306.
  Z.div_mod_to_equations. lia.
Qed.

Lemma in_bounds_july_ends (y : Z) (n : nat) :
  1678 <= y -> y + Z.of_nat n - 1 <= 2261 ->
  forallb TimeText.in_bounds
          (map (fun k => Time.civil (y + Z.of_nat k) 7 31 0 0 0 0) (seq 0 n)) = true.
Proof.
  intros H1 H2. apply forallb_forall. intros t Ht.
  apply in_map_iff in Ht. destruct Ht as (k & <- & Hk). apply in_seq in Hk.
  apply in_bounds_july. lia.
Qed.

Lemma out_of_bounds_july_ends (y : Z) (n : nat) :
  2262 <= y + Z.of_nat n - 1 -> (0 < n)%nat ->
  forallb TimeText.in_bounds
          (map (fun k => Time.civil (y + Z.of_nat k) 7 31 0 0 0 0) (seq 0 n)) = false.
Proof.
  intros H Hn.
  destruct (forallb _ _) eqn:E; [|reflexivity].
  assert (Hin : In (Time.civil (y + Z.of_nat (n - 1)) 7 31 0 0 0 0)
                   (map (fun k => Time.civil (y + Z.of_nat k) 7 31 0 0 0 0) (seq 0 n))).
  { apply in_map_iff. exists (n - 1)%nat. split; [reflexivity|]. apply in_seq. lia. }
  apply (proj1 (forallb_forall _ _) E) in Hin.
  apply (proj1 (in_bounds_july _)) in Hin. lia.
Qed.

(** The index that [date_range] builds from the first of January of [y]:
    the ends of July of [periods] years from [y] on, as long as the last of
    them is a timestamp of 64 bits. *)
Lemma date_range_first_year (y : Z) (periods : nat) :
  1678 <= y <= 2261 -> y + Z.of_nat periods - 1 <= 2261 ->
  TimeText.date_range_A_JUL (str y ++ "-01-01") periods =
    Ok (map (fun k => Time.civil (y + Z.of_nat k) 7 31 0 0 0 0) (seq 0 periods)).
Proof.
  intros Hy Hlast. unfold TimeText.date_range_A_JUL.
  destruct (first_year y Hy) as (_ & _ & Ep). rewrite Ep. cbn [bind].
  rewrite (in_bounds_january y Hy). cbn [negb].
  change (if 1 <=? 7 then y else y + 1) with y.
  rewrite in_bounds_july_ends by lia. reflexivity.
Qed.

Lemma date_range_out_of_bounds (y : Z) (periods : nat) :
  1678 <= y <= 2261 -> 2262 <= y + Z.of_nat periods - 1 ->
  TimeText.date_range_A_JUL (str y ++ "-01-01") periods = Raise ValueError.
Proof.
  intros Hy Hlast. unfold TimeText.date_range_A_JUL.
  destruct (first_year y Hy) as (_ & _ & Ep). rewrite Ep. cbn [bind].
  rewrite (in_bounds_january y Hy). cbn [negb].
  change (if 1 <=? 7 then y else y + 1) with y.
  rewrite out_of_bounds_july_ends by lia. reflexivity.
Qed.

Lemma searchsorted_left_july (y0 bound : Z) (n : nat) : forall s,
  Time.searchsorted_left
    (map (fun k => Time.civil (y0 + Z.of_nat k) 7 31 0 0 0 0) (seq s n))
    (Time.civil bound 1 1 0 0 0 0)
  = Nat.min n (Z.to_nat (bound - y0) - s).
Proof.
  induction n as [|n IH]; intros s; [reflexivity|].
  cbn [seq map Time.searchsorted_left].
  destruct (Z.ltb_spec (Time.civil (y0 + Z.of_nat s) 7 31 0 0 0 0)
                       (Time.civil bound 1 1 0 0 0 0)) as [Hlt|Hge].
  - apply (proj1 (july_before _ _)) in Hlt. rewrite IH. lia.
  - assert (~ y0 + Z.of_nat s < bound) by (rewrite <- july_before; lia). lia.
Qed.

Lemma searchsorted_right_july (y0 bound : Z) (n : nat) : forall s,
  Time.searchsorted_right
    (map (fun k => Time.civil (y0 + Z.of_nat k) 7 31 0 0 0 0) (seq s n))
    (Time.civil bound 12 31 23 59 59 999999999)
  = Nat.min n (Z.to_nat (bound + 1 - y0) - s).
Proof.
  induction n as [|n IH]; intros s; [reflexivity|].
  cbn [seq map Time.searchsorted_right].
  destruct (Z.leb_spec (Time.civil (y0 + Z.of_nat s) 7 31 0 0 0 0)
                       (Time.civil bound 12 31 23 59 59 999999999)) as [Hle|Hgt].
  - apply (proj1 (july_within _ _)) in Hle. rewrite IH. lia.
  - assert (~ y0 + Z.of_nat s <= bound) by (rewrite <- july_within; lia). lia.
Qed.

Lemma slice_clamp {A : Type} (a b : nat) (l : list A) :
  slice (Nat.min (length l) a) (Nat.min (length l) b) l = slice a b l.
Proof.
  unfold slice. destruct (Nat.le_gt_cases (length l) a) as [Ha|Ha].
  - rewrite (Nat.min_l _ a) by exact Ha. rewrite !skipn_all2 by lia.
    now rewrite !firstn_nil.
  - rewrite (Nat.min_r _ a) by lia.
    destruct (Nat.le_gt_cases b (length l)) as [Hb|Hb].
    + now rewrite (Nat.min_r _ b) by exact Hb.
    + rewrite (Nat.min_l _ b) by lia.
      rewrite !firstn_all2; [reflexivity| |]; rewrite length_skipn; lia.
Qed.

Lemma seq_from (i len : nat) :
  seq i len = map (fun k => (i + k)%nat) (seq 0 len).
Proof.
  revert i. induction len as [|len IH]; intros i; [reflexivity|].
  simpl. rewrite Nat.add_0_r. f_equal.
  rewrite IH, <- seq_shift, map_map. apply map_ext. intros k. lia.
Qed.

Lemma firstn_seq_le (k : nat) : forall s n,
  (k <= n)%nat -> firstn k (seq s n) = seq s k.
Proof.
  induction k as [|k IH]; intros s [|n] H; try reflexivity; [lia|].
  simpl. f_equal. apply IH. lia.
Qed.

Lemma slice_seq (i j n : nat) :
  (i <= n)%nat -> (j <= n)%nat -> slice i j (seq 0 n) = seq i (j - i).
Proof.
  intros Hi Hj. unfold slice. rewrite skipn_seq, firstn_seq_le by lia.
  reflexivity.
Qed.

Lemma slice_map {A B : Type} (f : A -> B) (i j : nat) (l : list A) :
  slice i j (map f l) = map f (slice i j l).
Proof. unfold slice. now rewrite skipn_map, firstn_map. Qed.

(** The stamps that the clipping keeps. *)
Lemma slice_july (y0 : Z) (n : nat) :
  slice (Nat.min n (Z.to_nat (1850 - y0))) (Nat.min n (Z.to_nat (2015 - y0)))
        (map (fun k => Time.civil (y0 + Z.of_nat k) 7 31 0 0 0 0) (seq 0 n))
  = july_ends (Z.max y0 1850) (Z.min (y0 + Z.of_nat n - 1) 2014).
Proof.
  rewrite slice_map, slice_seq by lia.
  unfold july_ends, range. rewrite map_map, seq_from, map_map.
  set (a := Nat.min n (Z.to_nat (1850 - y0))).
  set (b := Nat.min n (Z.to_nat (2015 - y0))).
  assert (Hlen : (b - a)%nat =
                 Z.to_nat (Z.min (y0 + Z.of_nat n - 1) 2014 + 1 - Z.max y0 1850))
    by lia.
  rewrite <- Hlen. apply map_ext_in. intros k Hk. apply in_seq in Hk.
  f_equal. lia.
Qed.

Lemma last_item_app {A : Type} (l : list A) (x : A) :
  Py.last_item (l ++ [x]) = Ok x.
Proof.
  induction l as [|y l IH]; [reflexivity|].
  simpl. destruct (l ++ [x]) eqn:E; [now destruct l|exact IH].
Qed.

Lemma last_item_july (first last : Z) :
  first <= last ->
  Py.last_item (july_ends first last) = Ok (Time.civil last 7 31 0 0 0 0).
Proof.
  intros H. unfold july_ends, range.
  replace (Z.to_nat (last + 1 - first)) with (S (Z.to_nat (last - first))) by lia.
  rewrite seq_S, !map_app. cbn [map]. rewrite last_item_app.
  do 2 f_equal. lia.
Qed.

Lemma last_item_nil {A : Type} (l : list A) :
  l = [] -> Py.last_item l = Raise IndexError.
Proof. now intros ->. Qed.

Lemma del_height_spec (cs : list string) (name : string) :
  In name (del_height cs) <-> In name cs /\ name <> "height"%string.
Proof.
  unfold del_height. destruct (existsb (String.eqb "height") cs) eqn:E.
  - rewrite filter_In. split; intros [H1 H2]; (split; [exact H1|]).
    + intros ->. now rewrite String.eqb_refl in H2.
    + destruct (String.eqb_spec "height" name); [congruence|reflexivity].
  - split; [|tauto]. intros H. split; [exact H|]. intros ->.
    assert (Hex : existsb (String.eqb "height") cs = true)
      by (apply existsb_exists; exists "height"%string; split;
          [exact H|apply String.eqb_refl]).
    congruence.
Qed.

Lemma dict_get_set_model (d : Py.dict string) (model : string) :
  Py.dict_get (Py.dict_set d "model" model) "model" = Ok model.
Proof. rewrite VersionFacts.dict_get_set. now rewrite String.eqb_refl. Qed.

Lemma july_le (y y' : Z) :
  y <= y' -> Time.civil y 7 31 0 0 0 0 <= Time.civil y' 7 31 0 0 0 0.
Proof.
  unfold Time.civil, Time.days_from_civil, Time.ns_per_day, Time.ns_per_second.
  cbn [Z.leb Z.ltb Z.compare Pos.compare Pos.compare_cont].
  change ((153 * (7 - 3) + 2) / 5 + 31 - 1) with 152.
  Z.div_mod_to_equations. lia.
Qed.

(** The index that [date_range] builds increases. *)
Lemma july_increasing (y0 : Z) (n : nat) : forall s,
  Time.increasing
    (map (fun k => Time.civil (y0 + Z.of_nat k) 7 31 0 0 0 0) (seq s n)).
Proof.
  unfold Time.increasing. induction n as [|n IH]; intros s; [constructor|].
  cbn [seq map]. constructor; [apply IH|].
  destruct n as [|n]; [constructor|].
  cbn [seq map]. constructor. apply july_le. lia.
Qed.

(** The historical body on a series of [n >= 2] steps that starts in the
    year [y0] and ends in a year that a timestamp of 64 bits reaches. *)
Lemma load_hist_Ok (model : string) (raw : ModelTimeseries) (y0 : Z) :
  let n := length (ts_time (series raw)) in
  length (ts_values (series raw)) = n -> (2 <= n)%nat ->
  starts_in_year y0 (series raw) -> 1678 <= y0 <= 2261 ->
  y0 + Z.of_nat n - 1 <= 2261 ->
  load_hist model raw =
  Ok (mkModelTimeseries
        (mkTimeSeries
           (slice (Z.to_nat (1850 - y0)) (Z.to_nat (2015 - y0))
                  (ts_values (series raw)))
           (july_ends (Z.max y0 1850) (Z.min (y0 + Z.of_nat n - 1) 2014))
           (Py.dict_set (attrs (series raw)) "model" model))
        (del_height (coords raw))).
Proof.
  intros n Hv Hn (t & rest & Et & Ht) Hy Hlast. unfold load_hist.
  unfold first_time. cbn [set_model ts_time ts_values attrs].
  subst n. rewrite Et in *. destruct rest as [|t' rest]; [simpl in Hn; lia|].
  cbn [bind]. rewrite (firstyear_text y0 t Hy Ht).
  rewrite (date_range_first_year y0 _ Hy) by (rewrite Hv; exact Hlast).
  cbn [bind].
  unfold set_time, set_model. cbn [ts_time ts_values attrs]. rewrite Et.
  rewrite length_map, length_seq, Hv, Nat.eqb_refl.
  cbn [length Nat.eqb andb negb bind].
  unfold loc_days.
  change (TimeText.parse_date "1850-01-01") with (Ok (1850, 1, 1) : result (Z * Z * Z)).
  change (TimeText.parse_date "2014-12-31") with (Ok (2014, 12, 31) : result (Z * Z * Z)).
  cbn [bind ts_time ts_values attrs].
  rewrite YearFacts.slice_indexer_increasing by apply july_increasing.
  cbn [bind].
  rewrite searchsorted_left_july, searchsorted_right_july.
  rewrite !Nat.sub_0_r.
  change (2014 + 1 - y0) with (2015 - y0).
  rewrite slice_july.
  rewrite <- (slice_clamp (Z.to_nat (1850 - y0)) (Z.to_nat (2015 - y0))
                          (ts_values (series raw))).
  rewrite Hv. reflexivity.
Qed.

(** The historical body on a series whose last year lies beyond the
    timestamps of 64 bits: [date_range] raises. *)
Lemma load_hist_out_of_bounds (model : string) (raw : ModelTimeseries) (y0 : Z) :
  let n := length (ts_time (series raw)) in
  length (ts_values (series raw)) = n -> (2 <= n)%nat ->
  starts_in_year y0 (series raw) -> 1678 <= y0 <= 2261 ->
  2262 <= y0 + Z.of_nat n - 1 ->
  load_hist model raw = Raise ValueError.
Proof.
  intros n Hv Hn (t & rest & Et & Ht) Hy Hlast. unfold load_hist.
  unfold first_time. cbn [set_model ts_time ts_values attrs].
  subst n. rewrite Et in *. destruct rest as [|t' rest]; [simpl in Hn; lia|].
  cbn [bind]. rewrite (firstyear_text y0 t Hy Ht).
  rewrite (date_range_out_of_bounds y0 _ Hy) by (rewrite Hv; exact Hlast).
  reflexivity.
Qed.

Lemma load_ssp245_Ok (model : string) (raw : ModelTimeseries) :
  length (ts_time (series raw)) = 85%nat ->
  load_ssp245 model raw =
  Ok (mkModelTimeseries
        (mkTimeSeries (ts_values (series raw)) (july_ends 2015 2099)
                      (Py.dict_set (attrs (series raw)) "model" model))
        (del_height (coords raw))).
Proof.
  intros H. unfold load_ssp245.
  change (TimeText.date_range_A_JUL "2015-01-01" 85)
    with (Ok (map (fun k => Time.civil (2015 + Z.of_nat k) 7 31 0 0 0 0) (seq 0 85))
          : result (list Time.datetime64)).
  cbn [bind]. unfold set_time. cbn [set_model ts_time ts_values attrs].
  rewrite length_map, length_seq, H. cbn [Nat.eqb andb negb bind].
  reflexivity.
Qed.

Lemma load_ssp245_Raise (model : string) (raw : ModelTimeseries) :
  length (ts_time (series raw)) <> 85%nat ->
  load_ssp245 model raw = Raise ValueError.
Proof.
  intros H. unfold load_ssp245.
  change (TimeText.date_range_A_JUL "2015-01-01" 85)
    with (Ok (map (fun k => Time.civil (2015 + Z.of_nat k) 7 31 0 0 0 0) (seq 0 85))
          : result (list Time.datetime64)).
  cbn [bind]. unfold set_time. cbn [set_model ts_time ts_values attrs].
  rewrite length_map, length_seq.
  destruct (Nat.eqb_spec 85 (length (ts_time (series raw)))) as [E|E];
    [congruence|reflexivity].
Qed.

Lemma load_hist_Raise (model : string) (raw : ModelTimeseries) :
  (length (ts_time (series raw)) <= 1)%nat ->
  load_hist model raw = Raise IndexError.
Proof.
  intros H. unfold load_hist, first_time. cbn [set_model ts_time].
  destruct (ts_time (series raw)) as [|t [|t' rest]]; [reflexivity|reflexivity|].
  simpl in H. lia.
Qed.

End LoadFacts.

Module LoadMore.

Import LoadFacts.

Local Open Scope Z_scope.

Lemma length_july_ends (first last : Z) :
  length (july_ends first last) = Z.to_nat (last + 1 - first).
Proof. unfold july_ends, range. now rewrite !length_map, length_seq. Qed.

Lemma length_slice {A : Type} (a b : nat) (l : list A) :
  length (slice a b l) = Nat.min (b - a) (length l - a).
Proof. unfold slice. now rewrite length_firstn, length_skipn. Qed.

Lemma dict_in_set_model (d : Py.dict string) (model : string) :
  Py.dict_in "model" (Py.dict_set d "model" model) = true.
Proof.
  apply PyFacts.dict_in_keys. apply VersionFacts.dict_get_in_keys.
  exists model. apply dict_get_set_model.
Qed.

Lemma starts_in_year_raw_hist (n : nat) : starts_in_year 1849 (series (raw_hist (S n))).
Proof.
  exists (Time.civil 1849 7 2 12 0 0 0),
         (map (fun k => Time.civil (1849 + Z.of_nat k) 7 2 12 0 0 0) (seq 1 n)).
  split; [reflexivity|]. vm_compute. split; [discriminate|reflexivity].
Qed.

Lemma last_item_nth {A : Type} (l : list A) (d : A) :
  l <> [] -> Py.last_item l = Ok (nth (length l - 1) l d).
Proof.
  induction l as [|x l IH]; intros H; [congruence|].
  destruct l as [|y l]; [reflexivity|].
  change (Py.last_item (x :: y :: l)) with (Py.last_item (y :: l)).
  rewrite IH by discriminate. simpl. now rewrite Nat.sub_0_r.
Qed.

(** The last value that the clipping keeps. *)
Lemma last_item_slice {A : Type} (a b : nat) (l : list A) (d : A) :
  (a < b)%nat -> (a < length l)%nat ->
  Py.last_item (slice a b l) = Ok (nth (Nat.min b (length l) - 1) l d).
Proof.
  intros Hab Hal.
  assert (Hlen : length (slice a b l) = Nat.min (b - a) (length l - a))
    by apply length_slice.
  rewrite (last_item_nth _ d).
  2:{ intros E. rewrite E in Hlen. simpl in Hlen. lia. }
  rewrite Hlen. unfold slice. rewrite nth_firstn, nth_skipn.
  destruct (Nat.ltb_spec (Nat.min (b - a) (length l - a) - 1) (b - a)) as [_|Hge];
    [|lia].
  do 2 f_equal. lia.
Qed.

End LoadMore.

(** X9.  The scenario loop takes a series of exactly 85 steps: with any other
    number of steps the new time axis does not fit and the body raises
    [ValueError].  With 85 steps the values are kept as they are, the time
    axis is replaced by the ends of July of the years 2015 to 2099, whatever
    the time axis of the file was, the attribute [model] holds the model
    name, and the coordinates are those of the file without [height]. *)
Theorem load_ssp245_needs_85_steps (model : string) (raw : ModelTimeseries) :
  (length (ts_time (series raw)) <> 85 ->
   load_ssp245 model raw = Raise ValueError) /\
  (length (ts_time (series raw)) = 85 ->
   exists out,
     load_ssp245 model raw = Ok out /\
     ts_values (series out) = ts_values (series raw) /\
     ts_time (series out) = july_ends 2015 2099 /\
     Py.dict_get (attrs (series out)) "model" = Ok model /\
     forall name, In name (coords out) <->
                  In name (coords raw) /\ name <> "height"%string).
Proof.
  split; [apply LoadFacts.load_ssp245_Raise|].
  intros H. eexists. split; [apply LoadFacts.load_ssp245_Ok; exact H|].
  cbn [series ts_values ts_time attrs coords].
  split; [reflexivity|]. split; [reflexivity|].
  split; [apply LoadFacts.dict_get_set_model|].
  apply LoadFacts.del_height_spec.
Qed.

Lemma load_ssp245_needs_85_steps_witness :
  (length (ts_time (series (raw_hist 3))) <> 85 /\
   load_ssp245 "CanESM5" (raw_hist 3) = Raise ValueError) /\
  (length (ts_time (series raw_ssp245)) = 85 /\
   exists out,
     load_ssp245 "CanESM5" raw_ssp245 = Ok out /\
     ts_values (series out) = ts_values (series raw_ssp245) /\
     ts_time (series out) = july_ends 2015 2099 /\
     Py.dict_get (attrs (series out)) "model" = Ok "CanESM5"%string /\
     forall name, In name (coords out) <->
                  In name (coords raw_ssp245) /\ name <> "height"%string).
Proof.
  assert (H3 : length (ts_time (series (raw_hist 3))) <> 85)
    by (simpl; lia).
  assert (H85 : length (ts_time (series raw_ssp245)) = 85) by reflexivity.
  split.
  - split; [exact H3|].
    exact (proj1 (load_ssp245_needs_85_steps "CanESM5" (raw_hist 3)) H3).
  - split; [exact H85|].
    exact (proj2 (load_ssp245_needs_85_steps "CanESM5" raw_ssp245) H85).
Defined.

(** X10.  The historical loop on a series of at most one step raises
    [IndexError], since [squeeze] has removed the time dimension or there is
    no first element.  On a series of [n >= 2] steps whose first timestamp
    lies in the year [y0], the time axis of the file is replaced by the ends
    of July of [n] successive years from [y0] on.  When the last of these
    years is beyond 2261, the last year whose end of July is a timestamp of
    64 bits, [date_range] raises [OutOfBoundsDatetime], a [ValueError].
    Otherwise the slice keeps the years 1850 to 2014: the values at the
    positions [1850 - y0] to [2014 - y0] with the stamps of the years
    [max y0 1850] to [min (y0 + n - 1) 2014].  The result has as many stamps
    as values and the attribute [model], and no coordinate [height]. *)
Theorem load_hist_clips_to_1850_2014 (model : string) (raw : ModelTimeseries)
        (y0 : Z) :
  (length (ts_time (series raw)) <= 1 ->
   load_hist model raw = Raise IndexError) /\
  (length (ts_values (series raw)) = length (ts_time (series raw)) ->
   2 <= length (ts_time (series raw)) ->
   starts_in_year y0 (series raw) -> (1678 <= y0 <= 2261)%Z ->
   (y0 + Z.of_nat (length (ts_time (series raw))) - 1 <= 2261)%Z ->
   exists out,
     load_hist model raw = Ok out /\
     ts_time (series out) =
       july_ends (Z.max y0 1850)
                 (Z.min (y0 + Z.of_nat (length (ts_time (series raw))) - 1) 2014) /\
     ts_values (series out) =
       slice (Z.to_nat (1850 - y0)) (Z.to_nat (2015 - y0))
             (ts_values (series raw)) /\
     loaded (series out) /\
     Py.dict_get (attrs (series out)) "model" = Ok model /\
     forall name, In name (coords out) <->
                  In name (coords raw) /\ name <> "height"%string) /\
  (length (ts_values (series raw)) = length (ts_time (series raw)) ->
   2 <= length (ts_time (series raw)) ->
   starts_in_year y0 (series raw) -> (1678 <= y0 <= 2261)%Z ->
   (2262 <= y0 + Z.of_nat (length (ts_time (series raw))) - 1)%Z ->
   load_hist model raw = Raise ValueError).
Proof.
  split; [apply LoadFacts.load_hist_Raise|]. split.
  - intros Hv Hn Hs Hy Hlast. eexists.
    split; [apply (LoadFacts.load_hist_Ok model raw y0 Hv Hn Hs Hy Hlast)|].
    cbn [series ts_values ts_time attrs coords].
    split; [reflexivity|]. split; [reflexivity|]. split; [|split].
    + split; [|apply LoadMore.dict_in_set_model].
      cbn [ts_values ts_time].
      rewrite LoadMore.length_july_ends, LoadMore.length_slice.
      lia.
    + apply LoadFacts.dict_get_set_model.
    + apply LoadFacts.del_height_spec.
  - intros Hv Hn Hs Hy Hlast.
    apply (LoadFacts.load_hist_out_of_bounds model raw y0 Hv Hn Hs Hy Hlast).
Qed.

Lemma load_hist_clips_to_1850_2014_witness :
  (length (ts_time (series (raw_hist 1))) <= 1 /\
   load_hist "CanESM5" (raw_hist 1) = Raise IndexError) /\
  ((length (ts_values (series (raw_hist 170))) =
    length (ts_time (series (raw_hist 170))) /\
    2 <= length (ts_time (series (raw_hist 170))) /\
    starts_in_year 1849 (series (raw_hist 170)) /\ (1678 <= 1849 <= 2261)%Z /\
    (1849 + Z.of_nat (length (ts_time (series (raw_hist 170)))) - 1 <= 2261)%Z) /\
   exists out,
     load_hist "CanESM5" (raw_hist 170) = Ok out /\
     ts_time (series out) =
       july_ends (Z.max 1849 1850)
                 (Z.min (1849 + Z.of_nat (length (ts_time (series (raw_hist 170)))) - 1)
                        2014) /\
     ts_values (series out) =
       slice (Z.to_nat (1850 - 1849)) (Z.to_nat (2015 - 1849))
             (ts_values (series (raw_hist 170))) /\
     loaded (series out) /\
     Py.dict_get (attrs (series out)) "model" = Ok "CanESM5"%string /\
     forall name, In name (coords out) <->
                  In name (coords (raw_hist 170)) /\ name <> "height"%string) /\
  ((length (ts_values (series raw_hist_2261)) =
    length (ts_time (series raw_hist_2261)) /\
    2 <= length (ts_time (series raw_hist_2261)) /\
    starts_in_year 2261 (series raw_hist_2261) /\ (1678 <= 2261 <= 2261)%Z /\
    (2262 <= 2261 + Z.of_nat (length (ts_time (series raw_hist_2261))) - 1)%Z) /\
   load_hist "CanESM5" raw_hist_2261 = Raise ValueError).
Proof.
  assert (H1 : length (ts_time (series (raw_hist 1))) <= 1) by (simpl; lia).
  assert (Hv : length (ts_values (series (raw_hist 170))) =
               length (ts_time (series (raw_hist 170)))) by reflexivity.
  assert (Hn : 2 <= length (ts_time (series (raw_hist 170))))
    by (vm_compute; lia).
  assert (Hs : starts_in_year 1849 (series (raw_hist 170)))
    by apply LoadMore.starts_in_year_raw_hist.
  assert (Hy : (1678 <= 1849 <= 2261)%Z) by lia.
  assert (Hl : (1849 + Z.of_nat (length (ts_time (series (raw_hist 170)))) - 1
                <= 2261)%Z) by (vm_compute; discriminate).
  assert (Hv' : length (ts_values (series raw_hist_2261)) =
                length (ts_time (series raw_hist_2261))) by reflexivity.
  assert (Hn' : 2 <= length (ts_time (series raw_hist_2261)))
    by (simpl; lia).
  assert (Hs' : starts_in_year 2261 (series raw_hist_2261)).
  { exists (Time.civil 2261 1 16 12 0 0 0),
           [Time.civil 2261 2 15 0 0 0 0; Time.civil 2261 3 16 12 0 0 0].
    split; [reflexivity|]. vm_compute. split; [discriminate|reflexivity]. }
  assert (Hy' : (1678 <= 2261 <= 2261)%Z) by lia.
  assert (Hl' : (2262 <= 2261 + Z.of_nat (length (ts_time (series raw_hist_2261))) - 1)%Z)
    by (simpl; lia).
  split; [|split].
  - split; [exact H1|].
    exact (proj1 (load_hist_clips_to_1850_2014 "CanESM5" (raw_hist 1) 0) H1).
  - split; [tauto|].
    exact (proj1 (proj2 (load_hist_clips_to_1850_2014 "CanESM5" (raw_hist 170) 1849))
                 Hv Hn Hs Hy Hl).
  - split; [tauto|].
    exact (proj2 (proj2 (load_hist_clips_to_1850_2014 "CanESM5" raw_hist_2261 2261))
                 Hv' Hn' Hs' Hy' Hl').
Defined.

Module MergeMore.

Import LoadFacts LoadMore.

Local Open Scope Z_scope.

Lemma load_ssp245_Ok_inv (model : string) (raw out : ModelTimeseries) :
  load_ssp245 model raw = Ok out ->
  out = mkModelTimeseries
          (mkTimeSeries (ts_values (series raw)) (july_ends 2015 2099)
                        (Py.dict_set (attrs (series raw)) "model" model))
          (del_height (coords raw)).
Proof.
  intros H.
  destruct (Nat.eq_dec (length (ts_time (series raw))) 85) as [E|E].
  - rewrite (load_ssp245_Ok model raw E) in H. congruence.
  - rewrite (load_ssp245_Raise model raw E) in H. discriminate.
Qed.

Section Pair.

Variables (st : Store) (i : nat) (model : string).
Variables (raw_h raw_s hist ssp245 : ModelTimeseries) (y0 : Z).

Let n : nat := length (ts_time (series raw_h)).
Let last_year : Z := Z.min (y0 + Z.of_nat n - 1) 2014.

Hypothesis load_h : load_hist model raw_h = Ok hist.
Hypothesis load_s : load_ssp245 model raw_s = Ok ssp245.
Hypothesis item_h : Py.getitem (ds_hist st) i = Ok (series hist).
Hypothesis item_s : Py.getitem (ds_ssp245 st) i = Ok (series ssp245).
Hypothesis values_h : length (ts_values (series raw_h)) = n.
Hypothesis steps_h : (2 <= n)%nat.
Hypothesis start_h : starts_in_year y0 (series raw_h).
Hypothesis year_h : 1678 <= y0 <= 2261.
Hypothesis last_h : y0 + Z.of_nat n - 1 <= 2261.
Hypothesis values_s : length (ts_values (series raw_s)) = 85%nat.

Lemma hist_eq :
  series hist =
  mkTimeSeries
    (slice (Z.to_nat (1850 - y0)) (Z.to_nat (2015 - y0)) (ts_values (series raw_h)))
    (july_ends (Z.max y0 1850) last_year)
    (Py.dict_set (attrs (series raw_h)) "model" model).
Proof.
  pose proof (load_hist_Ok model raw_h y0 values_h steps_h start_h year_h last_h)
    as E.
  rewrite load_h in E. injection E as ->. reflexivity.
Qed.

Lemma ssp245_eq :
  series ssp245 =
  mkTimeSeries (ts_values (series raw_s)) (july_ends 2015 2099)
               (Py.dict_set (attrs (series raw_s)) "model" model).
Proof. now rewrite (load_ssp245_Ok_inv model raw_s ssp245 load_s). Qed.

Lemma merge_body_joins :
  y0 <= 2014 -> 1850 <= y0 + Z.of_nat n - 1 ->
  exists v,
    nth_error (ts_values (series raw_h)) (Z.to_nat (last_year - y0)) = Some v /\
    merge_body st i =
    Ok (mkStore (ds_hist st) (ds_ssp245 st)
          (ds_merged_ssp245 st ++
             [mkTimeSeries
                (v :: ts_values (series raw_s))
                (Time.civil last_year 7 31 0 0 0 0 :: july_ends 2015 2099)
                [("model"%string, model)]])).
Proof.
  intros H1 H2.
  destruct (nth_error (ts_values (series raw_h)) (Z.to_nat (last_year - y0)))
    as [v|] eqn:Ev.
  2:{ apply nth_error_None in Ev. subst last_year. lia. }
  exists v. split; [reflexivity|].
  unfold merge_body. rewrite item_h, item_s, hist_eq, ssp245_eq.
  cbn [bind ts_values ts_time attrs].
  rewrite (last_item_slice _ _ _ v) by lia. cbn [bind].
  rewrite last_item_july by (subst last_year; lia). cbn [bind].
  unfold new_DataArray. cbn [app length].
  rewrite values_s, length_july_ends. cbn [bind].
  change (S 85 =? S (Z.to_nat (2099 + 1 - 2015)))%nat with true. cbn [bind].
  rewrite !dict_get_set_model. cbn [bind]. rewrite String.eqb_refl.
  cbn [ts_values ts_time attrs].
  rewrite values_h.
  replace (Nat.min (Z.to_nat (2015 - y0)) n - 1)%nat
    with (Z.to_nat (last_year - y0)) by (subst last_year; lia).
  rewrite (nth_error_nth _ _ v Ev). reflexivity.
Qed.

Lemma merge_body_empty :
  2014 < y0 \/ y0 + Z.of_nat n - 1 < 1850 ->
  merge_body st i = Raise IndexError.
Proof.
  intros H. unfold merge_body. rewrite item_h, hist_eq.
  cbn [bind ts_values ts_time attrs].
  rewrite last_item_nil; [reflexivity|].
  apply length_zero_iff_nil. rewrite length_slice. lia.
Qed.

End Pair.

End MergeMore.

(** X11.  The two loading loops followed by one round of the merge loop.
    Let the historical file of a model hold [n >= 2] steps from the year [y0]
    on, with [y0 + n - 1] at most 2261 so that the loading goes through, and
    the scenario file 85 values.  When the historical series reaches into the
    years 1850 to 2014, the merged series holds the historical value of the
    year [min (y0 + n - 1) 2014] and then the 85 scenario values, stamped
    with the end of July of that year and of the years 2015 to 2099, and
    carries the model name; a historical series that ends before 2014 is
    joined to 2015 all the same.  When no year of the historical series lies
    in 1850 to 2014, the round raises [IndexError]. *)
Theorem merge_body_after_loading
        (st : Store) (i : nat) (model : string)
        (raw_h raw_s hist ssp245 : ModelTimeseries) (y0 : Z) :
  load_hist model raw_h = Ok hist ->
  load_ssp245 model raw_s = Ok ssp245 ->
  Py.getitem (ds_hist st) i = Ok (series hist) ->
  Py.getitem (ds_ssp245 st) i = Ok (series ssp245) ->
  length (ts_values (series raw_h)) = length (ts_time (series raw_h)) ->
  2 <= length (ts_time (series raw_h)) ->
  starts_in_year y0 (series raw_h) -> (1678 <= y0 <= 2261)%Z ->
  (y0 + Z.of_nat (length (ts_time (series raw_h))) - 1 <= 2261)%Z ->
  length (ts_values (series raw_s)) = 85 ->
  let last_year :=
    Z.min (y0 + Z.of_nat (length (ts_time (series raw_h))) - 1) 2014 in
  ((y0 <= 2014)%Z -> (1850 <= last_year)%Z ->
   exists v,
     nth_error (ts_values (series raw_h)) (Z.to_nat (last_year - y0)) = Some v /\
     merge_body st i =
     Ok (mkStore (ds_hist st) (ds_ssp245 st)
           (ds_merged_ssp245 st ++
              [mkTimeSeries
                 (v :: ts_values (series raw_s))
                 (Time.civil last_year 7 31 0 0 0 0 :: july_ends 2015 2099)
                 [("model"%string, model)]]))) /\
  ((2014 < y0)%Z \/ (last_year < 1850)%Z ->
   merge_body st i = Raise IndexError).
Proof.
  intros Hh Hs Ih Is Hv Hn Hst Hy Hl Hvs last_year. split.
  - intros H1 H2.
    apply (MergeMore.merge_body_joins st i model raw_h raw_s hist ssp245 y0
             Hh Hs Ih Is Hv Hn Hst Hy Hl Hvs H1).
    subst last_year. lia.
  - intros H.
    eapply MergeMore.merge_body_empty; try eassumption.
    subst last_year. lia.
Qed.

Lemma merge_body_after_loading_witness :
  (exists v,
     nth_error (ts_values (series (raw_hist 170))) (Z.to_nat (2014 - 1849)) = Some v /\
     merge_body example_store 0 =
     Ok (mkStore (ds_hist example_store) (ds_ssp245 example_store)
           (ds_merged_ssp245 example_store ++
              [mkTimeSeries
                 (v :: ts_values (series raw_ssp245))
                 (Time.civil 2014 7 31 0 0 0 0 :: july_ends 2015 2099)
                 [("model"%string, "CanESM5"%string)]]))) /\
  merge_body example_store_late 0 = Raise IndexError.
Proof.
  split.
  - assert (Hh : load_hist "CanESM5" (raw_hist 170) = Ok example_loaded_hist)
      by (vm_compute; reflexivity).
    assert (Hs : load_ssp245 "CanESM5" raw_ssp245 = Ok example_loaded_ssp245)
      by (vm_compute; reflexivity).
    assert (Ih : Py.getitem (ds_hist example_store) 0 = Ok (series example_loaded_hist))
      by reflexivity.
    assert (Is : Py.getitem (ds_ssp245 example_store) 0
                 = Ok (series example_loaded_ssp245)) by reflexivity.
    assert (Hv : length (ts_values (series (raw_hist 170))) =
                 length (ts_time (series (raw_hist 170)))) by reflexivity.
    assert (Hn : 2 <= length (ts_time (series (raw_hist 170))))
      by (vm_compute; lia).
    assert (Hst : starts_in_year 1849 (series (raw_hist 170)))
      by apply LoadMore.starts_in_year_raw_hist.
    assert (Hy : (1678 <= 1849 <= 2261)%Z) by lia.
    assert (Hl : (1849 + Z.of_nat (length (ts_time (series (raw_hist 170)))) - 1
                  <= 2261)%Z) by (vm_compute; discriminate).
    assert (Hvs : length (ts_values (series raw_ssp245)) = 85) by reflexivity.
    assert (H1 : (1849 <= 2014)%Z) by lia.
    assert (H2 : (1850 <= 2014)%Z) by lia.
    exact (proj1 (merge_body_after_loading example_store 0 "CanESM5"
                    (raw_hist 170) raw_ssp245
                    example_loaded_hist example_loaded_ssp245 1849
                    Hh Hs Ih Is Hv Hn Hst Hy Hl Hvs) H1 H2).
  - assert (Hh : load_hist "CanESM5" raw_hist_late = Ok example_loaded_late)
      by (vm_compute; reflexivity).
    assert (Hs : load_ssp245 "CanESM5" raw_ssp245 = Ok example_loaded_ssp245)
      by (vm_compute; reflexivity).
    assert (Ih : Py.getitem (ds_hist example_store_late) 0
                 = Ok (series example_loaded_late)) by reflexivity.
    assert (Is : Py.getitem (ds_ssp245 example_store_late) 0
                 = Ok (series example_loaded_ssp245)) by reflexivity.
    assert (Hv : length (ts_values (series raw_hist_late)) =
                 length (ts_time (series raw_hist_late))) by reflexivity.
    assert (Hn : 2 <= length (ts_time (series raw_hist_late)))
      by (vm_compute; lia).
    assert (Hst : starts_in_year 2020 (series raw_hist_late)).
    { exists (Time.civil 2020 7 2 12 0 0 0),
             (map (fun k => Time.civil (2020 + Z.of_nat k) 7 2 12 0 0 0) (seq 1 2)).
      split; [reflexivity|]. vm_compute. split; [discriminate|reflexivity]. }
    assert (Hy : (1678 <= 2020 <= 2261)%Z) by lia.
    assert (Hl : (2020 + Z.of_nat (length (ts_time (series raw_hist_late))) - 1
                  <= 2261)%Z) by (vm_compute; discriminate).
    assert (Hvs : length (ts_values (series raw_ssp245)) = 85) by reflexivity.
    assert (H1 : (2014 < 2020)%Z \/ (2014 < 1850)%Z) by (left; lia).
    exact (proj2 (merge_body_after_loading example_store_late 0 "CanESM5"
                    raw_hist_late raw_ssp245
                    example_loaded_late example_loaded_ssp245 2020
                    Hh Hs Ih Is Hv Hn Hst Hy Hl Hvs) H1).
Defined.
